(** * M5Cardputer Wi-Fi connector: ranked network set and session state machine

    A shallow embedding of [src/CANIVETE/src/main.cpp].  The global
    variables of the sketch become the fields of one [State] record that
    every function takes and returns.  The calls into the Wi-Fi driver are
    kept as a trace ([wifi_calls]); what the driver and the keyboard
    report back (scan results, connection status, pressed keys) is an
    explicit input of the function that reads it.  The drawing functions
    only read the globals and write to the display; what they draw is
    given by functions of their own ([draw_state], [loop_draws]) as a list
    of display calls.

    C++ [int], [int32_t] and [uint8_t] values are modelled in [Z].  The
    program never computes outside [-1, 10] on its counters (see
    [reachable_inv]), so no wrap-around occurs.  [String] is Rocq's
    [string]; [std::vector<char>] is [list ascii]. *)

From Stdlib Require Import ZArith Ascii String Lia DecimalString.
From stdpp Require Import base tactics list strings.

Local Open Scope Z_scope.

(** ** Data *)

(** [struct NetworkInfo]. *)
Record NetworkInfo := mkNetworkInfo {
  ssid : string;
  rssi : Z;
  encType : Z
}.

(** Global arrays are zero-initialised: empty name, 0 dBm, auth mode 0. *)
Global Instance NetworkInfo_inhabited : Inhabited NetworkInfo :=
  populate (mkNetworkInfo EmptyString 0 0).

Definition MAX_NETWORKS : Z := 10.

(** [wifi_auth_mode_t] of the ESP32 SDK: the only constant the state
    machine compares against. *)
Definition WIFI_AUTH_OPEN : Z := 0.

(** [enum UiState]. *)
Inductive UiState :=
| UI_NO_NETWORKS
| UI_SELECT_NETWORK
| UI_ENTER_PASSWORD
| UI_CONNECTING
| UI_CONNECTED
| UI_CONNECT_FAILED.

(** [wl_status_t] of the Arduino Wi-Fi library. *)
Inductive wl_status_t :=
| WL_NO_SHIELD
| WL_IDLE_STATUS
| WL_NO_SSID_AVAIL
| WL_SCAN_COMPLETED
| WL_CONNECTED
| WL_CONNECT_FAILED
| WL_CONNECTION_LOST
| WL_DISCONNECTED.

(** The calls the sketch makes on the [WiFi] object that change the
    driver, in program order. *)
Inductive WiFiCall :=
| WiFi_mode_STA
| WiFi_disconnect (wifioff eraseap : bool)
| WiFi_scanNetworks
| WiFi_begin (name : string) (passphrase : option string).

(** The globals of the sketch, plus the trace of driver calls. *)
Record State := mkState {
  g_networks : list NetworkInfo;
  g_networkCount : Z;
  g_selectedIndex : Z;
  g_selectedSsid : string;
  g_selectedIsOpen : bool;
  g_password : string;
  g_needRedraw : bool;
  g_uiState : UiState;
  wifi_calls : list WiFiCall
}.

Definition set_networks (v : list NetworkInfo) (s : State) : State :=
  mkState v (g_networkCount s) (g_selectedIndex s) (g_selectedSsid s)
    (g_selectedIsOpen s) (g_password s) (g_needRedraw s) (g_uiState s)
    (wifi_calls s).
Definition set_networkCount (v : Z) (s : State) : State :=
  mkState (g_networks s) v (g_selectedIndex s) (g_selectedSsid s)
    (g_selectedIsOpen s) (g_password s) (g_needRedraw s) (g_uiState s)
    (wifi_calls s).
Definition set_selectedIndex (v : Z) (s : State) : State :=
  mkState (g_networks s) (g_networkCount s) v (g_selectedSsid s)
    (g_selectedIsOpen s) (g_password s) (g_needRedraw s) (g_uiState s)
    (wifi_calls s).
Definition set_selectedSsid (v : string) (s : State) : State :=
  mkState (g_networks s) (g_networkCount s) (g_selectedIndex s) v
    (g_selectedIsOpen s) (g_password s) (g_needRedraw s) (g_uiState s)
    (wifi_calls s).
Definition set_selectedIsOpen (v : bool) (s : State) : State :=
  mkState (g_networks s) (g_networkCount s) (g_selectedIndex s)
    (g_selectedSsid s) v (g_password s) (g_needRedraw s) (g_uiState s)
    (wifi_calls s).
Definition set_password (v : string) (s : State) : State :=
  mkState (g_networks s) (g_networkCount s) (g_selectedIndex s)
    (g_selectedSsid s) (g_selectedIsOpen s) v (g_needRedraw s) (g_uiState s)
    (wifi_calls s).
Definition set_needRedraw (v : bool) (s : State) : State :=
  mkState (g_networks s) (g_networkCount s) (g_selectedIndex s)
    (g_selectedSsid s) (g_selectedIsOpen s) (g_password s) v (g_uiState s)
    (wifi_calls s).
Definition set_uiState (v : UiState) (s : State) : State :=
  mkState (g_networks s) (g_networkCount s) (g_selectedIndex s)
    (g_selectedSsid s) (g_selectedIsOpen s) (g_password s) (g_needRedraw s) v
    (wifi_calls s).
Definition call (c : WiFiCall) (s : State) : State :=
  mkState (g_networks s) (g_networkCount s) (g_selectedIndex s)
    (g_selectedSsid s) (g_selectedIsOpen s) (g_password s) (g_needRedraw s)
    (g_uiState s) (wifi_calls s ++ [c]).

(** ** insertNetworkSorted *)

(** [for (int i = 0; i < g_networkCount; ++i)
       if (rssi > g_networks[i].rssi) { pos = i; break; }]
    started at index [i]; [pos] is the value held when the loop is
    entered. *)
Fixpoint find_pos (fuel : nat) (i rssi0 cnt : Z) (nets : list NetworkInfo)
    (pos : Z) : Z :=
  match fuel with
  | O => pos
  | S fuel' =>
      if i <? cnt then
        if rssi0 >? rssi (nets !!! Z.to_nat i) then i
        else find_pos fuel' (i + 1) rssi0 cnt nets pos
      else pos
  end.

(** [for (int i = limit; i > pos; --i) g_networks[i] = g_networks[i - 1];]
    started at index [i]. *)
Fixpoint shift_down (fuel : nat) (i pos : Z) (nets : list NetworkInfo)
    : list NetworkInfo :=
  match fuel with
  | O => nets
  | S fuel' =>
      if i >? pos then
        shift_down fuel' (i - 1) pos
          (<[Z.to_nat i := nets !!! Z.to_nat (i - 1)]> nets)
      else nets
  end.

(** The fuel of the two loops is their largest possible trip count
    ([find_pos_fuel], [shift_down_fuel], [insertNetworkSorted_shift_fuel]).
    The three field stores into [g_networks[pos]] are one store of the
    whole struct. *)
Definition insertNetworkSorted (ssid0 : string) (rssi0 encType0 : Z)
    (s : State) : State :=
  let cnt := g_networkCount s in
  let nets := g_networks s in
  if (cnt =? MAX_NETWORKS) && (rssi0 <=? rssi (nets !!! Z.to_nat (cnt - 1)))
  then s
  else
    let pos := cnt in
    let pos := if pos >? MAX_NETWORKS then MAX_NETWORKS else pos in
    let pos := find_pos (Z.to_nat cnt) 0 rssi0 cnt nets pos in
    let limit := if cnt <? MAX_NETWORKS then cnt else MAX_NETWORKS - 1 in
    let nets := shift_down (Z.to_nat limit) limit pos nets in
    let nets := <[Z.to_nat pos := mkNetworkInfo ssid0 rssi0 encType0]> nets in
    let s := set_networks nets s in
    if cnt <? MAX_NETWORKS then set_networkCount (cnt + 1) s else s.

(** ** scanNetworks *)

(** What one blocking [WiFi.scanNetworks()] reports: its return value and
    the three per-index accessors. *)
Record WiFiScan := mkWiFiScan {
  scan_n : Z;
  scan_SSID : Z -> string;
  scan_RSSI : Z -> Z;
  scan_encryptionType : Z -> Z
}.

(** [for (int i = 0; i < n; ++i) { ... }] of [scanNetworks], started at
    index [i]. *)
Fixpoint scan_loop (fuel : nat) (i : Z) (w : WiFiScan) (s : State) : State :=
  match fuel with
  | O => s
  | S fuel' =>
      if i <? scan_n w then
        let ssid0 := scan_SSID w i in
        let rssi0 := scan_RSSI w i in
        let enc := scan_encryptionType w i in
        let s :=
          if (String.length ssid0 =? 0)%nat then s
          else insertNetworkSorted ssid0 rssi0 enc s in
        scan_loop fuel' (i + 1) w s
      else s
  end.

Definition scanNetworks (w : WiFiScan) (s : State) : State :=
  let s := set_networkCount 0 s in
  let s := set_selectedIndex 0 s in
  let s := call WiFi_mode_STA s in
  let s := call (WiFi_disconnect true false) s in
  let s := call WiFi_scanNetworks s in
  let n := scan_n w in
  let s :=
    if n <=? 0 then set_uiState UI_NO_NETWORKS s
    else
      let s := scan_loop (Z.to_nat n) 0 w s in
      if g_networkCount s =? 0 then set_uiState UI_NO_NETWORKS s
      else set_uiState UI_SELECT_NETWORK (set_selectedIndex 0 s) in
  set_needRedraw true s.

(** ** startConnection *)

Definition startConnection (s : State) : State :=
  let s := set_uiState UI_CONNECTING s in
  let s := set_needRedraw true s in
  let s := call WiFi_mode_STA s in
  let s := call (WiFi_disconnect false false) s in
  if g_selectedIsOpen s then call (WiFi_begin (g_selectedSsid s) None) s
  else call (WiFi_begin (g_selectedSsid s) (Some (g_password s))) s.

(** ** handleKeyboard *)

(** The fields of [Keyboard_Class::KeysState] that the sketch reads. *)
Record KeysState := mkKeysState {
  word : list ascii;
  enter : bool;
  del : bool
}.

(** What the keyboard reports during one call of [handleKeyboard]. *)
Record Keyboard := mkKeyboard {
  isChange : bool;
  isPressed : bool;
  keysState : KeysState
}.

Definition is_char (c d : ascii) : bool := Ascii.eqb c d.

Definition is_rescan_key (ch : ascii) : bool :=
  is_char ch "r" || is_char ch "R".
Definition is_back_key (ch : ascii) : bool :=
  is_char ch "q" || is_char ch "Q".

(** One pass of the W/S loop body of [UI_SELECT_NETWORK]. *)
Definition select_key (ch : ascii) (s : State) : State :=
  if is_char ch "w" || is_char ch "W" then
    if g_networkCount s >? 0 then
      let s := set_selectedIndex (g_selectedIndex s - 1) s in
      let s :=
        if g_selectedIndex s <? 0
        then set_selectedIndex (g_networkCount s - 1) s else s in
      set_needRedraw true s
    else s
  else if is_char ch "s" || is_char ch "S" then
    if g_networkCount s >? 0 then
      let s := set_selectedIndex (g_selectedIndex s + 1) s in
      let s :=
        if g_selectedIndex s >=? g_networkCount s
        then set_selectedIndex 0 s else s in
      set_needRedraw true s
    else s
  else s.

(** One pass of the typing loop body of [UI_ENTER_PASSWORD]. *)
Definition type_key (ch : ascii) (s : State) : State :=
  if is_back_key ch then s
  else
    set_needRedraw true
      (set_password (g_password s +:+ String ch EmptyString) s).

(** [String::remove(index)]: drops everything from [index] on; no change
    when [index] is past the end. *)
Definition String_remove (index : nat) (str : string) : string :=
  if (index <? String.length str)%nat then substring 0 index str else str.

(** A range-based [for] over [ks.word] whose body does not leave the
    loop. *)
Definition for_each_key (body : ascii -> State -> State) (w : list ascii)
    (s : State) : State :=
  fold_left (fun s ch => body ch s) w s.

Definition handleKeyboard (kb : Keyboard) (w : WiFiScan) (s : State) : State :=
  if negb (isChange kb) then s
  else if negb (isPressed kb) then s
  else
    let ks := keysState kb in
    (* the first loop returns at the first r/R it meets *)
    if existsb is_rescan_key (word ks) then
      scanNetworks w (call (WiFi_disconnect true false) s)
    else
      match g_uiState s with
      | UI_NO_NETWORKS => s
      | UI_SELECT_NETWORK =>
          let s := for_each_key select_key (word ks) s in
          if enter ks && (g_networkCount s >? 0) then
            let sel := g_networks s !!! Z.to_nat (g_selectedIndex s) in
            let s := set_selectedSsid (ssid sel) s in
            let s := set_selectedIsOpen (encType sel =? WIFI_AUTH_OPEN) s in
            let s := set_password EmptyString s in
            let s := set_uiState UI_ENTER_PASSWORD s in
            set_needRedraw true s
          else s
      | UI_ENTER_PASSWORD =>
          (* the Q/q loop returns at the first q/Q it meets *)
          if existsb is_back_key (word ks) then
            set_needRedraw true
              (set_password EmptyString (set_uiState UI_SELECT_NETWORK s))
          else if g_selectedIsOpen s then
            if enter ks then startConnection s else s
          else
            let s := for_each_key type_key (word ks) s in
            let s :=
              if del ks && (0 <? String.length (g_password s))%nat then
                set_needRedraw true
                  (set_password
                     (String_remove (String.length (g_password s) - 1)
                        (g_password s)) s)
              else s in
            if enter ks then startConnection s else s
      | UI_CONNECTING => s
      | UI_CONNECTED => s
      | UI_CONNECT_FAILED => s
      end.

(** ** updateDisplayIfNeeded, setup and loop *)

(** The draw functions write to the display only; on the globals the
    function clears the dirty flag. *)
Definition updateDisplayIfNeeded (s : State) : State :=
  if negb (g_needRedraw s) then s else set_needRedraw false s.

(** The globals as their initialisers leave them. *)
Definition initial_state : State :=
  mkState (replicate (Z.to_nat MAX_NETWORKS) inhabitant) 0 0 EmptyString
    false EmptyString true UI_NO_NETWORKS [].

Definition setup (w : WiFiScan) (s : State) : State := scanNetworks w s.

(** What the environment delivers during one pass of [loop]. *)
Record Tick := mkTick {
  tick_keyboard : Keyboard;
  tick_scan : WiFiScan;
  tick_status : wl_status_t
}.

Definition poll_status (st : wl_status_t) (s : State) : State :=
  match st with
  | WL_CONNECTED => set_needRedraw true (set_uiState UI_CONNECTED s)
  | WL_CONNECT_FAILED | WL_NO_SSID_AVAIL =>
      set_needRedraw true (set_uiState UI_CONNECT_FAILED s)
  | _ => s
  end.

Definition loop (t : Tick) (s : State) : State :=
  let s := handleKeyboard (tick_keyboard t) (tick_scan t) s in
  let s :=
    match g_uiState s with
    | UI_CONNECTING => poll_status (tick_status t) s
    | _ => s
    end in
  updateDisplayIfNeeded s.

(** ** The ranked set, as the specification words it *)

(** The entries the sketch regards as held: the first [g_networkCount]
    slots of [g_networks]. *)
Definition held (s : State) : list NetworkInfo :=
  take (Z.to_nat (g_networkCount s)) (g_networks s).

(** Capacity of the specification, the [MAX_NETWORKS] of the sketch. *)
Definition Capacity : nat := 10.

(** The first index whose held strength is strictly less than [r]; the
    length of the list when there is none. *)
Fixpoint first_weaker (r : Z) (l : list NetworkInfo) : nat :=
  match l with
  | [] => O
  | e :: l' => if rssi e <? r then O else S (first_weaker r l')
  end.

(** offer(observation) of the specification, on the held sequence. *)
Definition spec_offer (o : NetworkInfo) (l : list NetworkInfo)
    : list NetworkInfo :=
  if (length l =? Capacity)%nat && (rssi o <=? rssi (l !!! (length l - 1)%nat))
  then l
  else
    let pos := first_weaker (rssi o) l in
    take Capacity (take pos l ++ o :: drop pos l).

(** Strength-descending on every adjacent pair. *)
Definition sorted_desc (l : list NetworkInfo) : Prop :=
  ∀ (i : nat) (a b : NetworkInfo),
    l !! i = Some a → l !! S i = Some b → rssi a >= rssi b.

(** The array has its declared size and the counter is within it. *)
Definition wf_set (s : State) : Prop :=
  length (g_networks s) = Z.to_nat MAX_NETWORKS ∧
  0 <= g_networkCount s <= MAX_NETWORKS.

(** The C call [insertNetworkSorted(o.ssid, o.rssi, o.encType)]. *)
Definition offer (o : NetworkInfo) (s : State) : State :=
  insertNetworkSorted (ssid o) (rssi o) (encType o) s.

(** reset() of the specification: [g_networkCount = 0]. *)
Definition reset (s : State) : State := set_networkCount 0 s.

(** ** Events, runs, predicates and sample data used in the statements *)

(** A run of offers, oldest first. *)
Definition offers (os : list NetworkInfo) (s : State) : State :=
  fold_left (fun s o => offer o s) os s.

(** The same run on the held sequence of the specification. *)
Definition spec_offers (os : list NetworkInfo) (l : list NetworkInfo)
    : list NetworkInfo :=
  fold_left (fun l o => spec_offer o l) os l.

(** The [i]-th observation of a scan, as the loop of [scanNetworks] reads
    it. *)
Definition scan_entry (w : WiFiScan) (i : Z) : NetworkInfo :=
  mkNetworkInfo (scan_SSID w i) (scan_RSSI w i) (scan_encryptionType w i).

(** The observations of a scan in index order; none when the driver
    reports zero or an error code. *)
Definition scan_results (w : WiFiScan) : list NetworkInfo :=
  scan_entry w <$> seqZ 0 (scan_n w).

(** An observation is hidden when its name is empty. *)
Definition visible (o : NetworkInfo) : bool :=
  negb (String.length (ssid o) =? 0)%nat.

(** The observations of a scan that have a name, in scan order. *)
Definition usable (w : WiFiScan) : list NetworkInfo :=
  List.filter visible (scan_results w).

(** The keyboard reports a change with keys down. *)
Definition pressed (kb : Keyboard) : bool := isChange kb && isPressed kb.

(** A press that carries the rescan key R/r. *)
Definition rescan_pressed (kb : Keyboard) : bool :=
  pressed kb && existsb is_rescan_key (word (keysState kb)).

(** The keyboard reports of the single events: one character typed,
    Enter alone, Delete alone. *)
Definition key_char (c : ascii) : Keyboard :=
  mkKeyboard true true (mkKeysState [c] false false).
Definition key_enter : Keyboard :=
  mkKeyboard true true (mkKeysState [] true false).
Definition key_delete : Keyboard :=
  mkKeyboard true true (mkKeysState [] false true).

(** A status that is neither the success report nor one of the two failure
    reports. *)
Definition pending (st : wl_status_t) : bool :=
  match st with
  | WL_CONNECTED | WL_CONNECT_FAILED | WL_NO_SSID_AVAIL => false
  | _ => true
  end.

(** A run of loop passes, oldest first. *)
Definition run (ts : list Tick) (s : State) : State :=
  fold_left (fun s t => loop t s) ts s.

(** The tests of the W/S loop. *)
Definition is_up_key (ch : ascii) : bool := is_char ch "w" || is_char ch "W".
Definition is_down_key (ch : ascii) : bool := is_char ch "s" || is_char ch "S".

(** A run of single-character presses, oldest first. *)
Definition presses (cs : list ascii) (w : WiFiScan) (s : State) : State :=
  fold_left (fun s c => handleKeyboard (key_char c) w s) cs s.

(** The states the sketch is in between two passes of [loop]: [setup]
    runs the first scan on the initial globals, then [loop] repeats. *)
Inductive reachable : State → Prop :=
| reach_setup (w : WiFiScan) : reachable (setup w initial_state)
| reach_loop (t : Tick) (s : State) : reachable s → reachable (loop t s).

(** [c] occurs in [p]. *)
Fixpoint has_char (c : ascii) (p : string) : bool :=
  match p with
  | EmptyString => false
  | String a p' => is_char a c || has_char c p'
  end.

(** The buffer holds none of r, R, q, Q. *)
Definition clean (p : string) : Prop :=
  has_char "r" p = false ∧ has_char "R" p = false ∧
  has_char "q" p = false ∧ has_char "Q" p = false.

(** No password handed to [WiFi.begin] so far holds r, R, q or Q. *)
Definition begun_clean (s : State) : Prop :=
  ∀ n p, WiFi_begin n (Some p) ∈ wifi_calls s → clean p.

(** What holds of the globals between two passes of [loop]. *)
Definition inv (s : State) : Prop :=
  wf_set s ∧ sorted_desc (held s) ∧
  (0 <= g_selectedIndex s ∧
   (g_selectedIndex s < g_networkCount s ∨ g_selectedIndex s = 0)) ∧
  (g_uiState s = UI_NO_NETWORKS ↔ g_networkCount s = 0) ∧
  clean (g_password s) ∧ begun_clean s.

(** A scan that finds A (-40 dBm, WPA2), B (-70 dBm, open) and C (-55 dBm,
    WEP), in that order. *)
Definition scan_ABC : WiFiScan :=
  mkWiFiScan 3
    (fun i => if i =? 0 then "A"%string else if i =? 1 then "B"%string
              else if i =? 2 then "C"%string else EmptyString)
    (fun i => if i =? 0 then -40 else if i =? 1 then -70
              else if i =? 2 then -55 else 0)
    (fun i => if i =? 0 then 3 else if i =? 1 then 0
              else if i =? 2 then 1 else 0).

(** A scan that finds nothing. *)
Definition scan_none : WiFiScan :=
  mkWiFiScan 0 (fun _ => EmptyString) (fun _ => 0) (fun _ => 0).

(** A scan that finds twelve networks N00 .. N11 of strengths -40, -41, ...,
    -51, all WPA2. *)
Definition scan_twelve : WiFiScan :=
  mkWiFiScan 12
    (fun i => String "N" (String (ascii_of_nat (48 + Z.to_nat (i / 10)))
                (String (ascii_of_nat (48 + Z.to_nat (i mod 10))) EmptyString)))
    (fun i => -40 - i)
    (fun _ => 3).

(** The sketch has started and its first scan found A, B and C. *)
Definition state_ABC : State := setup scan_ABC initial_state.

(** A is selected and its password is asked for. *)
Definition state_password_A : State :=
  handleKeyboard key_enter scan_ABC state_ABC.

(** B, the open network, is selected. *)
Definition state_open_B : State :=
  handleKeyboard key_enter scan_ABC (presses ["s"; "s"]%char scan_ABC state_ABC).

(** Ten networks are held. *)
Definition state_full : State := setup scan_twelve initial_state.

(** [sorted_desc] and [wf_set] as computations. *)
Fixpoint sorted_descb (l : list NetworkInfo) : bool :=
  match l with
  | a :: l' =>
      match l' with
      | b :: _ => (rssi b <=? rssi a) && sorted_descb l'
      | [] => true
      end
  | [] => true
  end.

Definition wf_setb (s : State) : bool :=
  (length (g_networks s) =? Z.to_nat MAX_NETWORKS)%nat &&
  (0 <=? g_networkCount s) && (g_networkCount s <=? MAX_NETWORKS).

(** Observations offered to the sample states: X ties with the weakest of
    [state_full], Y is stronger than four of its entries, Z ties with C of
    [state_ABC]. *)
Definition weak_X : NetworkInfo := mkNetworkInfo "X" (-49) 3.
Definition strong_Y : NetworkInfo := mkNetworkInfo "Y" (-45) 3.

(** A loop pass that delivers one keyboard report while the driver reports
    [WL_IDLE_STATUS] and a rescan would find [scan_ABC]. *)
Definition tick_key (kb : Keyboard) : Tick := mkTick kb scan_ABC WL_IDLE_STATUS.

(** A loop pass without keyboard change, with the given driver status. *)
Definition tick_status_only (st : wl_status_t) : Tick :=
  mkTick (mkKeyboard false false (mkKeysState [] false false)) scan_ABC st.

(** After the first scan the user confirms A and types a, b. *)
Definition state_typed_ab : State :=
  run [tick_key key_enter; tick_key (key_char "a"); tick_key (key_char "b")]
    state_ABC.

(** After the first scan the user moves to B, confirms it, and confirms
    again on the open-network screen. *)
Definition state_connecting : State :=
  run [tick_key (key_char "s"); tick_key (key_char "s"); tick_key key_enter;
       tick_key key_enter] state_ABC.

(** ** Array accesses made explicit *)

(** [g_networks[i]] with the declared bounds checked: indexing outside
    [0, MAX_NETWORKS) has no defined result. *)
Definition slot (nets : list NetworkInfo) (i : Z) : option NetworkInfo :=
  if (0 <=? i) && (i <? MAX_NETWORKS) then nets !! Z.to_nat i else None.

(** The scan loop of [insertNetworkSorted], failing on an access outside
    the array. *)
Fixpoint find_pos_chk (fuel : nat) (i rssi0 cnt : Z) (nets : list NetworkInfo)
    (pos : Z) : option Z :=
  match fuel with
  | O => Some pos
  | S fuel' =>
      if i <? cnt then
        e ← slot nets i;
        if rssi0 >? rssi e then Some i
        else find_pos_chk fuel' (i + 1) rssi0 cnt nets pos
      else Some pos
  end.

(** The shifting loop of [insertNetworkSorted], failing on an access
    outside the array. *)
Fixpoint shift_down_chk (fuel : nat) (i pos : Z) (nets : list NetworkInfo)
    : option (list NetworkInfo) :=
  match fuel with
  | O => Some nets
  | S fuel' =>
      if i >? pos then
        e ← slot nets (i - 1);
        _ ← slot nets i;
        shift_down_chk fuel' (i - 1) pos (<[Z.to_nat i := e]> nets)
      else Some nets
  end.

(** [insertNetworkSorted], failing on an access outside the array. *)
Definition insertNetworkSorted_chk (ssid0 : string) (rssi0 encType0 : Z)
    (s : State) : option State :=
  let cnt := g_networkCount s in
  let nets := g_networks s in
  discard ←
    (if cnt =? MAX_NETWORKS then
       e ← slot nets (cnt - 1); Some (rssi0 <=? rssi e)
     else Some false);
  if discard : bool then Some s
  else
    let pos := cnt in
    let pos := if pos >? MAX_NETWORKS then MAX_NETWORKS else pos in
    pos ← find_pos_chk (Z.to_nat cnt) 0 rssi0 cnt nets pos;
    let limit := if cnt <? MAX_NETWORKS then cnt else MAX_NETWORKS - 1 in
    nets ← shift_down_chk (Z.to_nat limit) limit pos nets;
    _ ← slot nets pos;
    let nets := <[Z.to_nat pos := mkNetworkInfo ssid0 rssi0 encType0]> nets in
    let s := set_networks nets s in
    Some (if cnt <? MAX_NETWORKS then set_networkCount (cnt + 1) s else s).

(** A run of checked offers, oldest first. *)
Fixpoint offers_chk (os : list NetworkInfo) (s : State) : option State :=
  match os with
  | [] => Some s
  | o :: os' =>
      s' ← insertNetworkSorted_chk (ssid o) (rssi o) (encType o) s;
      offers_chk os' s'
  end.

(** ** Sorting a whole scan *)

(** Insertion behind every entry that is at least as strong. *)
Definition insert_desc (o : NetworkInfo) (l : list NetworkInfo)
    : list NetworkInfo :=
  take (first_weaker (rssi o) l) l ++ o :: drop (first_weaker (rssi o) l) l.

(** Insertion sort by descending strength, observations taken oldest
    first. *)
Definition sort_desc (os : list NetworkInfo) : list NetworkInfo :=
  fold_left (fun l o => insert_desc o l) os [].

(** ** The display *)

(** The colour constants the sketch uses. *)
Inductive Color := BLACK | GREEN | RED | WHITE.

(** The calls the sketch makes on [M5Cardputer.Display], in program
    order. *)
Inductive DrawCmd :=
| Display_clear (c : Color)
| Display_setCursor (x y : Z)
| Display_print (text : string)
| Display_println (text : string)
| Display_drawLine (x0 y0 x1 y1 : Z) (c : Color).

(** What the drawing functions read from their surroundings: the display
    size, and the name and address the driver reports once connected. *)
Record DisplayEnv := mkDisplayEnv {
  Display_width : Z;
  Display_height : Z;
  WiFi_SSID : string;
  WiFi_localIP : string
}.

(** The values of the [wifi_auth_mode_t] constants other than
    [WIFI_AUTH_OPEN] that [authTypeToString] names. *)
Record AuthModes := mkAuthModes {
  WIFI_AUTH_WEP : Z;
  WIFI_AUTH_WPA_PSK : Z;
  WIFI_AUTH_WPA2_PSK : Z;
  WIFI_AUTH_WPA_WPA2_PSK : Z;
  WIFI_AUTH_WPA2_ENTERPRISE : Z;
  WIFI_AUTH_WPA3_PSK : Z;
  WIFI_AUTH_WPA2_WPA3_PSK : Z
}.

(** [String(value)] for an [int32_t]: the decimal digits, with a leading
    minus sign for a negative value. *)
Definition String_of_int (v : Z) : string :=
  NilZero.string_of_int (Z.to_int v).

Definition clearScreen : list DrawCmd :=
  [Display_clear BLACK; Display_setCursor 4 4].

(** The [switch] of [authTypeToString]; its case labels are distinct, so
    testing them in order selects the same branch. *)
Definition authTypeToString (m : AuthModes) (auth : Z) : string :=
  if auth =? WIFI_AUTH_OPEN then "Aberta"
  else if auth =? WIFI_AUTH_WEP m then "WEP"
  else if auth =? WIFI_AUTH_WPA_PSK m then "WPA"
  else if auth =? WIFI_AUTH_WPA2_PSK m then "WPA2"
  else if auth =? WIFI_AUTH_WPA_WPA2_PSK m then "WPA/WPA2"
  else if auth =? WIFI_AUTH_WPA2_ENTERPRISE m then "WPA2-ENT"
  else if auth =? WIFI_AUTH_WPA3_PSK m then "WPA3"
  else if auth =? WIFI_AUTH_WPA2_WPA3_PSK m then "WPA2/WPA3"
  else "Desconhecido".

(** What [scanNetworks] draws before the blocking scan. *)
Definition scanNetworks_draws : list DrawCmd :=
  clearScreen ++
  [Display_println "Scan de redes Wi-Fi..."; Display_setCursor 4 20;
   Display_println "Aguarde alguns segundos."].

Definition drawNoNetworksScreen : list DrawCmd :=
  clearScreen ++
  [Display_println "Nenhuma rede encontrada."; Display_setCursor 4 20;
   Display_println "Pressione R para novo scan."].

(** One row of the network list: cursor, selection mark, text. *)
Definition list_row (m : AuthModes) (s : State) (i y : Z) : list DrawCmd :=
  let e := g_networks s !!! Z.to_nat i in
  [Display_setCursor 4 y;
   Display_print (if i =? g_selectedIndex s then "> " else "  ");
   Display_println
     (ssid e +:+ " (" +:+ String_of_int (rssi e) +:+ "dBm) "
      +:+ authTypeToString m (encType e))].

(** The row loop of [drawNetworkListScreen], started at index [i] with the
    cursor height [y]; it returns the calls made and the final [y]. *)
Fixpoint list_rows (fuel : nat) (m : AuthModes) (env : DisplayEnv) (s : State)
    (i y : Z) : list DrawCmd * Z :=
  match fuel with
  | O => ([], y)
  | S fuel' =>
      if i <? g_networkCount s then
        let row := list_row m s i y in
        let y := y + 12 in
        if y >? Display_height env - 24 then (row, y)
        else
          let rest := list_rows fuel' m env s (i + 1) y in
          (row ++ rest.1, rest.2)
      else ([], y)
  end.

Definition drawNetworkListScreen (m : AuthModes) (env : DisplayEnv)
    (s : State) : list DrawCmd :=
  let rows := list_rows (Z.to_nat (g_networkCount s)) m env s 0 22 in
  let y := rows.2 + 4 in
  clearScreen ++
  [Display_println "Selecione rede Wi-Fi:";
   Display_drawLine 0 16 (Display_width env) 16 GREEN] ++
  rows.1 ++
  [Display_setCursor 4 y; Display_println "W/S: mover   ENTER: conectar";
   Display_setCursor 4 (y + 12); Display_println "R: novo scan"].

Definition drawPasswordScreen (env : DisplayEnv) (s : State) : list DrawCmd :=
  clearScreen ++
  [Display_println "Rede selecionada:"; Display_setCursor 4 18;
   Display_println (g_selectedSsid s);
   Display_drawLine 0 30 (Display_width env) 30 GREEN] ++
  (if g_selectedIsOpen s then
     [Display_setCursor 4 38; Display_println "Rede aberta (sem senha).";
      Display_setCursor 4 52; Display_println "ENTER: conectar   Q: voltar"]
   else
     [Display_setCursor 4 38; Display_println "Digite a senha Wi-Fi:";
      Display_setCursor 4 52; Display_println (g_password s);
      Display_setCursor 4 70; Display_println "ENTER: conectar";
      Display_setCursor 4 82; Display_println "DEL: apagar  Q: voltar"]).

Definition drawConnectingScreen (env : DisplayEnv) (s : State)
    : list DrawCmd :=
  clearScreen ++
  [Display_println "Conectando em:"; Display_setCursor 4 18;
   Display_println (g_selectedSsid s);
   Display_drawLine 0 30 (Display_width env) 30 GREEN;
   Display_setCursor 4 40; Display_println "Aguarde...";
   Display_setCursor 4 56; Display_println "R: cancelar e refazer scan"].

Definition drawConnectedScreen (env : DisplayEnv) : list DrawCmd :=
  clearScreen ++
  [Display_println "Wi-Fi conectado!";
   Display_drawLine 0 16 (Display_width env) 16 GREEN;
   Display_setCursor 4 24; Display_print "SSID: ";
   Display_println (WiFi_SSID env);
   Display_setCursor 4 38; Display_print "IP:   ";
   Display_println (WiFi_localIP env);
   Display_setCursor 4 52; Display_println "R: desconectar e refazer scan"].

Definition drawConnectFailedScreen (env : DisplayEnv) : list DrawCmd :=
  clearScreen ++
  [Display_println "Falha ao conectar.";
   Display_drawLine 0 16 (Display_width env) 16 RED;
   Display_setCursor 4 24; Display_println "Verifique SSID / senha.";
   Display_setCursor 4 38; Display_println "R: tentar novamente (novo scan)"].

(** The screen [updateDisplayIfNeeded] draws for the current state. *)
Definition draw_state (m : AuthModes) (env : DisplayEnv) (s : State)
    : list DrawCmd :=
  match g_uiState s with
  | UI_NO_NETWORKS => drawNoNetworksScreen
  | UI_SELECT_NETWORK => drawNetworkListScreen m env s
  | UI_ENTER_PASSWORD => drawPasswordScreen env s
  | UI_CONNECTING => drawConnectingScreen env s
  | UI_CONNECTED => drawConnectedScreen env
  | UI_CONNECT_FAILED => drawConnectFailedScreen env
  end.

(** The display calls of [updateDisplayIfNeeded]. *)
Definition updateDisplayIfNeeded_draws (m : AuthModes) (env : DisplayEnv)
    (s : State) : list DrawCmd :=
  if negb (g_needRedraw s) then [] else draw_state m env s.

(** The display calls of [handleKeyboard]: those of the [scanNetworks] it
    runs on R/r. *)
Definition handleKeyboard_draws (kb : Keyboard) : list DrawCmd :=
  if negb (isChange kb) then []
  else if negb (isPressed kb) then []
  else if existsb is_rescan_key (word (keysState kb)) then scanNetworks_draws
  else [].

(** The globals of one pass of [loop] when it reaches
    [updateDisplayIfNeeded]. *)
Definition loop_before_display (t : Tick) (s : State) : State :=
  let s := handleKeyboard (tick_keyboard t) (tick_scan t) s in
  match g_uiState s with
  | UI_CONNECTING => poll_status (tick_status t) s
  | _ => s
  end.

(** The display calls of one pass of [loop]. *)
Definition loop_draws (m : AuthModes) (env : DisplayEnv) (t : Tick)
    (s : State) : list DrawCmd :=
  handleKeyboard_draws (tick_keyboard t) ++
  updateDisplayIfNeeded_draws m env (loop_before_display t s).

(** The rows of the network list that fit a display of the given
    height: a row is drawn, then the loop stops once the next row would
    start below [height - 24]. *)
Definition rows_that_fit (height : Z) : Z := Z.max 1 ((height - 46) / 12 + 1).

(** The constants as the ESP32 SDK numbers them, and the Cardputer display
    in landscape. *)
Definition esp32_auth_modes : AuthModes := mkAuthModes 1 2 3 4 5 6 7.
Definition cardputer_display : DisplayEnv :=
  mkDisplayEnv 240 135 "A" "192.168.0.2".

(** A state outside [wf_set]: the counter is past the array. *)
Definition state_overfull : State := set_networkCount 11 initial_state.

(** ** The selection while a network is being joined *)

(** The entry of the array under the selection index. *)
Definition selected_entry (s : State) : NetworkInfo :=
  g_networks s !!! Z.to_nat (g_selectedIndex s).

(** Past the list, the name and the open flag are those of the entry under
    the selection index, and an open network has an empty buffer. *)
Definition selection_kept (s : State) : Prop :=
  g_uiState s ≠ UI_NO_NETWORKS → g_uiState s ≠ UI_SELECT_NETWORK →
  g_selectedSsid s = ssid (selected_entry s) ∧
  g_selectedIsOpen s = (encType (selected_entry s) =? WIFI_AUTH_OPEN) ∧
  (g_selectedIsOpen s = true → g_password s = EmptyString).

(** From Connecting on, the most recent call in the trace is the join
    request for the selected name, with the buffer as passphrase unless the
    network is open.  The trace holds the calls that change the driver
    ([WiFi.mode], [WiFi.disconnect], [WiFi.scanNetworks], [WiFi.begin]);
    the queries [WiFi.status()], [WiFi.SSID()] and [WiFi.localIP()], which
    the sketch makes after [WiFi.begin], are not in it. *)
Definition attempt_matches (s : State) : Prop :=
  g_uiState s = UI_CONNECTING ∨ g_uiState s = UI_CONNECTED ∨
  g_uiState s = UI_CONNECT_FAILED →
  last (wifi_calls s)
  = Some (WiFi_begin (g_selectedSsid s)
            (if g_selectedIsOpen s then None else Some (g_password s))).

(** A scan with two ties and a hidden network: P (-50), a hidden one
    (-30), Q (-60), R (-50), S (-60). *)
Definition scan_ties : WiFiScan :=
  mkWiFiScan 5
    (fun i => if i =? 0 then "P"%string else if i =? 1 then EmptyString
              else if i =? 2 then "Q"%string else if i =? 3 then "R"%string
              else if i =? 4 then "S"%string else EmptyString)
    (fun i => if i =? 0 then -50 else if i =? 1 then -30
              else if i =? 2 then -60 else if i =? 3 then -50
              else if i =? 4 then -60 else 0)
    (fun i => if i =? 0 then 3 else if i =? 1 then 0
              else if i =? 2 then 0 else if i =? 3 then 1
              else if i =? 4 then 3 else 0).

(** The join of B has succeeded. *)
Definition state_connected : State :=
  run [tick_status_only WL_CONNECTED] state_connecting.

(** Ten networks are held and the ninth is selected. *)
Definition state_full_ninth : State :=
  presses ["w"; "w"]%char scan_twelve
    (updateDisplayIfNeeded state_full).

(** Reduce field reads of updated states, leaving the loops folded. *)
Ltac simpl_state :=
  cbn [g_networks g_networkCount g_selectedIndex g_selectedSsid
       g_selectedIsOpen g_password g_needRedraw g_uiState wifi_calls
       set_networks set_networkCount set_selectedIndex set_selectedSsid
       set_selectedIsOpen set_password set_needRedraw set_uiState call] in *.

(** ** Loops: the fuel given is enough *)

Lemma find_pos_fuel (fuel : nat) (i r cnt : Z) (nets : list NetworkInfo) (pos : Z) :
  (Z.to_nat (cnt - i) ≤ fuel)%nat →
  find_pos fuel i r cnt nets pos = find_pos (Z.to_nat (cnt - i)) i r cnt nets pos.
Proof.
  revert i. induction fuel as [|fuel IH]; intros i Hf.
  - replace (Z.to_nat (cnt - i)) with O by lia. done.
  - simpl. destruct (Z.ltb_spec i cnt) as [Hlt|Hge].
    + replace (Z.to_nat (cnt - i)) with (S (Z.to_nat (cnt - (i + 1)))) by lia.
      simpl. destruct (Z.ltb_spec i cnt); [|lia].
      destruct (r >? rssi (nets !!! Z.to_nat i)); [done|].
      apply IH. lia.
    + replace (Z.to_nat (cnt - i)) with O by lia. done.
Qed.

Lemma shift_down_fuel (fuel : nat) (i pos : Z) (nets : list NetworkInfo) :
  (Z.to_nat (i - pos) ≤ fuel)%nat →
  shift_down fuel i pos nets = shift_down (Z.to_nat (i - pos)) i pos nets.
Proof.
  revert i nets. induction fuel as [|fuel IH]; intros i nets Hf.
  - replace (Z.to_nat (i - pos)) with O by lia. done.
  - simpl. destruct (Z.gtb_spec i pos) as [Hgt|Hle].
    + replace (Z.to_nat (i - pos)) with (S (Z.to_nat (i - 1 - pos))) by lia.
      simpl. destruct (Z.gtb_spec i pos); [|lia].
      apply IH. lia.
    + replace (Z.to_nat (i - pos)) with O by lia. done.
Qed.

Lemma scan_loop_fuel (fuel : nat) (i : Z) (w : WiFiScan) (s : State) :
  (Z.to_nat (scan_n w - i) ≤ fuel)%nat →
  scan_loop fuel i w s = scan_loop (Z.to_nat (scan_n w - i)) i w s.
Proof.
  revert i s. induction fuel as [|fuel IH]; intros i s Hf.
  - replace (Z.to_nat (scan_n w - i)) with O by lia. done.
  - simpl. destruct (Z.ltb_spec i (scan_n w)) as [Hlt|Hge].
    + replace (Z.to_nat (scan_n w - i))
        with (S (Z.to_nat (scan_n w - (i + 1)))) by lia.
      simpl. destruct (Z.ltb_spec i (scan_n w)); [|lia].
      apply IH. lia.
    + replace (Z.to_nat (scan_n w - i)) with O by lia. done.
Qed.

(** ** insertNetworkSorted refines offer *)

Lemma first_weaker_le (r : Z) (l : list NetworkInfo) :
  (first_weaker r l ≤ length l)%nat.
Proof. induction l as [|e l IH]; simpl; [lia|]. destruct (rssi e <? r); lia. Qed.

Lemma first_weaker_before (r : Z) (l : list NetworkInfo) (j : nat) (a : NetworkInfo) :
  (j < first_weaker r l)%nat → l !! j = Some a → r <= rssi a.
Proof.
  revert j. induction l as [|e l IH]; intros j Hj Ha; simpl in *; [lia|].
  destruct (Z.ltb_spec (rssi e) r); [lia|].
  destruct j as [|j]; simpl in Ha.
  - by simplify_eq.
  - apply (IH j); [lia|done].
Qed.

Lemma first_weaker_at (r : Z) (l : list NetworkInfo) (a : NetworkInfo) :
  l !! first_weaker r l = Some a → rssi a < r.
Proof.
  induction l as [|e l IH]; simpl; [done|].
  destruct (Z.ltb_spec (rssi e) r); simpl; [by intros; simplify_eq|done].
Qed.

Lemma first_weaker_bound (r : Z) (l : list NetworkInfo) (k : nat) (a : NetworkInfo) :
  l !! k = Some a → rssi a < r → (first_weaker r l ≤ k)%nat.
Proof.
  revert k. induction l as [|e l IH]; intros k Ha Hr; simpl in *; [done|].
  destruct (Z.ltb_spec (rssi e) r); [lia|].
  destruct k as [|k]; simpl in Ha.
  - simplify_eq. lia.
  - specialize (IH k Ha Hr). lia.
Qed.

Lemma find_pos_spec (fuel k c : nat) (r : Z) (nets : list NetworkInfo) :
  (k ≤ c ≤ length nets)%nat → (c - k ≤ fuel)%nat →
  find_pos fuel (Z.of_nat k) r (Z.of_nat c) nets (Z.of_nat c)
  = Z.of_nat (k + first_weaker r (drop k (take c nets))).
Proof.
  revert k. induction fuel as [|fuel IH]; intros k Hk Hf.
  - assert (k = c) as -> by lia. rewrite drop_ge by (rewrite length_take; lia).
    simpl. lia.
  - simpl. destruct (Z.ltb_spec (Z.of_nat k) (Z.of_nat c)) as [Hlt|Hge].
    + assert (take c nets !! k = Some (nets !!! k)) as Hlk.
      { rewrite lookup_take_lt by lia. apply list_lookup_lookup_total_lt. lia. }
      rewrite (drop_S _ _ _ Hlk). simpl. rewrite Nat2Z.id.
      destruct (Z.gtb_spec r (rssi (nets !!! k)));
        destruct (Z.ltb_spec (rssi (nets !!! k)) r); try lia.
      replace (Z.of_nat k + 1) with (Z.of_nat (S k)) by lia.
      rewrite IH by lia. lia.
    + assert (k = c) as -> by lia. rewrite drop_ge by (rewrite length_take; lia).
      simpl. lia.
Qed.

Lemma shift_down_length (fuel : nat) (i pos : Z) (nets : list NetworkInfo) :
  length (shift_down fuel i pos nets) = length nets.
Proof.
  revert i nets. induction fuel as [|fuel IH]; intros i nets; simpl; [done|].
  destruct (i >? pos); [|done]. by rewrite IH, length_insert.
Qed.

Lemma shift_down_lookup (fuel i p : nat) (nets : list NetworkInfo) (j : nat) :
  (p ≤ i < length nets)%nat → (i - p ≤ fuel)%nat →
  shift_down fuel (Z.of_nat i) (Z.of_nat p) nets !! j
  = if decide (p < j ≤ i)%nat then nets !! (j - 1)%nat else nets !! j.
Proof.
  revert i nets. induction fuel as [|fuel IH]; intros i nets Hi Hf.
  - simpl. by rewrite decide_False by lia.
  - simpl. destruct (Z.gtb_spec (Z.of_nat i) (Z.of_nat p)) as [Hgt|Hle].
    + replace (Z.of_nat i - 1) with (Z.of_nat (i - 1)) by lia.
      rewrite IH by (rewrite ?length_insert; lia).
      rewrite !Nat2Z.id.
      destruct (decide (j = i)) as [->|Hne].
      * rewrite decide_False by lia. rewrite decide_True by lia.
        rewrite list_lookup_insert_eq by lia.
        symmetry. apply list_lookup_lookup_total_lt. lia.
      * clear IH. repeat case_decide; try lia; by rewrite list_lookup_insert_ne by lia.
    + by rewrite decide_False by lia.
Qed.

Lemma lookup_insert_at (l : list NetworkInfo) (o : NetworkInfo) (pos j : nat) :
  (pos ≤ length l)%nat →
  (take pos l ++ o :: drop pos l) !! j
  = if decide (j < pos)%nat then l !! j
    else if decide (j = pos) then Some o else l !! (j - 1)%nat.
Proof.
  intros Hp. rewrite lookup_app, length_take, Nat.min_l by lia.
  case_decide.
  - rewrite lookup_take_lt by lia.
    destruct (l !! j) eqn:E; [done|]. apply lookup_ge_None in E. lia.
  - rewrite lookup_take_ge by lia. case_decide as Hj.
    + subst j. by rewrite Nat.sub_diag.
    + destruct (j - pos)%nat as [|d] eqn:E; [lia|]. simpl.
      rewrite lookup_drop. f_equal. lia.
Qed.

Lemma insertNetworkSorted_frame (n : string) (r e : Z) (s : State) :
  g_selectedIndex (insertNetworkSorted n r e s) = g_selectedIndex s ∧
  g_selectedSsid (insertNetworkSorted n r e s) = g_selectedSsid s ∧
  g_selectedIsOpen (insertNetworkSorted n r e s) = g_selectedIsOpen s ∧
  g_password (insertNetworkSorted n r e s) = g_password s ∧
  g_needRedraw (insertNetworkSorted n r e s) = g_needRedraw s ∧
  g_uiState (insertNetworkSorted n r e s) = g_uiState s ∧
  wifi_calls (insertNetworkSorted n r e s) = wifi_calls s.
Proof.
  unfold insertNetworkSorted.
  destruct (_ && _); [done|]. by destruct (g_networkCount s <? MAX_NETWORKS).
Qed.

Lemma insertNetworkSorted_count (n : string) (r e : Z) (s : State) :
  g_networkCount (insertNetworkSorted n r e s)
  = if g_networkCount s <? MAX_NETWORKS then g_networkCount s + 1
    else g_networkCount s.
Proof.
  unfold insertNetworkSorted.
  destruct (Z.eqb_spec (g_networkCount s) MAX_NETWORKS) as [Heq|Hne]; simpl.
  - rewrite Heq. simpl. by destruct (_ <=? _).
  - by destruct (g_networkCount s <? MAX_NETWORKS).
Qed.

Lemma insertNetworkSorted_wf (n : string) (r e : Z) (s : State) :
  wf_set s → wf_set (insertNetworkSorted n r e s).
Proof.
  intros [Hlen Hcnt]. split.
  - unfold insertNetworkSorted. destruct (_ && _); [done|].
    destruct (g_networkCount s <? MAX_NETWORKS); simpl_state;
      by rewrite length_insert, shift_down_length.
  - rewrite insertNetworkSorted_count.
    destruct (Z.ltb_spec (g_networkCount s) MAX_NETWORKS); lia.
Qed.

(** The position the scan loop of [insertNetworkSorted] finds is
    [first_weaker] on the held entries. *)
Lemma insertNetworkSorted_pos (r : Z) (s : State) :
  wf_set s →
  find_pos (Z.to_nat (g_networkCount s)) 0 r (g_networkCount s) (g_networks s)
    (if g_networkCount s >? MAX_NETWORKS then MAX_NETWORKS else g_networkCount s)
  = Z.of_nat (first_weaker r (held s)).
Proof.
  intros [Hlen Hcnt]. unfold held.
  destruct (Z.gtb_spec (g_networkCount s) MAX_NETWORKS); [lia|].
  set (c := Z.to_nat (g_networkCount s)).
  replace (g_networkCount s) with (Z.of_nat c) by lia.
  change 0 with (Z.of_nat 0).
  rewrite find_pos_spec by (unfold MAX_NETWORKS in *; lia).
  by rewrite drop_0.
Qed.

Theorem insertNetworkSorted_held (n : string) (r e : Z) (s : State) :
  wf_set s →
  held (insertNetworkSorted n r e s) = spec_offer (mkNetworkInfo n r e) (held s).
Proof.
  intros Hwf. pose proof (insertNetworkSorted_pos r s Hwf) as Hpos.
  destruct Hwf as [Hlen Hcnt]. unfold MAX_NETWORKS in Hlen, Hcnt.
  pose proof (first_weaker_le r (held s)) as Hple.
  assert (length (held s) = Z.to_nat (g_networkCount s)) as Hhl.
  { unfold held. rewrite length_take. lia. }
  unfold spec_offer, insertNetworkSorted. cbn [rssi].
  rewrite Hpos, Hhl. unfold Capacity, MAX_NETWORKS.
  set (pos := first_weaker r (held s)) in *.
  destruct (Z.eqb_spec (g_networkCount s) 10) as [Hfull|Hnot].
  - (* the array is full *)
    assert (held s = g_networks s) as Hheld.
    { unfold held. rewrite take_ge; [done|lia]. }
    rewrite Hheld in *. rewrite Hfull.
    change (10 <? 10) with false. cbv iota.
    change (Z.to_nat (10 - 1)) with 9%nat.
    change (Z.to_nat 10 - 1)%nat with 9%nat.
    change (Z.to_nat 10 =? 10)%nat with true.
    change (10 - 1) with (Z.of_nat 9).
    rewrite andb_true_l.
    destruct (Z.leb_spec r (rssi (g_networks s !!! 9%nat))) as [Hle|Hgt]; [done|].
    assert (pos ≤ 9)%nat as Hp9.
    { unfold pos. rewrite Hheld.
      apply (first_weaker_bound r _ 9%nat (g_networks s !!! 9%nat)); [|lia].
      apply list_lookup_lookup_total_lt. lia. }
    unfold held. simpl_state. rewrite ?Hfull.
    apply list_eq. intros j.
    rewrite !lookup_take, lookup_insert_at by lia.
    rewrite list_lookup_insert by (rewrite shift_down_length; lia).
    rewrite Nat2Z.id, shift_down_length.
    rewrite shift_down_lookup by lia.
    change (Z.to_nat 10) with 10%nat in *.
    repeat case_decide; try lia; try done.
  - (* there is room *)
    rewrite andb_false_l.
    destruct (Z.ltb_spec (g_networkCount s) 10) as [Hlt|?]; [|lia].
    unfold held at 1. simpl_state.
    set (c := Z.to_nat (g_networkCount s)) in *.
    replace (g_networkCount s) with (Z.of_nat c) by lia.
    replace (Z.to_nat (Z.of_nat c + 1)) with (S c) by lia.
    destruct (Nat.eqb_spec c 10) as [?|_]; [lia|]. rewrite andb_false_l.
    apply list_eq. intros j.
    rewrite !lookup_take, lookup_insert_at by lia.
    rewrite list_lookup_insert by (rewrite shift_down_length; lia).
    rewrite !Nat2Z.id, shift_down_length.
    rewrite shift_down_lookup by lia.
    unfold held. fold c. rewrite !lookup_take.
    repeat case_decide; try lia; try done.
Qed.

(** ** Ordering of the held sequence *)

Lemma sorted_desc_nil : sorted_desc [].
Proof. intros i a b Ha. by rewrite lookup_nil in Ha. Qed.

Lemma sorted_desc_take (k : nat) (l : list NetworkInfo) :
  sorted_desc l → sorted_desc (take k l).
Proof.
  intros Hs i a b Ha Hb.
  apply lookup_take_Some in Ha as [Ha _]. apply lookup_take_Some in Hb as [Hb _].
  by apply (Hs i).
Qed.

(** Adjacent ordering gives the ordering of any two positions. *)
Lemma sorted_desc_le (l : list NetworkInfo) (i j : nat) (a b : NetworkInfo) :
  sorted_desc l → (i ≤ j)%nat → l !! i = Some a → l !! j = Some b →
  rssi a >= rssi b.
Proof.
  intros Hs Hij Ha. revert b. induction Hij as [|j Hij IH]; intros b Hb.
  - simplify_eq. lia.
  - destruct (lookup_lt_is_Some_2 l j) as [m Hm].
    { apply lookup_lt_Some in Hb. lia. }
    specialize (IH m Hm). specialize (Hs j m b Hm Hb). lia.
Qed.

Lemma first_weaker_after (r : Z) (l : list NetworkInfo) (j : nat) (a : NetworkInfo) :
  sorted_desc l → (first_weaker r l ≤ j)%nat → l !! j = Some a → rssi a < r.
Proof.
  intros Hs Hj Ha.
  destruct (lookup_lt_is_Some_2 l (first_weaker r l)) as [m Hm].
  { apply lookup_lt_Some in Ha. lia. }
  pose proof (first_weaker_at r l m Hm).
  pose proof (sorted_desc_le l _ _ m a Hs Hj Hm Ha). lia.
Qed.

Lemma sorted_desc_insert_at (o : NetworkInfo) (l : list NetworkInfo) :
  sorted_desc l →
  sorted_desc (take (first_weaker (rssi o) l) l
               ++ o :: drop (first_weaker (rssi o) l) l).
Proof.
  intros Hs i a b.
  pose proof (first_weaker_le (rssi o) l) as Hle.
  rewrite !lookup_insert_at by done.
  set (pos := first_weaker (rssi o) l) in *.
  repeat case_decide; try lia; intros Ha Hb.
  - by apply (Hs i).
  - injection Hb as <-.
    pose proof (first_weaker_before (rssi o) l i a H Ha). lia.
  - injection Ha as <-. replace (S i - 1)%nat with pos in Hb by lia.
    pose proof (first_weaker_at (rssi o) l b Hb). lia.
  - apply (Hs (i - 1)%nat); [done|].
    by replace (S (i - 1)) with (S i - 1)%nat by lia.
Qed.

Lemma spec_offer_sorted (o : NetworkInfo) (l : list NetworkInfo) :
  sorted_desc l → sorted_desc (spec_offer o l).
Proof.
  intros Hs. unfold spec_offer. destruct (_ && _); [done|].
  by apply sorted_desc_take, sorted_desc_insert_at.
Qed.

Lemma spec_offer_length (o : NetworkInfo) (l : list NetworkInfo) :
  (length l ≤ Capacity)%nat → (length (spec_offer o l) ≤ Capacity)%nat.
Proof.
  intros Hl. unfold spec_offer. destruct (_ && _); [done|].
  rewrite length_take. lia.
Qed.

Lemma offers_wf (os : list NetworkInfo) (s : State) :
  wf_set s → wf_set (offers os s).
Proof.
  revert s. induction os as [|o os IH]; intros s Hwf; [done|].
  apply IH. by apply insertNetworkSorted_wf.
Qed.

Lemma offers_held (os : list NetworkInfo) (s : State) :
  wf_set s → held (offers os s) = spec_offers os (held s).
Proof.
  revert s. induction os as [|o os IH]; intros s Hwf; [done|].
  cbn [offers spec_offers fold_left]. fold (offers os (offer o s)).
  rewrite IH by by apply insertNetworkSorted_wf.
  unfold offer. rewrite insertNetworkSorted_held by done.
  by destruct o.
Qed.

Lemma spec_offers_sorted (os : list NetworkInfo) (l : list NetworkInfo) :
  sorted_desc l → sorted_desc (spec_offers os l).
Proof.
  revert l. induction os as [|o os IH]; intros l Hs; [done|].
  apply IH. by apply spec_offer_sorted.
Qed.

Lemma reset_wf (s : State) :
  length (g_networks s) = Z.to_nat MAX_NETWORKS → wf_set (reset s).
Proof. intros Hl. split; [done|]. simpl. unfold MAX_NETWORKS. lia. Qed.

Lemma held_reset (s : State) : held (reset s) = [].
Proof. done. Qed.

Lemma held_length (s : State) :
  wf_set s → length (held s) = Z.to_nat (g_networkCount s).
Proof. intros [Hl Hc]. unfold held. rewrite length_take. lia. Qed.

(** C1: starting from a reset set, after each call of any sequence of
    offers ([insertNetworkSorted]) the held sequence has at most Capacity
    (10) entries and every adjacent pair (a, b) in stored order has
    strength(a) >= strength(b). *)
Theorem C1_offers_bounded_and_sorted (s : State) (os : list NetworkInfo) (k : nat) :
  length (g_networks s) = Z.to_nat MAX_NETWORKS →
  let s' := offers (take k os) (reset s) in
  (length (held s') ≤ Capacity)%nat ∧
  0 <= g_networkCount s' <= MAX_NETWORKS ∧
  sorted_desc (held s').
Proof.
  intros Hlen s'.
  pose proof (offers_wf (take k os) _ (reset_wf s Hlen)) as Hwf. fold s' in Hwf.
  split; [|split].
  - rewrite held_length by done. destruct Hwf as [_ Hc].
    unfold Capacity, MAX_NETWORKS in *. lia.
  - by destruct Hwf.
  - unfold s'. rewrite offers_held by by apply reset_wf.
    apply spec_offers_sorted. rewrite held_reset. apply sorted_desc_nil.
Qed.

(** ** Offering to a full set, and ties *)

Lemma held_full (s : State) :
  wf_set s → g_networkCount s = MAX_NETWORKS → held s = g_networks s.
Proof.
  intros [Hl _] Hc. unfold held. rewrite Hc. apply take_ge. lia.
Qed.

Lemma held_full_split (s : State) :
  wf_set s → g_networkCount s = MAX_NETWORKS →
  held s = take (Capacity - 1) (held s) ++ [held s !!! (Capacity - 1)%nat].
Proof.
  intros Hwf Hc. pose proof (held_length s Hwf) as Hl.
  rewrite Hc in Hl. change (Z.to_nat MAX_NETWORKS) with 10%nat in Hl.
  rewrite <- (take_S_r (held s) (Capacity - 1)).
  - unfold Capacity. simpl. rewrite take_ge; [done|lia].
  - apply list_lookup_lookup_total_lt. unfold Capacity. lia.
Qed.

Lemma offer_held (o : NetworkInfo) (s : State) :
  wf_set s → held (offer o s) = spec_offer o (held s).
Proof.
  intros Hwf. unfold offer. rewrite insertNetworkSorted_held by done.
  by destruct o.
Qed.

(** The early return of [insertNetworkSorted]. *)
Lemma offer_discard (o : NetworkInfo) (s : State) :
  g_networkCount s = MAX_NETWORKS →
  rssi o <= rssi (g_networks s !!! 9%nat) →
  offer o s = s.
Proof.
  intros Hc Hle. unfold offer, insertNetworkSorted. rewrite Hc.
  change (Z.to_nat (MAX_NETWORKS - 1)) with 9%nat.
  change (MAX_NETWORKS =? MAX_NETWORKS) with true.
  by destruct (Z.leb_spec (rssi o) (rssi (g_networks s !!! 9%nat))); [|lia].
Qed.

(** Past the early return, the observation goes in at [first_weaker] and
    the result is cut to Capacity. *)
Lemma offer_insert (o : NetworkInfo) (s : State) :
  wf_set s →
  ¬ (g_networkCount s = MAX_NETWORKS ∧ rssi o <= rssi (g_networks s !!! 9%nat)) →
  let pos := first_weaker (rssi o) (held s) in
  (pos < Capacity)%nat ∧
  held (offer o s) = take Capacity (take pos (held s) ++ o :: drop pos (held s)).
Proof.
  intros Hwf Hno pos. pose proof (held_length s Hwf) as Hl.
  pose proof (first_weaker_le (rssi o) (held s)) as Hple. fold pos in Hple.
  unfold Capacity.
  destruct (decide (g_networkCount s = MAX_NETWORKS)) as [Hc|Hc].
  - rewrite Hc in Hl. change (Z.to_nat MAX_NETWORKS) with 10%nat in Hl.
    pose proof (held_full s Hwf Hc) as Hfull.
    assert (rssi (g_networks s !!! 9%nat) < rssi o) as Hlt by lia.
    split.
    + assert (held s !! 9%nat = Some (g_networks s !!! 9%nat)) as H9.
      { rewrite Hfull. apply list_lookup_lookup_total_lt. rewrite <- Hfull. lia. }
      pose proof (first_weaker_bound (rssi o) (held s) 9%nat _ H9 Hlt).
      fold pos in H. lia.
    + rewrite offer_held by done. unfold spec_offer. rewrite Hl.
      unfold Capacity. change (10 - 1)%nat with 9%nat. rewrite Hfull at 1.
      by destruct (Z.leb_spec (rssi o) (rssi (g_networks s !!! 9%nat))); [lia|].
  - destruct Hwf as [Hlen Hcnt]. unfold MAX_NETWORKS in *. split; [lia|].
    rewrite offer_held by done. unfold spec_offer. rewrite Hl. unfold Capacity.
    by destruct (Nat.eqb_spec (Z.to_nat (g_networkCount s)) 10); [lia|].
Qed.

(** C2: on a set that already holds Capacity entries, an observation no
    stronger than the weakest held entry is discarded and nothing at all
    changes; a stronger one evicts exactly that weakest entry and goes in at
    its sorted position, the first index whose held strength is strictly
    less, and the length stays Capacity. *)
Theorem C2_offer_at_capacity (o : NetworkInfo) (s : State) :
  wf_set s → sorted_desc (held s) → g_networkCount s = MAX_NETWORKS →
  let w := held s !!! (Capacity - 1)%nat in
  let pre := take (Capacity - 1) (held s) in
  let pos := first_weaker (rssi o) (held s) in
  held s = pre ++ [w] ∧
  (∀ a, a ∈ held s → rssi w <= rssi a) ∧
  (rssi o <= rssi w → offer o s = s) ∧
  (rssi w < rssi o →
     held (offer o s) = take pos pre ++ o :: drop pos pre ∧
     (∀ j a, (j < pos)%nat → held s !! j = Some a → rssi o <= rssi a) ∧
     (∃ a, held s !! pos = Some a ∧ rssi a < rssi o) ∧
     length (held (offer o s)) = Capacity ∧
     g_networkCount (offer o s) = MAX_NETWORKS).
Proof.
  intros Hwf Hs Hc.
  pose proof (held_full_split s Hwf Hc) as Hsplit.
  pose proof (held_full s Hwf Hc) as Hfull.
  pose proof (held_length s Hwf) as Hl.
  rewrite Hc in Hl. change (Z.to_nat MAX_NETWORKS) with 10%nat in Hl.
  unfold Capacity in *. change (10 - 1)%nat with 9%nat in *.
  set (w := held s !!! 9%nat) in *. set (pre := take 9 (held s)) in *.
  set (pos := first_weaker (rssi o) (held s)) in *.
  assert (held s !! 9%nat = Some w) as Hw.
  { apply list_lookup_lookup_total_lt. lia. }
  assert (length pre = 9%nat) as Hpre.
  { unfold pre. rewrite length_take. lia. }
  split; [done|]. split; [|split].
  - intros a Ha. apply list_elem_of_lookup in Ha as [i Hi].
    pose proof (lookup_lt_Some _ _ _ Hi) as Hi9.
    assert (i ≤ 9)%nat as Hi9' by lia.
    pose proof (sorted_desc_le (held s) i 9 a w Hs Hi9' Hi Hw). lia.
  - intros Hle. apply offer_discard; [done|].
    unfold w in Hle. by rewrite Hfull in Hle.
  - intros Hlt.
    destruct (offer_insert o s Hwf) as [Hpos Hnew].
    { intros [_ Hle]. unfold w in Hlt. rewrite Hfull in Hlt. lia. }
    fold pos in Hpos, Hnew. unfold Capacity in Hpos, Hnew.
    assert (held (offer o s) = take pos pre ++ o :: drop pos pre) as Hnew'.
    { rewrite Hnew. rewrite Hsplit at 1 2.
      rewrite (take_app_le pre [w] pos), (drop_app_le pre [w] pos) by lia.
      change (take pos pre ++ o :: drop pos pre ++ [w])
        with (take pos pre ++ (o :: drop pos pre) ++ [w]).
      rewrite (assoc_L (++)).
      apply take_app_length'.
      rewrite length_app, length_take, length_cons, length_drop. lia. }
    split; [done|]. split; [|split; [|split]].
    + intros j a Hj Ha. by apply (first_weaker_before (rssi o) (held s) j a).
    + destruct (lookup_lt_is_Some_2 (held s) pos) as [a Ha]; [lia|].
      exists a. split; [done|]. by apply (first_weaker_at (rssi o) (held s)).
    + rewrite Hnew', length_app, length_take, length_cons, length_drop. lia.
    + unfold offer. rewrite insertNetworkSorted_count, Hc. done.
Qed.


(** ** Scans *)

Lemma visible_spec (o : NetworkInfo) : visible o = true ↔ ssid o ≠ EmptyString.
Proof. unfold visible. destruct (ssid o); simpl; split; by intros. Qed.

Lemma scan_loop_offers (w : WiFiScan) (m : nat) (i : Z) (s : State) :
  Z.to_nat (scan_n w - i) = m →
  scan_loop m i w s
  = offers (List.filter visible (scan_entry w <$> seqZ i (Z.of_nat m))) s.
Proof.
  revert i s. induction m as [|m IH]; intros i s Hm; [done|].
  cbn [scan_loop]. destruct (Z.ltb_spec i (scan_n w)); [|lia].
  rewrite seqZ_cons by lia. cbn [fmap list_fmap List.filter].
  replace (Z.pred (Z.of_nat (S m))) with (Z.of_nat m) by lia.
  replace (Z.succ i) with (i + 1) by lia.
  rewrite IH by lia. unfold visible at 2. cbn [scan_entry ssid].
  destruct (String.length (scan_SSID w i) =? 0)%nat; [done|].
  done.
Qed.

(** The other globals do not influence [insertNetworkSorted], and it does
    not touch them. *)
Lemma offers_frame (os : list NetworkInfo) (s : State) :
  g_selectedIndex (offers os s) = g_selectedIndex s ∧
  g_selectedSsid (offers os s) = g_selectedSsid s ∧
  g_selectedIsOpen (offers os s) = g_selectedIsOpen s ∧
  g_password (offers os s) = g_password s ∧
  g_needRedraw (offers os s) = g_needRedraw s ∧
  g_uiState (offers os s) = g_uiState s ∧
  wifi_calls (offers os s) = wifi_calls s.
Proof.
  revert s. induction os as [|o os IH]; intros s; [done|].
  cbn [offers fold_left]. fold (offers os (offer o s)).
  destruct (IH (offer o s)) as (-> & -> & -> & -> & -> & -> & ->).
  apply insertNetworkSorted_frame.
Qed.

Lemma offers_set_eq (os : list NetworkInfo) (s1 s2 : State) :
  g_networks s1 = g_networks s2 → g_networkCount s1 = g_networkCount s2 →
  g_networks (offers os s1) = g_networks (offers os s2) ∧
  g_networkCount (offers os s1) = g_networkCount (offers os s2).
Proof.
  revert s1 s2. induction os as [|o os IH]; intros s1 s2 Hn Hc; [done|].
  cbn [offers fold_left]. apply IH.
  - unfold offer, insertNetworkSorted. rewrite Hn, Hc.
    destruct (_ && _); [done|]. by destruct (_ <? _).
  - unfold offer. by rewrite !insertNetworkSorted_count, Hc.
Qed.

Lemma offers_count (os : list NetworkInfo) (s : State) :
  0 <= g_networkCount s →
  g_networkCount s <= g_networkCount (offers os s) ∧
  (os ≠ [] → 0 < g_networkCount (offers os s)).
Proof.
  revert s. induction os as [|o os IH]; intros s H0; [done|].
  cbn [offers fold_left]. fold (offers os (offer o s)).
  assert (g_networkCount s <= g_networkCount (offer o s) ∧
          0 < g_networkCount (offer o s)) as [Hle Hpos].
  { unfold offer. rewrite insertNetworkSorted_count.
    destruct (Z.ltb_spec (g_networkCount s) MAX_NETWORKS);
      unfold MAX_NETWORKS in *; lia. }
  destruct (IH (offer o s)) as [Hmono _]; lia.
Qed.

(** [scanNetworks], with its loop replaced by the run of offers it
    performs. *)
Lemma scanNetworks_offers (w : WiFiScan) (s : State) :
  scanNetworks w s
  = let s1 :=
      offers (usable w)
        (call WiFi_scanNetworks (call (WiFi_disconnect true false)
           (call WiFi_mode_STA (set_selectedIndex 0 (set_networkCount 0 s))))) in
    set_needRedraw true
      (if g_networkCount s1 =? 0 then set_uiState UI_NO_NETWORKS s1
       else set_uiState UI_SELECT_NETWORK (set_selectedIndex 0 s1)).
Proof.
  unfold scanNetworks, usable, scan_results.
  destruct (Z.leb_spec (scan_n w) 0) as [Hle|Hgt].
  - by rewrite seqZ_nil by done.
  - rewrite scan_loop_offers by lia.
    by replace (Z.of_nat (Z.to_nat (scan_n w))) with (scan_n w) by lia.
Qed.

Lemma usable_elem (w : WiFiScan) (o : NetworkInfo) :
  o ∈ usable w ↔
  ∃ i, 0 <= i < scan_n w ∧ o = scan_entry w i ∧ scan_SSID w i ≠ EmptyString.
Proof.
  unfold usable, scan_results.
  rewrite list_elem_of_In, filter_In, <- list_elem_of_In, list_elem_of_fmap.
  setoid_rewrite elem_of_seqZ. rewrite visible_spec. split.
  - intros [(i & -> & Hi) Hv]. exists i. split; [lia|]. done.
  - intros (i & Hi & -> & Hv). split; [|done]. exists i. split; [done|lia].
Qed.

Lemma usable_nil (w : WiFiScan) :
  (scan_n w <= 0 ∨ ∀ i, 0 <= i < scan_n w → scan_SSID w i = EmptyString) →
  usable w = [].
Proof.
  intros H. destruct (usable w) as [|o l] eqn:E; [done|]. exfalso.
  assert (o ∈ usable w) as Ho by (rewrite E; left).
  apply usable_elem in Ho as (i & Hi & _ & Hv).
  destruct H as [H|H]; [lia|]. by apply Hv, H.
Qed.

Lemma usable_cons (w : WiFiScan) :
  (∃ i, 0 <= i < scan_n w ∧ scan_SSID w i ≠ EmptyString) → usable w ≠ [].
Proof.
  intros (i & Hi & Hv) E.
  assert (scan_entry w i ∈ usable w) as Ho by (apply usable_elem; eauto).
  rewrite E in Ho. by apply elem_of_nil in Ho.
Qed.

Lemma scanNetworks_set (w : WiFiScan) (s : State) :
  g_networks (scanNetworks w s) = g_networks (offers (usable w) (reset s)) ∧
  g_networkCount (scanNetworks w s)
  = g_networkCount (offers (usable w) (reset s)).
Proof.
  rewrite scanNetworks_offers. cbv zeta.
  set (s0 := call _ _).
  destruct (offers_set_eq (usable w) s0 (reset s)) as [Hn Hc]; [done..|].
  destruct (g_networkCount (offers (usable w) s0) =? 0); simpl_state; done.
Qed.

Lemma scanNetworks_uiState (w : WiFiScan) (s : State) :
  (usable w = [] → g_uiState (scanNetworks w s) = UI_NO_NETWORKS) ∧
  (usable w ≠ [] →
     g_uiState (scanNetworks w s) = UI_SELECT_NETWORK ∧
     g_selectedIndex (scanNetworks w s) = 0).
Proof.
  rewrite scanNetworks_offers. cbv zeta. set (s0 := call _ _).
  split.
  - intros ->. done.
  - intros Hne. destruct (offers_count (usable w) s0) as [_ Hpos]; [done|].
    specialize (Hpos Hne).
    destruct (Z.eqb_spec (g_networkCount (offers (usable w) s0)) 0); [lia|].
    done.
Qed.

(** C5: an observation with an empty (hidden) name never reaches offer():
    the scan leaves the set exactly as the offers of the named observations,
    in scan order, leave a reset set.  With no usable observation (no
    result, an error code, or only hidden names) the machine is in
    NoNetworksFound; with at least one it is in SelectingNetwork with
    selection index 0. *)
Theorem C5_scan_filters_hidden (w : WiFiScan) (s : State) :
  let s' := scanNetworks w s in
  (∀ o, o ∈ usable w ↔
        ∃ i, 0 <= i < scan_n w ∧ o = scan_entry w i ∧
             scan_SSID w i ≠ EmptyString) ∧
  g_networks s' = g_networks (offers (usable w) (reset s)) ∧
  g_networkCount s' = g_networkCount (offers (usable w) (reset s)) ∧
  ((scan_n w <= 0 ∨ ∀ i, 0 <= i < scan_n w → scan_SSID w i = EmptyString) →
     g_uiState s' = UI_NO_NETWORKS) ∧
  ((∃ i, 0 <= i < scan_n w ∧ scan_SSID w i ≠ EmptyString) →
     g_uiState s' = UI_SELECT_NETWORK ∧ g_selectedIndex s' = 0).
Proof.
  intros s'. split; [apply usable_elem|].
  destruct (scanNetworks_set w s) as [Hn Hc].
  destruct (scanNetworks_uiState w s) as [Hnil Hcons].
  split; [done|]. split; [done|]. split.
  - intros H. by apply Hnil, usable_nil.
  - intros H. by apply Hcons, usable_cons.
Qed.

(** ** Key presses *)

Lemma handleKeyboard_rescan (kb : Keyboard) (w : WiFiScan) (s : State) :
  rescan_pressed kb = true →
  handleKeyboard kb w s = scanNetworks w (call (WiFi_disconnect true false) s).
Proof.
  unfold rescan_pressed, pressed, handleKeyboard.
  destruct (isChange kb), (isPressed kb); simpl; try done.
  by intros ->.
Qed.

Lemma handleKeyboard_idle (kb : Keyboard) (w : WiFiScan) (s : State) :
  pressed kb = false → handleKeyboard kb w s = s.
Proof.
  unfold pressed, handleKeyboard.
  by destruct (isChange kb), (isPressed kb).
Qed.

(** C4: from every state, a press of R/r resets the ranked set and
    rebuilds it from the fresh scan alone, and leaves the machine in
    NoNetworksFound or SelectingNetwork; this is still so at the end of
    the loop pass that delivered the key. *)
Theorem C4_rescan_from_any_state (kb : Keyboard) (w : WiFiScan) (s : State) :
  length (g_networks s) = Z.to_nat MAX_NETWORKS →
  rescan_pressed kb = true →
  let s' := handleKeyboard kb w s in
  (g_uiState s' = UI_NO_NETWORKS ∨ g_uiState s' = UI_SELECT_NETWORK) ∧
  g_networks s' = g_networks (offers (usable w) (reset s)) ∧
  g_networkCount s' = g_networkCount (offers (usable w) (reset s)) ∧
  held s' = spec_offers (usable w) [] ∧
  (∀ st, let s'' := loop (mkTick kb w st) s in
         (g_uiState s'' = UI_NO_NETWORKS ∨ g_uiState s'' = UI_SELECT_NETWORK) ∧
         held s'' = spec_offers (usable w) []).
Proof.
  intros Hlen Hkey s'.
  assert (s' = scanNetworks w (call (WiFi_disconnect true false) s)) as Hs'.
  { by apply handleKeyboard_rescan. }
  set (s0 := call (WiFi_disconnect true false) s) in *.
  assert (g_uiState s' = UI_NO_NETWORKS ∨ g_uiState s' = UI_SELECT_NETWORK) as Hst.
  { rewrite Hs'. destruct (scanNetworks_uiState w s0) as [Hnil Hcons].
    destruct (usable w) as [|o l] eqn:E.
    - left. by apply Hnil.
    - right. by apply Hcons. }
  destruct (scanNetworks_set w s0) as [Hn Hc]. rewrite <- Hs' in Hn, Hc.
  change (reset s0) with (call (WiFi_disconnect true false) (reset s)) in Hn, Hc.
  destruct (offers_set_eq (usable w)
              (call (WiFi_disconnect true false) (reset s)) (reset s))
    as [Hn' Hc']; [done..|].
  rewrite Hn' in Hn. rewrite Hc' in Hc.
  assert (held s' = spec_offers (usable w) []) as Hheld.
  { unfold held. rewrite Hn, Hc. fold (held (offers (usable w) (reset s))).
    rewrite offers_held by by apply reset_wf. done. }
  split; [done|]. split; [done|]. split; [done|]. split; [done|].
  intros st s''. unfold s'', loop. cbn [tick_keyboard tick_scan tick_status].
  fold s'. unfold updateDisplayIfNeeded.
  destruct Hst as [Hst|Hst]; rewrite Hst;
    destruct (g_needRedraw s'); simpl; rewrite ?Hst; auto.
Qed.

(** ** Connecting *)

Lemma handleKeyboard_no_handler (kb : Keyboard) (w : WiFiScan) (s : State) :
  rescan_pressed kb = false →
  g_uiState s = UI_NO_NETWORKS ∨ g_uiState s = UI_CONNECTING ∨
  g_uiState s = UI_CONNECTED ∨ g_uiState s = UI_CONNECT_FAILED →
  handleKeyboard kb w s = s.
Proof.
  unfold rescan_pressed, pressed, handleKeyboard.
  destruct (isChange kb), (isPressed kb); simpl; try done.
  intros -> [->|[->|[->| ->]]]; done.
Qed.

Lemma updateDisplayIfNeeded_uiState (s : State) :
  g_uiState (updateDisplayIfNeeded s) = g_uiState s.
Proof. unfold updateDisplayIfNeeded. by destruct (g_needRedraw s). Qed.

(** [loop] polls the driver exactly when the machine is connecting once
    the keyboard has been handled. *)
Lemma loop_polls (t : Tick) (s : State) :
  g_uiState (handleKeyboard (tick_keyboard t) (tick_scan t) s) = UI_CONNECTING →
  loop t s
  = updateDisplayIfNeeded
      (poll_status (tick_status t)
         (handleKeyboard (tick_keyboard t) (tick_scan t) s)).
Proof. intros H. unfold loop. by rewrite H. Qed.

Lemma loop_connecting (t : Tick) (s : State) :
  g_uiState s = UI_CONNECTING → rescan_pressed (tick_keyboard t) = false →
  loop t s = updateDisplayIfNeeded (poll_status (tick_status t) s).
Proof.
  intros Hs Hk. unfold loop.
  rewrite handleKeyboard_no_handler by auto. by rewrite Hs.
Qed.

(** C6: in Connecting the status is sampled on every loop pass that does
    not carry the rescan key: the success report leads to Connected, the
    connect-failed and no-SSID-available reports lead to ConnectFailed, any
    other report leaves the machine in Connecting, and it stays there over
    any number of such passes: nothing but a report ends the attempt. *)
Theorem C6_connecting_poll (s : State) :
  g_uiState s = UI_CONNECTING →
  (∀ t, rescan_pressed (tick_keyboard t) = false →
        g_uiState (loop t s)
        = match tick_status t with
          | WL_CONNECTED => UI_CONNECTED
          | WL_CONNECT_FAILED | WL_NO_SSID_AVAIL => UI_CONNECT_FAILED
          | _ => UI_CONNECTING
          end) ∧
  (∀ ts, Forall (λ t, rescan_pressed (tick_keyboard t) = false ∧
                      pending (tick_status t) = true) ts →
         g_uiState (run ts s) = UI_CONNECTING).
Proof.
  intros Hs. split.
  - intros t Hk. rewrite loop_connecting, updateDisplayIfNeeded_uiState by done.
    by destruct (tick_status t).
  - intros ts. revert s Hs. induction ts as [|t ts IH]; intros s Hs Hall; [done|].
    apply Forall_cons in Hall as [[Hk Hp] Hall].
    cbn [run fold_left]. apply IH; [|done].
    rewrite loop_connecting, updateDisplayIfNeeded_uiState by done.
    by destruct (tick_status t).
Qed.

(** ** Password entry *)

Lemma length_snoc (p : string) (c : ascii) :
  String.length (p +:+ String c EmptyString) = S (String.length p).
Proof. induction p as [|a p IH]; simpl; [done|]. by rewrite IH. Qed.

Lemma substring_prefix (p q : string) :
  substring 0 (String.length p) (p +:+ q) = p.
Proof.
  induction p as [|a p IH]; simpl.
  - by destruct q.
  - by rewrite IH.
Qed.

Lemma String_remove_last (p : string) (c : ascii) :
  String_remove (String.length (p +:+ String c EmptyString) - 1)
    (p +:+ String c EmptyString) = p.
Proof.
  unfold String_remove. rewrite length_snoc.
  replace (S (String.length p) - 1)%nat with (String.length p) by lia.
  destruct (Nat.ltb_spec (String.length p) (S (String.length p))); [|lia].
  apply substring_prefix.
Qed.

(** Every buffer is empty or ends in a last character. *)
Lemma string_snoc_cases (str : string) :
  str = EmptyString ∨ ∃ p c, str = p +:+ String c EmptyString.
Proof.
  induction str as [|a str IH]; [by left|]. right.
  destruct IH as [->|(p & c & ->)].
  - by exists EmptyString, a.
  - by exists (String a p), c.
Qed.

Lemma handleKeyboard_type (c : ascii) (w : WiFiScan) (s : State) :
  g_uiState s = UI_ENTER_PASSWORD → g_selectedIsOpen s = false →
  is_back_key c = false → is_rescan_key c = false →
  handleKeyboard (key_char c) w s
  = set_needRedraw true
      (set_password (g_password s +:+ String c EmptyString) s).
Proof.
  intros Hs Ho Hb Hr. unfold handleKeyboard, key_char. simpl.
  rewrite Hr, Hs, Hb, Ho. simpl. unfold type_key. by rewrite Hb.
Qed.

Lemma handleKeyboard_delete (w : WiFiScan) (s : State) (p : string) (c : ascii) :
  g_uiState s = UI_ENTER_PASSWORD → g_selectedIsOpen s = false →
  g_password s = p +:+ String c EmptyString →
  handleKeyboard key_delete w s = set_needRedraw true (set_password p s).
Proof.
  intros Hs Ho Hp. unfold handleKeyboard, key_delete. simpl.
  rewrite Hs, Ho. simpl. rewrite Hp, String_remove_last, length_snoc. done.
Qed.

Lemma handleKeyboard_delete_empty (w : WiFiScan) (s : State) :
  g_uiState s = UI_ENTER_PASSWORD → g_selectedIsOpen s = false →
  g_password s = EmptyString →
  handleKeyboard key_delete w s = s.
Proof.
  intros Hs Ho Hp. unfold handleKeyboard, key_delete. simpl.
  rewrite Hs, Ho. simpl. by rewrite Hp.
Qed.

(** C7, amended: in EnteringPassword for a protected network a typed
    character that is neither the back key (q/Q) nor the rescan key (r/R)
    is appended to the password buffer; Delete removes the last character
    of a non-empty buffer and leaves an empty one unchanged; typing a, b,
    then Delete extends the buffer by a alone, so from the empty buffer it
    yields the buffer a. *)
Theorem C7_password_editing (w : WiFiScan) (s : State) :
  g_uiState s = UI_ENTER_PASSWORD → g_selectedIsOpen s = false →
  (∀ c, is_back_key c = false → is_rescan_key c = false →
        handleKeyboard (key_char c) w s
        = set_needRedraw true
            (set_password (g_password s +:+ String c EmptyString) s)) ∧
  (∀ p c, g_password s = p +:+ String c EmptyString →
          handleKeyboard key_delete w s
          = set_needRedraw true (set_password p s)) ∧
  (g_password s = EmptyString → handleKeyboard key_delete w s = s) ∧
  (let s3 := handleKeyboard key_delete w
               (handleKeyboard (key_char "b") w
                  (handleKeyboard (key_char "a") w s)) in
   g_password s3 = g_password s +:+ String "a" EmptyString ∧
   g_uiState s3 = UI_ENTER_PASSWORD).
Proof.
  intros Hs Ho. split; [|split; [|split]].
  - intros c Hb Hr. by apply handleKeyboard_type.
  - intros p c Hp. by apply (handleKeyboard_delete w s p c).
  - intros Hp. by apply handleKeyboard_delete_empty.
  - intros s3. unfold s3.
    rewrite (handleKeyboard_type "a" w s) by done.
    rewrite (handleKeyboard_type "b") by done.
    by rewrite (handleKeyboard_delete w _
                  (g_password s +:+ String "a" EmptyString) "b").
Qed.

(** ** Password screen of an open network *)

Lemma handleKeyboard_open_ignored (kb : Keyboard) (w : WiFiScan) (s : State) :
  g_uiState s = UI_ENTER_PASSWORD → g_selectedIsOpen s = true →
  enter (keysState kb) = false →
  existsb is_rescan_key (word (keysState kb)) = false →
  existsb is_back_key (word (keysState kb)) = false →
  handleKeyboard kb w s = s.
Proof.
  intros Hs Ho He Hr Hb. unfold handleKeyboard.
  destruct (isChange kb), (isPressed kb); simpl; try done.
  by rewrite Hr, Hs, Hb, Ho, He.
Qed.

(** C8, amended: on the password screen of an open network Confirm begins
    a connection attempt without a password and moves to Connecting; a
    typed character other than the back key (q/Q) and the rescan key (r/R),
    and Delete, change nothing at all. *)
Theorem C8_open_network_entry (w : WiFiScan) (s : State) :
  g_uiState s = UI_ENTER_PASSWORD → g_selectedIsOpen s = true →
  (let s' := handleKeyboard key_enter w s in
   g_uiState s' = UI_CONNECTING ∧
   wifi_calls s'
   = wifi_calls s ++ [WiFi_mode_STA; WiFi_disconnect false false;
                      WiFi_begin (g_selectedSsid s) None] ∧
   g_password s' = g_password s) ∧
  (∀ c, is_back_key c = false → is_rescan_key c = false →
        handleKeyboard (key_char c) w s = s) ∧
  handleKeyboard key_delete w s = s.
Proof.
  intros Hs Ho. split; [|split].
  - unfold handleKeyboard, key_enter. simpl. rewrite Hs, Ho.
    unfold startConnection. simpl_state. rewrite Ho. simpl_state.
    by rewrite <- !(assoc_L (++)).
  - intros c Hb Hr. apply handleKeyboard_open_ignored; try done; simpl.
    + by rewrite Hr.
    + by rewrite Hb.
  - by apply handleKeyboard_open_ignored.
Qed.

(** ** Moving the selection *)

Lemma is_char_eq (c d : ascii) : is_char c d = true ↔ c = d.
Proof. unfold is_char. apply Ascii.eqb_eq. Qed.

Lemma up_key_cases (c : ascii) :
  is_up_key c = true → c = "w"%char ∨ c = "W"%char.
Proof.
  unfold is_up_key. intros H. apply orb_true_iff in H.
  by rewrite !is_char_eq in H.
Qed.

Lemma down_key_cases (c : ascii) :
  is_down_key c = true → c = "s"%char ∨ c = "S"%char.
Proof.
  unfold is_down_key. intros H. apply orb_true_iff in H.
  by rewrite !is_char_eq in H.
Qed.

Lemma wrap_up (i c : Z) :
  0 <= i < c → (if i - 1 <? 0 then c - 1 else i - 1) = (i - 1) mod c.
Proof.
  intros Hi. destruct (Z.ltb_spec (i - 1) 0).
  - apply (Z.mod_unique_pos (i - 1) c (-1)); lia.
  - symmetry. apply Z.mod_small. lia.
Qed.

Lemma wrap_down (i c : Z) :
  0 <= i < c → (if i + 1 >=? c then 0 else i + 1) = (i + 1) mod c.
Proof.
  intros Hi. destruct (Z.geb_spec (i + 1) c).
  - apply (Z.mod_unique_pos (i + 1) c 1); lia.
  - symmetry. apply Z.mod_small. lia.
Qed.

Lemma press_up (c : ascii) (w : WiFiScan) (s : State) :
  g_uiState s = UI_SELECT_NETWORK → 0 < g_networkCount s →
  0 <= g_selectedIndex s < g_networkCount s → is_up_key c = true →
  handleKeyboard (key_char c) w s
  = set_needRedraw true
      (set_selectedIndex ((g_selectedIndex s - 1) mod g_networkCount s) s).
Proof.
  intros Hs Hc Hi Hk. rewrite <- wrap_up by done.
  unfold handleKeyboard, key_char, for_each_key, select_key. simpl.
  rewrite Hs.
  destruct (up_key_cases c Hk) as [-> | ->]; simpl;
    (destruct (Z.gtb_spec (g_networkCount s) 0); [|lia]);
    by destruct (g_selectedIndex s - 1 <? 0).
Qed.

Lemma press_down (c : ascii) (w : WiFiScan) (s : State) :
  g_uiState s = UI_SELECT_NETWORK → 0 < g_networkCount s →
  0 <= g_selectedIndex s < g_networkCount s → is_down_key c = true →
  handleKeyboard (key_char c) w s
  = set_needRedraw true
      (set_selectedIndex ((g_selectedIndex s + 1) mod g_networkCount s) s).
Proof.
  intros Hs Hc Hi Hk. rewrite <- wrap_down by done.
  unfold handleKeyboard, key_char, for_each_key, select_key. simpl.
  rewrite Hs.
  destruct (down_key_cases c Hk) as [-> | ->]; simpl;
    (destruct (Z.gtb_spec (g_networkCount s) 0); [|lia]);
    by destruct (g_selectedIndex s + 1 >=? g_networkCount s).
Qed.

(** What a run of presses in one direction does; [d] is [-1] for up and
    [1] for down. *)
Lemma presses_one_way (d : Z) (cs : list ascii) (w : WiFiScan) (s : State) :
  g_uiState s = UI_SELECT_NETWORK → 0 < g_networkCount s →
  0 <= g_selectedIndex s < g_networkCount s →
  (d = -1 ∧ Forall (λ c, is_up_key c = true) cs) ∨
  (d = 1 ∧ Forall (λ c, is_down_key c = true) cs) →
  g_uiState (presses cs w s) = UI_SELECT_NETWORK ∧
  g_networkCount (presses cs w s) = g_networkCount s ∧
  g_selectedIndex (presses cs w s)
  = (g_selectedIndex s + d * Z.of_nat (length cs)) mod g_networkCount s.
Proof.
  revert s. induction cs as [|c cs IH]; intros s Hs Hc Hi Hd.
  - simpl. split; [done|]. split; [done|].
    rewrite Z.mul_0_r, Z.add_0_r. symmetry. by apply Z.mod_small.
  - cbn [presses fold_left]. fold (presses cs w (handleKeyboard (key_char c) w s)).
    assert (∃ s1, handleKeyboard (key_char c) w s = s1 ∧
                  g_uiState s1 = UI_SELECT_NETWORK ∧
                  g_networkCount s1 = g_networkCount s ∧
                  g_selectedIndex s1
                  = (g_selectedIndex s + d) mod g_networkCount s) as
      (s1 & -> & Hs1 & Hc1 & Hi1).
    { destruct Hd as [[-> Hall]|[-> Hall]]; apply Forall_cons in Hall as [Hk _].
      - rewrite press_up by done. eexists. split; [done|]. by simpl_state.
      - rewrite press_down by done. eexists. split; [done|]. by simpl_state. }
    pose proof (Z.mod_pos_bound (g_selectedIndex s + d) (g_networkCount s) Hc).
    destruct (IH s1) as (Hs2 & Hc2 & Hi2); [done|lia|lia| |].
    { destruct Hd as [[-> Hall]|[-> Hall]]; apply Forall_cons in Hall as [_ Hall];
        auto. }
    split; [done|]. split; [lia|].
    rewrite Hi2, Hc1, Hi1, Zplus_mod_idemp_l. f_equal.
    rewrite length_cons. lia.
Qed.

(** C9: in SelectingNetwork with count > 0 held networks and the selection
    index in [0, count), an Up press moves the index down by one and a Down
    press up by one, wrapping around, so the index stays in [0, count); a
    run of exactly count Up presses, or of count Down presses, brings the
    index back to where it started. *)
Theorem C9_selection_wraps (w : WiFiScan) (s : State) :
  g_uiState s = UI_SELECT_NETWORK → 0 < g_networkCount s →
  0 <= g_selectedIndex s < g_networkCount s →
  (∀ c, is_up_key c = true ∨ is_down_key c = true →
        let s' := handleKeyboard (key_char c) w s in
        g_uiState s' = UI_SELECT_NETWORK ∧
        g_networkCount s' = g_networkCount s ∧
        0 <= g_selectedIndex s' < g_networkCount s ∧
        g_selectedIndex s'
        = (g_selectedIndex s + (if is_up_key c then -1 else 1))
            mod g_networkCount s) ∧
  (∀ cs, Z.of_nat (length cs) = g_networkCount s →
         Forall (λ c, is_up_key c = true) cs ∨
         Forall (λ c, is_down_key c = true) cs →
         g_selectedIndex (presses cs w s) = g_selectedIndex s).
Proof.
  intros Hs Hc Hi. split.
  - intros c Hk s'. unfold s'.
    destruct (is_up_key c) eqn:Hup.
    + rewrite press_up by done. simpl_state.
      pose proof (Z.mod_pos_bound (g_selectedIndex s - 1) (g_networkCount s) Hc).
      split; [done|]. split; [done|]. split; [lia|]. f_equal.
    + destruct Hk as [|Hdown]; [done|].
      rewrite press_down by done. simpl_state.
      pose proof (Z.mod_pos_bound (g_selectedIndex s + 1) (g_networkCount s) Hc).
      split; [done|]. split; [done|]. split; [lia|]. f_equal.
  - intros cs Hlen Hd.
    assert (∃ d, g_selectedIndex (presses cs w s)
                 = (g_selectedIndex s + d * g_networkCount s)
                     mod g_networkCount s) as [d ->].
    { destruct Hd as [Hall|Hall].
      - exists (-1). rewrite <- Hlen at 1.
        by apply (presses_one_way (-1) cs w s); auto.
      - exists 1. rewrite <- Hlen at 1.
        by apply (presses_one_way 1 cs w s); auto. }
    rewrite Z_mod_plus_full. by apply Z.mod_small.
Qed.

(** ** Reachable states *)

Lemma has_char_app (c : ascii) (p q : string) :
  has_char c (p +:+ q) = has_char c p || has_char c q.
Proof.
  induction p as [|a p IH]; simpl; [done|]. by rewrite IH, orb_assoc.
Qed.

Lemma has_char_substring (c : ascii) (n m : nat) (p : string) :
  has_char c p = false → has_char c (substring n m p) = false.
Proof.
  revert n m. induction p as [|a p IH]; intros n m H.
  - by destruct n, m.
  - simpl in H. apply orb_false_iff in H as [Ha Hp].
    destruct n as [|n]; simpl.
    + destruct m as [|m]; simpl; [done|]. by rewrite Ha, IH.
    + by apply IH.
Qed.

Lemma clean_empty : clean EmptyString.
Proof. by repeat split. Qed.

Lemma clean_snoc (p : string) (c : ascii) :
  clean p → is_rescan_key c = false → is_back_key c = false →
  clean (p +:+ String c EmptyString).
Proof.
  unfold clean, is_rescan_key, is_back_key.
  intros (Hr & HR & Hq & HQ) Hc1 Hc2.
  apply orb_false_iff in Hc1 as [? ?]. apply orb_false_iff in Hc2 as [? ?].
  rewrite !has_char_app, Hr, HR, Hq, HQ. simpl.
  rewrite !orb_false_r. done.
Qed.

Lemma clean_String_remove (n : nat) (p : string) :
  clean p → clean (String_remove n p).
Proof.
  unfold String_remove. destruct (n <? String.length p)%nat; [|done].
  intros (Hr & HR & Hq & HQ). repeat split; by apply has_char_substring.
Qed.

Lemma existsb_false {A} (f : A → bool) (l : list A) :
  existsb f l = false → Forall (λ x, f x = false) l.
Proof.
  induction l as [|x l IH]; simpl; intros H; [constructor|].
  apply orb_false_iff in H as [? ?]. constructor; auto.
Qed.

(** The typing loop only extends the buffer, by characters that are
    neither the rescan nor the back key. *)
Lemma type_keys_spec (cs : list ascii) (s : State) :
  Forall (λ c, is_rescan_key c = false) cs → clean (g_password s) →
  let s' := for_each_key type_key cs s in
  clean (g_password s') ∧
  g_networks s' = g_networks s ∧ g_networkCount s' = g_networkCount s ∧
  g_selectedIndex s' = g_selectedIndex s ∧ g_uiState s' = g_uiState s ∧
  g_selectedIsOpen s' = g_selectedIsOpen s ∧
  g_selectedSsid s' = g_selectedSsid s ∧ wifi_calls s' = wifi_calls s.
Proof.
  revert s. induction cs as [|c cs IH]; intros s Hall Hp; [done|].
  apply Forall_cons in Hall as [Hc Hall].
  cbn [for_each_key fold_left]. fold (for_each_key type_key cs (type_key c s)).
  assert (clean (g_password (type_key c s))) as Hp'.
  { unfold type_key. destruct (is_back_key c) eqn:Hb; [done|].
    simpl_state. by apply clean_snoc. }
  destruct (IH (type_key c s) Hall Hp') as (? & -> & -> & -> & -> & -> & -> & ->).
  split; [done|]. unfold type_key. by destruct (is_back_key c).
Qed.

(** The W/S loop only moves the selection index, within the held
    entries. *)
Lemma select_keys_spec (cs : list ascii) (s : State) :
  0 <= g_selectedIndex s →
  g_selectedIndex s < g_networkCount s ∨ g_selectedIndex s = 0 →
  let s' := for_each_key select_key cs s in
  (0 <= g_selectedIndex s' ∧
   (g_selectedIndex s' < g_networkCount s ∨ g_selectedIndex s' = 0)) ∧
  g_networks s' = g_networks s ∧ g_networkCount s' = g_networkCount s ∧
  g_password s' = g_password s ∧ g_uiState s' = g_uiState s ∧
  wifi_calls s' = wifi_calls s.
Proof.
  revert s. induction cs as [|c cs IH]; intros s H0 Hi; [done|].
  cbn [for_each_key fold_left]. fold (for_each_key select_key cs (select_key c s)).
  assert ((0 <= g_selectedIndex (select_key c s) ∧
           (g_selectedIndex (select_key c s) < g_networkCount s ∨
            g_selectedIndex (select_key c s) = 0)) ∧
          g_networks (select_key c s) = g_networks s ∧
          g_networkCount (select_key c s) = g_networkCount s ∧
          g_password (select_key c s) = g_password s ∧
          g_uiState (select_key c s) = g_uiState s ∧
          wifi_calls (select_key c s) = wifi_calls s) as (Hr & Hn & Hc & Hp & Hu & Hw).
  { unfold select_key.
    destruct (is_char c "w" || is_char c "W"); [|destruct (is_char c "s" || is_char c "S")];
      try (destruct (Z.gtb_spec (g_networkCount s) 0)); simpl_state; try done.
    - destruct (Z.ltb_spec (g_selectedIndex s - 1) 0); simpl_state;
        repeat split; try done; lia.
    - destruct (Z.geb_spec (g_selectedIndex s + 1) (g_networkCount s)); simpl_state;
        repeat split; try done; lia. }
  destruct (IH (select_key c s)) as (Hr' & -> & -> & -> & -> & ->); [lia|lia|].
  rewrite Hc in Hr'. done.
Qed.

Lemma begun_clean_app (s : State) (cs : list WiFiCall) :
  begun_clean s →
  (∀ n p, WiFi_begin n (Some p) ∈ cs → clean p) →
  ∀ n p, WiFi_begin n (Some p) ∈ wifi_calls s ++ cs → clean p.
Proof.
  intros Hs Hcs n p Hin. apply elem_of_app in Hin as [Hin|Hin]; eauto.
Qed.

Lemma scanNetworks_inv (w : WiFiScan) (s : State) :
  length (g_networks s) = Z.to_nat MAX_NETWORKS →
  clean (g_password s) → begun_clean s →
  inv (scanNetworks w s).
Proof.
  intros Hlen Hp Hb.
  destruct (scanNetworks_set w s) as [Hn Hc].
  pose proof (offers_wf (usable w) _ (reset_wf s Hlen)) as Hwf.
  pose proof (offers_held (usable w) _ (reset_wf s Hlen)) as Hheld.
  destruct (scanNetworks_uiState w s) as [Hnil Hcons].
  assert (wf_set (scanNetworks w s)) as Hwf'.
  { unfold wf_set. by rewrite Hn, Hc. }
  split; [done|]. split; [|split; [|split; [|split]]].
  - unfold held. rewrite Hn, Hc. fold (held (offers (usable w) (reset s))).
    rewrite Hheld. apply spec_offers_sorted, sorted_desc_nil.
  - rewrite scanNetworks_offers. cbv zeta.
    set (s1 := offers _ _).
    assert (g_selectedIndex s1 = 0) as Hi.
    { unfold s1. by destruct (offers_frame (usable w)
        (call WiFi_scanNetworks (call (WiFi_disconnect true false)
           (call WiFi_mode_STA (set_selectedIndex 0 (set_networkCount 0 s))))))
        as [-> _]. }
    destruct (g_networkCount s1 =? 0); simpl_state; rewrite ?Hi; lia.
  - destruct (usable w) as [|o l] eqn:E.
    + rewrite Hc. rewrite Hnil by done. done.
    + destruct Hcons as [Hu _]; [done|]. rewrite Hu, Hc.
      destruct (offers_count (o :: l) (reset s)) as [_ Hpos]; [done|].
      split; [done|]. intros H0.
      specialize (Hpos ltac:(done)). lia.
  - rewrite scanNetworks_offers. cbv zeta. set (s1 := offers _ _).
    assert (g_password s1 = g_password s) as Hp1.
    { unfold s1. by destruct (offers_frame (usable w)
        (call WiFi_scanNetworks (call (WiFi_disconnect true false)
           (call WiFi_mode_STA (set_selectedIndex 0 (set_networkCount 0 s))))))
        as (_ & _ & _ & -> & _). }
    destruct (g_networkCount s1 =? 0); simpl_state; by rewrite Hp1.
  - unfold begun_clean.
    rewrite scanNetworks_offers. cbv zeta. set (s1 := offers _ _).
    assert (wifi_calls s1
            = wifi_calls s ++ [WiFi_mode_STA; WiFi_disconnect true false;
                               WiFi_scanNetworks]) as Hw1.
    { unfold s1. destruct (offers_frame (usable w)
        (call WiFi_scanNetworks (call (WiFi_disconnect true false)
           (call WiFi_mode_STA (set_selectedIndex 0 (set_networkCount 0 s))))))
        as (_ & _ & _ & _ & _ & _ & ->).
      simpl_state. by rewrite <- !(assoc_L (++)). }
    assert (wifi_calls
              (set_needRedraw true
                 (if g_networkCount s1 =? 0 then set_uiState UI_NO_NETWORKS s1
                  else set_uiState UI_SELECT_NETWORK (set_selectedIndex 0 s1)))
            = wifi_calls s1) as ->.
    { by destruct (g_networkCount s1 =? 0). }
    rewrite Hw1. apply begun_clean_app; [done|].
    intros n p Hin. repeat (apply elem_of_cons in Hin as [Hin|Hin]; [done|]).
    by apply elem_of_nil in Hin.
Qed.

Lemma startConnection_inv (s : State) :
  inv s → g_uiState s ≠ UI_NO_NETWORKS → inv (startConnection s).
Proof.
  intros (Hwf & Hs & Hi & Hu & Hp & Hb) Hne.
  unfold startConnection. simpl_state.
  assert (∀ c, (∀ n p, c = WiFi_begin n (Some p) → clean p) →
               inv (call c (call (WiFi_disconnect false false)
                      (call WiFi_mode_STA
                         (set_needRedraw true (set_uiState UI_CONNECTING s))))))
    as Hcall.
  { intros c Hc. unfold inv, wf_set, held, begun_clean. simpl_state.
    split; [done|]. split; [done|]. split; [done|]. split.
    - split; [done|]. intros H0. exfalso. by apply Hne, Hu.
    - split; [done|]. intros n p Hin.
      rewrite <- !(assoc_L (++)) in Hin. revert n p Hin.
      apply begun_clean_app; [done|]. intros n p Hin.
      repeat (apply elem_of_cons in Hin as [Hin|Hin]; [done|]).
      apply elem_of_cons in Hin as [Hin|Hin]; [by apply (Hc n p)|].
      by apply elem_of_nil in Hin. }
  destruct (g_selectedIsOpen s); apply Hcall; intros n p Heq; by simplify_eq.
Qed.

Lemma handleKeyboard_inv (kb : Keyboard) (w : WiFiScan) (s : State) :
  inv s → inv (handleKeyboard kb w s).
Proof.
  intros Hinv. pose proof Hinv as (Hwf & Hs & Hi & Hu & Hp & Hb).
  unfold handleKeyboard.
  destruct (isChange kb); [|done]. destruct (isPressed kb); [|done]. simpl.
  destruct (existsb is_rescan_key (word (keysState kb))) eqn:Hr.
  { apply scanNetworks_inv; simpl_state; [by destruct Hwf|done|].
    unfold begun_clean. simpl_state.
    apply begun_clean_app; [done|]. intros n p Hin.
    apply elem_of_cons in Hin as [Hin|Hin]; [done|]. by apply elem_of_nil in Hin. }
  apply existsb_false in Hr.
  destruct (g_uiState s) eqn:Hst; try done.
  - (* UI_SELECT_NETWORK *)
    destruct (select_keys_spec (word (keysState kb)) s) as (Hi' & Hn & Hc & Hpw & Hu' & Hw);
      [by destruct Hi..|].
    set (s1 := for_each_key select_key (word (keysState kb)) s) in *.
    assert (inv s1) as Hinv1.
    { unfold inv, wf_set, held, begun_clean. rewrite Hn, Hc, Hpw, Hu', Hw, Hst.
      split; [done|]. split; [done|]. split; [done|]. split; [|done].
      exact Hu. }
    destruct (enter (keysState kb) && (g_networkCount s1 >? 0)) eqn:He; [|done].
    apply andb_true_iff in He as [_ He].
    destruct (Z.gtb_spec (g_networkCount s1) 0); [|done].
    unfold inv, wf_set, held, begun_clean. simpl_state.
    rewrite Hn, Hc, Hw in *.
    split; [done|]. split; [done|]. split; [done|]. split.
    + split; [done|]. lia.
    + split; [apply clean_empty|done].
  - (* UI_ENTER_PASSWORD *)
    assert (g_networkCount s ≠ 0) as Hc0.
    { intros Hz. apply Hu in Hz. congruence. }
    destruct (existsb is_back_key (word (keysState kb))).
    { unfold inv, wf_set, held, begun_clean. simpl_state.
      split; [done|]. split; [done|]. split; [done|]. split.
      - split; [done|]. done.
      - split; [apply clean_empty|done]. }
    destruct (g_selectedIsOpen s) eqn:Ho.
    { destruct (enter (keysState kb)); [|done].
      apply startConnection_inv; [done|]. by rewrite Hst. }
    destruct (type_keys_spec (word (keysState kb)) s Hr Hp)
      as (Hp1 & Hn & Hc & Hi1 & Hu1 & Ho1 & Hs1 & Hw).
    set (s1 := for_each_key type_key (word (keysState kb)) s) in *.
    set (s2 := if del (keysState kb) && (0 <? String.length (g_password s1))%nat
               then _ else s1).
    assert (inv s2 ∧ g_uiState s2 = UI_ENTER_PASSWORD) as [Hinv2 Hu2].
    { assert (inv s1) as Hinv1.
      { unfold inv, wf_set, held, begun_clean. rewrite Hn, Hc, Hi1, Hu1, Hw, Hst.
        split; [done|]. split; [done|]. split; [done|]. split; [|done].
        exact Hu. }
      unfold s2. destruct (_ && _); [|by rewrite Hu1].
      split; [|simpl_state; by rewrite Hu1].
      destruct Hinv1 as (? & ? & ? & ? & ? & ?).
      unfold inv, wf_set, held, begun_clean. simpl_state.
      split; [done|]. split; [done|]. split; [done|]. split; [done|].
      split; [|done]. by apply clean_String_remove. }
    destruct (enter (keysState kb)); [|done].
    apply startConnection_inv; [done|]. by rewrite Hu2.
Qed.

Lemma inv_move (u : UiState) (b : bool) (s : State) :
  inv s → g_uiState s ≠ UI_NO_NETWORKS → u ≠ UI_NO_NETWORKS →
  inv (set_needRedraw b (set_uiState u s)).
Proof.
  intros (Hwf & Hs & Hi & Hu & Hp & Hb) Hne Hu'.
  unfold inv, wf_set, held, begun_clean. simpl_state.
  split; [done|]. split; [done|]. split; [done|]. split; [|done].
  split; [done|]. intros Hz. apply Hu in Hz. congruence.
Qed.

Lemma loop_inv (t : Tick) (s : State) : inv s → inv (loop t s).
Proof.
  intros Hinv. unfold loop.
  pose proof (handleKeyboard_inv (tick_keyboard t) (tick_scan t) s Hinv) as H1.
  set (s1 := handleKeyboard _ _ s) in *.
  assert (inv (match g_uiState s1 with
               | UI_CONNECTING => poll_status (tick_status t) s1
               | _ => s1
               end)) as H2.
  { destruct (g_uiState s1) eqn:Hst; try done.
    unfold poll_status.
    destruct (tick_status t); try done; apply inv_move; congruence. }
  revert H2. generalize (match g_uiState s1 with
                         | UI_CONNECTING => poll_status (tick_status t) s1
                         | _ => s1
                         end). intros s2 H2.
  unfold updateDisplayIfNeeded. destruct (g_needRedraw s2); simpl; [|done].
  exact H2.
Qed.

Lemma initial_state_facts :
  length (g_networks initial_state) = Z.to_nat MAX_NETWORKS ∧
  clean (g_password initial_state) ∧ begun_clean initial_state.
Proof.
  split; [done|]. split; [apply clean_empty|].
  intros n p Hin. by apply elem_of_nil in Hin.
Qed.

(** Every reachable state satisfies [inv]: the array has its ten slots,
    the counter is in [0, 10], the held entries are strength-descending,
    the selection index is inside the held entries (or 0 when there are
    none), and no r, R, q or Q is in the password buffer or in a password
    passed to the driver. *)
Lemma reachable_inv (s : State) : reachable s → inv s.
Proof.
  induction 1 as [w|t s _ IH].
  - destruct initial_state_facts as (Hl & Hp & Hb). by apply scanNetworks_inv.
  - by apply loop_inv.
Qed.

(** In every reachable SelectingNetwork state there are held networks and
    the selection index is one of theirs. *)
Lemma reachable_selecting (s : State) :
  reachable s → g_uiState s = UI_SELECT_NETWORK →
  0 < g_networkCount s ∧ 0 <= g_selectedIndex s < g_networkCount s.
Proof.
  intros Hr Hst.
  destruct (reachable_inv s Hr) as ([_ Hc] & _ & [Hi0 Hi] & Hu & _).
  assert (g_networkCount s ≠ 0) as Hne.
  { intros Hz. apply Hu in Hz. congruence. }
  lia.
Qed.

Lemma scanNetworks_password (w : WiFiScan) (s : State) :
  g_password (scanNetworks w s) = g_password s.
Proof.
  rewrite scanNetworks_offers. cbv zeta. set (s1 := offers _ _).
  assert (g_password s1 = g_password s) as Hp1.
  { unfold s1. by destruct (offers_frame (usable w)
      (call WiFi_scanNetworks (call (WiFi_disconnect true false)
         (call WiFi_mode_STA (set_selectedIndex 0 (set_networkCount 0 s))))))
      as (_ & _ & _ & -> & _). }
  by destruct (g_networkCount s1 =? 0).
Qed.

Lemma handleKeyboard_back (kb : Keyboard) (w : WiFiScan) (s : State) :
  pressed kb = true → rescan_pressed kb = false →
  g_uiState s = UI_ENTER_PASSWORD →
  existsb is_back_key (word (keysState kb)) = true →
  handleKeyboard kb w s
  = set_needRedraw true
      (set_password EmptyString (set_uiState UI_SELECT_NETWORK s)).
Proof.
  unfold rescan_pressed, pressed, handleKeyboard.
  destruct (isChange kb), (isPressed kb); simpl; try done.
  intros _ -> -> ->. done.
Qed.

(** C10: a press carrying r or R is taken as the rescan trigger before any
    per-state handling, password entry included, and leaves the password
    buffer as it was; in password entry a press carrying q or Q is taken as
    Back.  Hence in every reachable state, and after the keyboard handling
    of the next pass, the password buffer holds none of r, R, q, Q, and no
    password ever handed to the driver holds one of them. *)
Theorem C10_rescan_and_back_keys_never_typed (s : State) :
  reachable s →
  clean (g_password s) ∧ begun_clean s ∧
  (∀ kb w, rescan_pressed kb = true →
           handleKeyboard kb w s
           = scanNetworks w (call (WiFi_disconnect true false) s) ∧
           g_password (handleKeyboard kb w s) = g_password s) ∧
  (∀ kb w, pressed kb = true → rescan_pressed kb = false →
           g_uiState s = UI_ENTER_PASSWORD →
           existsb is_back_key (word (keysState kb)) = true →
           handleKeyboard kb w s
           = set_needRedraw true
               (set_password EmptyString (set_uiState UI_SELECT_NETWORK s))) ∧
  (∀ kb w, clean (g_password (handleKeyboard kb w s)) ∧
           begun_clean (handleKeyboard kb w s)).
Proof.
  intros Hr. pose proof (reachable_inv s Hr) as Hinv.
  pose proof Hinv as (_ & _ & _ & _ & Hp & Hb).
  split; [done|]. split; [done|]. split; [|split].
  - intros kb w Hk. rewrite handleKeyboard_rescan by done.
    split; [done|]. by rewrite scanNetworks_password.
  - intros kb w. apply handleKeyboard_back.
  - intros kb w.
    by destruct (handleKeyboard_inv kb w s Hinv) as (_ & _ & _ & _ & ? & ?).
Qed.

(** ** The scenarios of the specification, run on the code *)

Example scenario_ABC :
  ssid <$> held state_ABC = ["A"; "C"; "B"]%string ∧
  g_uiState state_ABC = UI_SELECT_NETWORK ∧ g_selectedIndex state_ABC = 0.
Proof. by vm_compute. Qed.

Example scenario_open_B :
  g_selectedSsid state_open_B = "B"%string ∧
  g_selectedIsOpen state_open_B = true ∧
  g_uiState state_open_B = UI_ENTER_PASSWORD ∧
  g_uiState (handleKeyboard key_enter scan_ABC state_open_B) = UI_CONNECTING.
Proof. by vm_compute. Qed.

Example scenario_full :
  rssi <$> held state_full = [-40; -41; -42; -43; -44; -45; -46; -47; -48; -49] ∧
  g_networkCount state_full = 10.
Proof. by vm_compute. Qed.

Lemma reachable_state_ABC : reachable state_ABC.
Proof. apply reach_setup. Qed.

(** [loop] differs from [handleKeyboard] by the dirty flag only when the
    machine is not connecting. *)
Lemma reachable_handleKeyboard (kb : Keyboard) (w : WiFiScan) (s : State) :
  reachable s → g_uiState (handleKeyboard kb w s) ≠ UI_CONNECTING →
  reachable (updateDisplayIfNeeded (handleKeyboard kb w s)).
Proof.
  intros Hr Hne.
  replace (updateDisplayIfNeeded (handleKeyboard kb w s))
    with (loop (mkTick kb w WL_IDLE_STATUS) s); [by apply reach_loop|].
  unfold loop. cbn [tick_keyboard tick_scan tick_status].
  by destruct (g_uiState (handleKeyboard kb w s)).
Qed.

(** ** Checkers for the concrete runs *)

Lemma sorted_descb_correct (l : list NetworkInfo) :
  sorted_descb l = true → sorted_desc l.
Proof.
  induction l as [|a l IH]; [intros _; apply sorted_desc_nil|].
  destruct l as [|b l].
  - intros _ [|i] x y Hx Hy; by simplify_eq/=.
  - cbn [sorted_descb]. intros H. apply andb_true_iff in H as [Hab Hl].
    apply Z.leb_le in Hab. specialize (IH Hl).
    intros [|i] x y Hx Hy.
    + simpl in Hx, Hy. simplify_eq. lia.
    + apply (IH i x y); done.
Qed.

Lemma wf_setb_correct (s : State) : wf_setb s = true → wf_set s.
Proof.
  unfold wf_setb, wf_set. intros H.
  apply andb_true_iff in H as [H H3]. apply andb_true_iff in H as [H1 H2].
  apply Nat.eqb_eq in H1. apply Z.leb_le in H2, H3. done.
Qed.

(** The shifting loop of [insertNetworkSorted] is given enough fuel. *)
Lemma find_pos_range (fuel : nat) (i r cnt : Z) (nets : list NetworkInfo) (p0 : Z) :
  find_pos fuel i r cnt nets p0 = p0 ∨
  i <= find_pos fuel i r cnt nets p0 < cnt.
Proof.
  revert i. induction fuel as [|fuel IH]; intros i; simpl; [by left|].
  destruct (Z.ltb_spec i cnt); [|by left].
  destruct (r >? rssi (nets !!! Z.to_nat i)); [right; lia|].
  destruct (IH (i + 1)) as [->|?]; [by left|right; lia].
Qed.

Lemma insertNetworkSorted_shift_fuel (r : Z) (s : State) :
  let cnt := g_networkCount s in
  let pos := find_pos (Z.to_nat cnt) 0 r cnt (g_networks s)
               (if cnt >? MAX_NETWORKS then MAX_NETWORKS else cnt) in
  let limit := if cnt <? MAX_NETWORKS then cnt else MAX_NETWORKS - 1 in
  (Z.to_nat (limit - pos) ≤ Z.to_nat limit)%nat.
Proof.
  intros cnt pos limit.
  destruct (find_pos_range (Z.to_nat cnt) 0 r cnt (g_networks s)
              (if cnt >? MAX_NETWORKS then MAX_NETWORKS else cnt)) as [H|H];
    fold pos in H; unfold limit, MAX_NETWORKS in *;
    destruct (Z.gtb_spec cnt 10); destruct (Z.ltb_spec cnt 10); lia.
Qed.

(** ** The theorems at concrete inputs *)

Lemma C1_witness :
  length (g_networks initial_state) = Z.to_nat MAX_NETWORKS ∧
  let s' := offers (take 12 (scan_results scan_twelve)) (reset initial_state) in
  (length (held s') ≤ Capacity)%nat ∧
  0 <= g_networkCount s' <= MAX_NETWORKS ∧
  sorted_desc (held s').
Proof.
  split; [reflexivity|].
  apply (C1_offers_bounded_and_sorted initial_state (scan_results scan_twelve) 12).
  reflexivity.
Defined.

Lemma C2_witness :
  wf_set state_full ∧ sorted_desc (held state_full) ∧
  g_networkCount state_full = MAX_NETWORKS ∧
  offer weak_X state_full = state_full ∧
  held (offer strong_Y state_full)
  = take 6 (take 9 (held state_full)) ++ strong_Y
      :: drop 6 (take 9 (held state_full)).
Proof.
  assert (wf_set state_full) as Hwf.
  { apply wf_setb_correct. vm_compute. reflexivity. }
  assert (sorted_desc (held state_full)) as Hs.
  { apply sorted_descb_correct. vm_compute. reflexivity. }
  assert (g_networkCount state_full = MAX_NETWORKS) as Hc.
  { vm_compute. reflexivity. }
  split; [exact Hwf|]. split; [exact Hs|]. split; [exact Hc|]. split.
  - apply (C2_offer_at_capacity weak_X state_full Hwf Hs Hc).
    vm_compute. discriminate.
  - apply (C2_offer_at_capacity strong_Y state_full Hwf Hs Hc).
    vm_compute. reflexivity.
Defined.



Lemma C4_witness :
  length (g_networks state_password_A) = Z.to_nat MAX_NETWORKS ∧
  rescan_pressed (key_char "R") = true ∧
  let s' := handleKeyboard (key_char "R") scan_twelve state_password_A in
  (g_uiState s' = UI_NO_NETWORKS ∨ g_uiState s' = UI_SELECT_NETWORK) ∧
  g_networks s'
  = g_networks (offers (usable scan_twelve) (reset state_password_A)) ∧
  g_networkCount s'
  = g_networkCount (offers (usable scan_twelve) (reset state_password_A)) ∧
  held s' = spec_offers (usable scan_twelve) [] ∧
  (∀ st, let s'' := loop (mkTick (key_char "R") scan_twelve st) state_password_A in
         (g_uiState s'' = UI_NO_NETWORKS ∨ g_uiState s'' = UI_SELECT_NETWORK) ∧
         held s'' = spec_offers (usable scan_twelve) []).
Proof.
  split; [vm_compute; reflexivity|]. split; [reflexivity|].
  apply (C4_rescan_from_any_state (key_char "R") scan_twelve state_password_A).
  - vm_compute. reflexivity.
  - reflexivity.
Defined.

Lemma C5_witness :
  scan_n scan_none <= 0 ∧
  g_uiState (scanNetworks scan_none state_ABC) = UI_NO_NETWORKS ∧
  (0 <= 1 < scan_n scan_ABC ∧ scan_SSID scan_ABC 1 ≠ EmptyString) ∧
  g_uiState (scanNetworks scan_ABC state_full) = UI_SELECT_NETWORK ∧
  g_selectedIndex (scanNetworks scan_ABC state_full) = 0.
Proof.
  assert (scan_n scan_none <= 0) as H0 by (vm_compute; discriminate).
  assert (0 <= 1 < scan_n scan_ABC ∧ scan_SSID scan_ABC 1 ≠ EmptyString) as H1.
  { split; [split; vm_compute; [discriminate|reflexivity]|]. vm_compute. discriminate. }
  split; [exact H0|]. split.
  - apply (C5_scan_filters_hidden scan_none state_ABC). left. exact H0.
  - split; [exact H1|].
    apply (C5_scan_filters_hidden scan_ABC state_full). exists 1. exact H1.
Defined.

Lemma run_reachable (ts : list Tick) (s : State) :
  reachable s → reachable (run ts s).
Proof.
  revert s. induction ts as [|t ts IH]; intros s Hr; [done|].
  apply IH. by apply reach_loop.
Qed.

Example scenario_typed_ab :
  g_uiState state_typed_ab = UI_ENTER_PASSWORD ∧
  g_selectedIsOpen state_typed_ab = false ∧
  g_password state_typed_ab = "ab"%string.
Proof. by vm_compute. Qed.

Lemma C6_witness :
  g_uiState state_connecting = UI_CONNECTING ∧
  g_uiState (loop (tick_status_only WL_CONNECTED) state_connecting)
  = UI_CONNECTED ∧
  g_uiState (loop (tick_status_only WL_NO_SSID_AVAIL) state_connecting)
  = UI_CONNECT_FAILED ∧
  g_uiState (run [tick_status_only WL_IDLE_STATUS; tick_key (key_char "x");
                  tick_status_only WL_DISCONNECTED] state_connecting)
  = UI_CONNECTING.
Proof.
  assert (g_uiState state_connecting = UI_CONNECTING) as Hs.
  { vm_compute. reflexivity. }
  split; [exact Hs|]. split; [|split].
  - apply (proj1 (C6_connecting_poll state_connecting Hs)
             (tick_status_only WL_CONNECTED)).
    reflexivity.
  - apply (proj1 (C6_connecting_poll state_connecting Hs)
             (tick_status_only WL_NO_SSID_AVAIL)).
    reflexivity.
  - apply (proj2 (C6_connecting_poll state_connecting Hs)).
    repeat constructor.
Defined.

(** Typing r in password entry does not append r: the press is taken as a
    rescan, the buffer stays as it was and the machine leaves password
    entry. *)
Lemma C7_counterexample_rescan_key :
  g_uiState state_typed_ab = UI_ENTER_PASSWORD ∧
  g_selectedIsOpen state_typed_ab = false ∧
  is_back_key "r" = false ∧
  g_password (handleKeyboard (key_char "r") scan_ABC state_typed_ab)
  ≠ g_password state_typed_ab +:+ String "r" EmptyString ∧
  g_password (handleKeyboard (key_char "r") scan_ABC state_typed_ab)
  = "ab"%string ∧
  g_uiState (handleKeyboard (key_char "r") scan_ABC state_typed_ab)
  = UI_SELECT_NETWORK.
Proof. vm_compute. repeat split; discriminate. Qed.

Lemma C7_witness :
  g_uiState state_password_A = UI_ENTER_PASSWORD ∧
  g_selectedIsOpen state_password_A = false ∧
  g_password state_password_A = EmptyString ∧
  let s3 := handleKeyboard key_delete scan_ABC
              (handleKeyboard (key_char "b") scan_ABC
                 (handleKeyboard (key_char "a") scan_ABC state_password_A)) in
  g_password s3 = String "a" EmptyString ∧ g_uiState s3 = UI_ENTER_PASSWORD.
Proof.
  assert (g_uiState state_password_A = UI_ENTER_PASSWORD) as Hs.
  { vm_compute. reflexivity. }
  assert (g_selectedIsOpen state_password_A = false) as Ho.
  { vm_compute. reflexivity. }
  assert (g_password state_password_A = EmptyString) as Hp.
  { vm_compute. reflexivity. }
  split; [exact Hs|]. split; [exact Ho|]. split; [exact Hp|].
  apply (C7_password_editing scan_ABC state_password_A Hs Ho).
Defined.

(** Typing q on the password screen of an open network has an effect: the
    machine goes back to SelectingNetwork; and typing r there rescans. *)
Lemma C8_counterexample_back_key :
  g_uiState state_open_B = UI_ENTER_PASSWORD ∧
  g_selectedIsOpen state_open_B = true ∧
  handleKeyboard (key_char "q") scan_ABC state_open_B ≠ state_open_B ∧
  g_uiState (handleKeyboard (key_char "q") scan_ABC state_open_B)
  = UI_SELECT_NETWORK ∧
  handleKeyboard (key_char "r") scan_none state_open_B ≠ state_open_B ∧
  g_uiState (handleKeyboard (key_char "r") scan_none state_open_B)
  = UI_NO_NETWORKS.
Proof.
  split; [by vm_compute|]. split; [by vm_compute|].
  split; [|split; [by vm_compute|split; [|by vm_compute]]].
  - intros H. apply (f_equal g_uiState) in H. vm_compute in H. discriminate.
  - intros H. apply (f_equal g_uiState) in H. vm_compute in H. discriminate.
Qed.

Lemma C8_witness :
  g_uiState state_open_B = UI_ENTER_PASSWORD ∧
  g_selectedIsOpen state_open_B = true ∧
  (let s' := handleKeyboard key_enter scan_ABC state_open_B in
   g_uiState s' = UI_CONNECTING ∧
   wifi_calls s'
   = wifi_calls state_open_B
     ++ [WiFi_mode_STA; WiFi_disconnect false false;
         WiFi_begin (g_selectedSsid state_open_B) None] ∧
   g_password s' = g_password state_open_B) ∧
  handleKeyboard (key_char "x") scan_ABC state_open_B = state_open_B ∧
  handleKeyboard key_delete scan_ABC state_open_B = state_open_B.
Proof.
  assert (g_uiState state_open_B = UI_ENTER_PASSWORD) as Hs.
  { vm_compute. reflexivity. }
  assert (g_selectedIsOpen state_open_B = true) as Ho.
  { vm_compute. reflexivity. }
  split; [exact Hs|]. split; [exact Ho|]. split; [|split].
  - apply (C8_open_network_entry scan_ABC state_open_B Hs Ho).
  - apply (C8_open_network_entry scan_ABC state_open_B Hs Ho); reflexivity.
  - apply (C8_open_network_entry scan_ABC state_open_B Hs Ho).
Defined.

Lemma C9_witness :
  g_uiState state_ABC = UI_SELECT_NETWORK ∧ 0 < g_networkCount state_ABC ∧
  0 <= g_selectedIndex state_ABC < g_networkCount state_ABC ∧
  g_selectedIndex (handleKeyboard (key_char "w") scan_ABC state_ABC)
  = (g_selectedIndex state_ABC + -1) mod g_networkCount state_ABC ∧
  g_selectedIndex (presses ["s"; "S"; "s"]%char scan_ABC state_ABC)
  = g_selectedIndex state_ABC ∧
  g_selectedIndex (presses ["w"; "w"; "W"]%char scan_ABC state_ABC)
  = g_selectedIndex state_ABC.
Proof.
  assert (g_uiState state_ABC = UI_SELECT_NETWORK) as Hs.
  { vm_compute. reflexivity. }
  assert (0 < g_networkCount state_ABC) as Hc.
  { vm_compute. reflexivity. }
  assert (0 <= g_selectedIndex state_ABC < g_networkCount state_ABC) as Hi.
  { split; vm_compute; [discriminate|reflexivity]. }
  split; [exact Hs|]. split; [exact Hc|]. split; [exact Hi|]. split; [|split].
  - apply (proj1 (C9_selection_wraps scan_ABC state_ABC Hs Hc Hi) "w"%char).
    left. reflexivity.
  - apply (proj2 (C9_selection_wraps scan_ABC state_ABC Hs Hc Hi)).
    + vm_compute. reflexivity.
    + right. repeat constructor.
  - apply (proj2 (C9_selection_wraps scan_ABC state_ABC Hs Hc Hi)).
    + vm_compute. reflexivity.
    + left. repeat constructor.
Defined.

Lemma C10_witness :
  reachable state_typed_ab ∧
  clean (g_password state_typed_ab) ∧
  g_password (handleKeyboard (key_char "r") scan_ABC state_typed_ab)
  = g_password state_typed_ab ∧
  clean (g_password (handleKeyboard (key_char "x") scan_ABC state_typed_ab)).
Proof.
  assert (reachable state_typed_ab) as Hr.
  { apply run_reachable, reachable_state_ABC. }
  split; [exact Hr|]. split; [|split].
  - apply (C10_rescan_and_back_keys_never_typed state_typed_ab Hr).
  - apply (C10_rescan_and_back_keys_never_typed state_typed_ab Hr).
    reflexivity.
  - apply (C10_rescan_and_back_keys_never_typed state_typed_ab Hr).
Defined.

(** ** A scan as sort-then-cut *)

Lemma first_weaker_take (r : Z) (k : nat) (l : list NetworkInfo) :
  first_weaker r (take k l) = (first_weaker r l `min` k)%nat.
Proof.
  revert k. induction l as [|e l IH]; intros [|k]; simpl; try done.
  - by rewrite Nat.min_0_r.
  - destruct (rssi e <? r); [done|]. by rewrite IH.
Qed.

Lemma insert_desc_lookup (o : NetworkInfo) (l : list NetworkInfo) (j : nat) :
  insert_desc o l !! j
  = if decide (j < first_weaker (rssi o) l)%nat then l !! j
    else if decide (j = first_weaker (rssi o) l) then Some o
    else l !! (j - 1)%nat.
Proof. apply lookup_insert_at, first_weaker_le. Qed.

(** Cutting before or after an insertion gives the same first [k]
    entries. *)
Lemma take_insert_desc_take (o : NetworkInfo) (k : nat) (l : list NetworkInfo) :
  take k (insert_desc o (take k l)) = take k (insert_desc o l).
Proof.
  apply list_eq. intros j. rewrite !lookup_take, !insert_desc_lookup.
  rewrite first_weaker_take, !lookup_take.
  repeat case_decide; try lia; try done.
Qed.

Lemma first_weaker_all (r : Z) (l : list NetworkInfo) (w : NetworkInfo) :
  sorted_desc l → last l = Some w → r <= rssi w →
  first_weaker r l = length l.
Proof.
  intros Hs Hw Hr. pose proof (first_weaker_le r l) as Hle.
  destruct (decide (first_weaker r l = length l)) as [|Hne]; [done|].
  exfalso. destruct (lookup_lt_is_Some_2 l (first_weaker r l)) as [a Ha]; [lia|].
  pose proof (first_weaker_at r l a Ha) as Hlt.
  rewrite last_lookup in Hw.
  assert (first_weaker r l ≤ pred (length l))%nat as Hj by lia.
  pose proof (sorted_desc_le l _ _ a w Hs Hj Ha Hw). lia.
Qed.

Lemma spec_offer_insert_desc (o : NetworkInfo) (l : list NetworkInfo) :
  sorted_desc l → spec_offer o l = take Capacity (insert_desc o l).
Proof.
  intros Hs. unfold spec_offer.
  destruct (Nat.eqb_spec (length l) Capacity) as [Hlen|Hlen]; [|done].
  destruct (Z.leb_spec (rssi o) (rssi (l !!! (length l - 1)%nat))) as [Hle|Hgt];
    [|done].
  cbn [andb]. unfold insert_desc.
  rewrite (first_weaker_all (rssi o) l (l !!! (length l - 1)%nat)); [|done| |done].
  - rewrite (take_ge l (length l)), (drop_ge l (length l)) by lia.
    by rewrite take_app_length'.
  - rewrite last_lookup.
    replace (pred (length l)) with (length l - 1)%nat by lia.
    apply list_lookup_lookup_total_lt. unfold Capacity in Hlen. lia.
Qed.

Lemma sort_desc_snoc (os : list NetworkInfo) (o : NetworkInfo) :
  sort_desc (os ++ [o]) = insert_desc o (sort_desc os).
Proof. unfold sort_desc. by rewrite fold_left_app. Qed.

Lemma insert_desc_perm (o : NetworkInfo) (l : list NetworkInfo) :
  insert_desc o l ≡ₚ l ++ [o].
Proof.
  unfold insert_desc. set (p := first_weaker (rssi o) l).
  rewrite <- (take_drop p l) at 3.
  rewrite <- (assoc_L (++)). apply Permutation_app_head.
  rewrite (Permutation_app_comm (drop _ l) [o]). done.
Qed.

Lemma sort_desc_perm (os : list NetworkInfo) : sort_desc os ≡ₚ os.
Proof.
  induction os as [|o os IH] using rev_ind; [done|].
  rewrite sort_desc_snoc, insert_desc_perm. by rewrite IH.
Qed.

Lemma sort_desc_sorted (os : list NetworkInfo) : sorted_desc (sort_desc os).
Proof.
  induction os as [|o os IH] using rev_ind; [apply sorted_desc_nil|].
  rewrite sort_desc_snoc. by apply sorted_desc_insert_at.
Qed.

Lemma spec_offers_snoc (os l : list NetworkInfo) (o : NetworkInfo) :
  spec_offers (os ++ [o]) l = spec_offer o (spec_offers os l).
Proof. unfold spec_offers. by rewrite fold_left_app. Qed.

(** Bounded insertion is sorting followed by a cut to Capacity. *)
Lemma spec_offers_sort_desc (os : list NetworkInfo) :
  spec_offers os [] = take Capacity (sort_desc os).
Proof.
  induction os as [|o os IH] using rev_ind; [done|].
  rewrite spec_offers_snoc, sort_desc_snoc, IH.
  rewrite spec_offer_insert_desc by apply sorted_desc_take, sort_desc_sorted.
  apply take_insert_desc_take.
Qed.

(** Among the entries of one strength, insertion puts the newcomer
    last. *)
Lemma filter_insert_desc (r : Z) (o : NetworkInfo) (l : list NetworkInfo) :
  sorted_desc l →
  filter (λ e, rssi e = r) (insert_desc o l)
  = filter (λ e, rssi e = r) (l ++ [o]).
Proof.
  intros Hs. unfold insert_desc. set (p := first_weaker (rssi o) l).
  rewrite <- (take_drop p l) at 3.
  rewrite !filter_app, !filter_cons, filter_nil.
  case_decide as Hr; [|by rewrite (right_id_L [] (++))].
  assert (filter (λ e, rssi e = r) (drop p l) = []) as ->.
  { apply list_eq. intros j. rewrite lookup_nil.
    destruct (filter _ _ !! j) as [a|] eqn:E; [exfalso|done].
    assert (a ∈ filter (λ e, rssi e = r) (drop p l)) as Hin.
    { apply list_elem_of_lookup. eauto. }
    apply list_elem_of_filter in Hin as [Ha Hin].
    apply list_elem_of_lookup in Hin as [i Hi]. rewrite lookup_drop in Hi.
    assert (first_weaker (rssi o) l ≤ p + i)%nat as Hge by (fold p; lia).
    pose proof (first_weaker_after (rssi o) l _ a Hs Hge Hi). lia. }
  by rewrite (right_id_L [] (++)).
Qed.

Lemma filter_sort_desc (r : Z) (os : list NetworkInfo) :
  filter (λ e, rssi e = r) (sort_desc os) = filter (λ e, rssi e = r) os.
Proof.
  induction os as [|o os IH] using rev_ind; [done|].
  rewrite sort_desc_snoc, filter_insert_desc by apply sort_desc_sorted.
  by rewrite !filter_app, IH.
Qed.

Lemma scanNetworks_held (w : WiFiScan) (s : State) :
  length (g_networks s) = Z.to_nat MAX_NETWORKS →
  held (scanNetworks w s) = spec_offers (usable w) [] ∧
  g_networkCount (scanNetworks w s) = Z.of_nat (length (held (scanNetworks w s))).
Proof.
  intros Hlen. destruct (scanNetworks_set w s) as [Hn Hc].
  pose proof (offers_wf (usable w) _ (reset_wf s Hlen)) as Hwf.
  assert (held (scanNetworks w s) = held (offers (usable w) (reset s))) as Hh.
  { unfold held. by rewrite Hn, Hc. }
  split.
  - rewrite Hh, offers_held by by apply reset_wf. done.
  - rewrite Hh, held_length, Hc by done. destruct Hwf as [_ ?]. lia.
Qed.

(** X1: a scan keeps the strongest: the named observations of the scan
    are, up to order, the held entries plus a remainder none of which is
    stronger than any held entry; the number held is the number of named
    observations, capped at Capacity, so nothing is lost from a scan of
    at most ten. *)
Theorem X1_scan_keeps_strongest (w : WiFiScan) (s : State) :
  length (g_networks s) = Z.to_nat MAX_NETWORKS →
  let hs := held (scanNetworks w s) in
  ∃ rest,
    usable w ≡ₚ hs ++ rest ∧
    (∀ a b, a ∈ hs → b ∈ rest → rssi b <= rssi a) ∧
    length hs = (length (usable w) `min` Capacity)%nat ∧
    g_networkCount (scanNetworks w s) = Z.of_nat (length hs) ∧
    ((length (usable w) ≤ Capacity)%nat → rest = []).
Proof.
  intros Hlen hs. destruct (scanNetworks_held w s Hlen) as [Hh Hc].
  fold hs in Hh, Hc. rewrite spec_offers_sort_desc in Hh.
  assert (length (sort_desc (usable w)) = length (usable w)) as Hl.
  { apply Permutation_length, sort_desc_perm. }
  exists (drop Capacity (sort_desc (usable w))).
  split; [|split; [|split; [|split]]].
  - by rewrite Hh, take_drop, sort_desc_perm.
  - intros a b Ha Hb. rewrite Hh in Ha.
    apply list_elem_of_lookup in Ha as [i Hi]. apply list_elem_of_lookup in Hb as [j Hj].
    apply lookup_take_Some in Hi as [Hi Hlt]. rewrite lookup_drop in Hj.
    pose proof (sorted_desc_le _ i (Capacity + j) a b (sort_desc_sorted (usable w))
                  ltac:(lia) Hi Hj). lia.
  - rewrite Hh, length_take, Hl. lia.
  - done.
  - intros Hle. apply drop_ge. lia.
Qed.

(** X2: what a scan leaves held is the stable insertion sort of its named
    observations by descending strength, cut to Capacity entries. *)
Theorem X2_scan_is_sort_then_cut (w : WiFiScan) (s : State) :
  length (g_networks s) = Z.to_nat MAX_NETWORKS →
  held (scanNetworks w s) = take Capacity (sort_desc (usable w)) ∧
  sorted_desc (sort_desc (usable w)) ∧
  sort_desc (usable w) ≡ₚ usable w.
Proof.
  intros Hlen. destruct (scanNetworks_held w s Hlen) as [Hh _].
  rewrite Hh, spec_offers_sort_desc.
  split; [done|]. split; [apply sort_desc_sorted|apply sort_desc_perm].
Qed.

(** X3: a scan is stable: for every strength, the held entries of that
    strength are, in held order, the first so many of the named
    observations of that strength in scan order. *)
Theorem X3_scan_is_stable (w : WiFiScan) (s : State) (r : Z) :
  length (g_networks s) = Z.to_nat MAX_NETWORKS →
  filter (λ e, rssi e = r) (held (scanNetworks w s))
    `prefix_of` filter (λ e, rssi e = r) (usable w).
Proof.
  intros Hlen. destruct (scanNetworks_held w s Hlen) as [Hh _].
  rewrite Hh, spec_offers_sort_desc, <- (filter_sort_desc r (usable w)).
  rewrite <- (take_drop Capacity (sort_desc (usable w))) at 2.
  rewrite filter_app. by apply prefix_app_r.
Qed.

(** ** Array bounds *)

Lemma slot_in_range (nets : list NetworkInfo) (i : Z) :
  length nets = Z.to_nat MAX_NETWORKS → 0 <= i < MAX_NETWORKS →
  slot nets i = Some (nets !!! Z.to_nat i).
Proof.
  intros Hlen Hi. unfold slot.
  destruct (Z.leb_spec 0 i); [|lia]. destruct (Z.ltb_spec i MAX_NETWORKS); [|lia].
  apply list_lookup_lookup_total_lt. lia.
Qed.

Lemma find_pos_chk_ok (fuel : nat) (i r cnt : Z) (nets : list NetworkInfo) (pos : Z) :
  length nets = Z.to_nat MAX_NETWORKS → 0 <= i → cnt <= MAX_NETWORKS →
  find_pos_chk fuel i r cnt nets pos = Some (find_pos fuel i r cnt nets pos).
Proof.
  intros Hlen. revert i. induction fuel as [|fuel IH]; intros i Hi Hc; [done|].
  simpl. destruct (Z.ltb_spec i cnt); [|done].
  rewrite slot_in_range by (done || lia). simpl.
  destruct (r >? rssi (nets !!! Z.to_nat i)); [done|]. apply IH; lia.
Qed.

Lemma shift_down_chk_ok (fuel : nat) (i pos : Z) (nets : list NetworkInfo) :
  length nets = Z.to_nat MAX_NETWORKS → 0 <= pos → i < MAX_NETWORKS →
  shift_down_chk fuel i pos nets = Some (shift_down fuel i pos nets).
Proof.
  revert i nets. induction fuel as [|fuel IH]; intros i nets Hlen Hp Hi; [done|].
  simpl. destruct (Z.gtb_spec i pos); [|done].
  rewrite !slot_in_range by (done || lia). simpl.
  apply IH; [by rewrite length_insert|done|lia].
Qed.

(** The check can fail: with the counter past the array, offering what the
    initial array already holds reads [g_networks[10]]. *)
Example insertNetworkSorted_chk_overfull :
  insertNetworkSorted_chk EmptyString 0 0 state_overfull = None.
Proof. by vm_compute. Qed.

(** X4: when the array has its ten slots and the counter is in [0, 10],
    [insertNetworkSorted] reads and writes [g_networks] inside its bounds
    only: the bounds-checked function succeeds with the same result, for
    one insertion and for any run of them. *)
Theorem X4_insert_stays_in_bounds (s : State) :
  wf_set s →
  (∀ n r e,
     insertNetworkSorted_chk n r e s = Some (insertNetworkSorted n r e s)) ∧
  (∀ os, offers_chk os s = Some (offers os s)).
Proof.
  intros Hwf.
  assert (∀ s n r e, wf_set s →
            insertNetworkSorted_chk n r e s = Some (insertNetworkSorted n r e s))
    as Hone.
  { clear s Hwf. intros s n r e Hwf.
    pose proof (insertNetworkSorted_pos r s Hwf) as Hpos.
    pose proof Hwf as [Hlen Hcnt].
    unfold insertNetworkSorted_chk, insertNetworkSorted.
    assert ((if g_networkCount s =? MAX_NETWORKS
             then e0 ← slot (g_networks s) (g_networkCount s - 1);
                  Some (r <=? rssi e0)
             else Some false)
            = Some ((g_networkCount s =? MAX_NETWORKS)
                    && (r <=? rssi (g_networks s !!! Z.to_nat (g_networkCount s - 1)))))
      as ->.
    { destruct (Z.eqb_spec (g_networkCount s) MAX_NETWORKS) as [Hc|Hc]; [|done].
      rewrite slot_in_range by (done || (unfold MAX_NETWORKS in *; lia)). done. }
    cbn [mbind option_bind].
    destruct ((g_networkCount s =? MAX_NETWORKS) && _) eqn:Hguard; [done|].
    rewrite find_pos_chk_ok by (done || lia). cbn [mbind option_bind].
    rewrite Hpos.
    destruct (offer_insert (mkNetworkInfo n r e) s Hwf) as [Hp _].
    { intros [Hc Hle]. rewrite Hc in Hguard.
      change (Z.to_nat (MAX_NETWORKS - 1)) with 9%nat in Hguard.
      change (MAX_NETWORKS =? MAX_NETWORKS) with true in Hguard.
      cbn [rssi] in Hle.
      destruct (Z.leb_spec r (rssi (g_networks s !!! 9%nat))); [done|lia]. }
    cbn [rssi] in Hp. unfold Capacity in Hp.
    rewrite shift_down_chk_ok;
      [|done|lia|destruct (g_networkCount s <? MAX_NETWORKS) eqn:E;
               [apply Z.ltb_lt in E|]; unfold MAX_NETWORKS in *; lia].
    cbn [mbind option_bind].
    rewrite slot_in_range;
      [|by rewrite shift_down_length|unfold MAX_NETWORKS; lia].
    done. }
  split; [by intros; apply Hone|].
  intros os. revert s Hwf. induction os as [|o os IH]; intros s Hwf; [done|].
  cbn [offers_chk offers fold_left]. rewrite Hone by done.
  cbn [mbind option_bind]. apply IH. by apply insertNetworkSorted_wf.
Qed.

(** ** The state machine beyond the single events *)

(** X5: in every state the sketch can be in between two passes of [loop],
    the array has its ten slots, the counter is in [0, 10], the held
    entries are strength-descending, the machine is in NoNetworksFound
    exactly when nothing is held, and the selection index designates a
    held entry whenever one is held (and is 0 otherwise). *)
Theorem X5_reachable_invariants (s : State) :
  reachable s →
  length (g_networks s) = Z.to_nat MAX_NETWORKS ∧
  0 <= g_networkCount s <= MAX_NETWORKS ∧
  sorted_desc (held s) ∧
  (g_uiState s = UI_NO_NETWORKS ↔ g_networkCount s = 0) ∧
  (0 < g_networkCount s → 0 <= g_selectedIndex s < g_networkCount s) ∧
  (g_networkCount s = 0 → g_selectedIndex s = 0).
Proof.
  intros Hr.
  destruct (reachable_inv s Hr) as ([Hl Hc] & Hs & [Hi0 Hi] & Hu & _).
  split; [done|]. split; [done|]. split; [done|]. split; [done|].
  split; intros; lia.
Qed.

Lemma updateDisplayIfNeeded_idem (s : State) :
  updateDisplayIfNeeded (updateDisplayIfNeeded s) = updateDisplayIfNeeded s.
Proof. unfold updateDisplayIfNeeded. by destruct (g_needRedraw s) eqn:E; simpl; rewrite ?E. Qed.

Lemma loop_no_handler (t : Tick) (s : State) :
  rescan_pressed (tick_keyboard t) = false →
  g_uiState s = UI_NO_NETWORKS ∨ g_uiState s = UI_CONNECTED ∨
  g_uiState s = UI_CONNECT_FAILED →
  loop t s = updateDisplayIfNeeded s.
Proof.
  intros Hk Hs. unfold loop. rewrite handleKeyboard_no_handler by tauto.
  by destruct Hs as [->|[->| ->]].
Qed.

Lemma run_no_handler (ts : list Tick) (s : State) :
  g_uiState s = UI_NO_NETWORKS ∨ g_uiState s = UI_CONNECTED ∨
  g_uiState s = UI_CONNECT_FAILED →
  Forall (λ t, rescan_pressed (tick_keyboard t) = false) ts →
  run ts (updateDisplayIfNeeded s) = updateDisplayIfNeeded s.
Proof.
  intros Hs Hall. induction Hall as [|t ts Ht Hall IH]; [done|].
  cbn [run fold_left]. fold (run ts (loop t (updateDisplayIfNeeded s))).
  rewrite loop_no_handler, updateDisplayIfNeeded_idem; [done..|].
  by rewrite updateDisplayIfNeeded_uiState.
Qed.

(** X7: NoNetworksFound, Connected and ConnectFailed are left by the
    rescan key only.  Over any passes that do not carry it, whatever
    else is typed and whatever status the driver reports (a lost link
    included), no global changes but the dirty flag, which the first pass
    clears, and no driver call is made. *)
Theorem X7_resting_states_wait_for_rescan (s : State) (t : Tick) (ts : list Tick) :
  g_uiState s = UI_NO_NETWORKS ∨ g_uiState s = UI_CONNECTED ∨
  g_uiState s = UI_CONNECT_FAILED →
  Forall (λ t, rescan_pressed (tick_keyboard t) = false) (t :: ts) →
  run (t :: ts) s = updateDisplayIfNeeded s ∧
  g_uiState (run (t :: ts) s) = g_uiState s ∧
  wifi_calls (run (t :: ts) s) = wifi_calls s.
Proof.
  intros Hs Hall. apply Forall_cons in Hall as [Ht Hall].
  assert (run (t :: ts) s = updateDisplayIfNeeded s) as Hrun.
  { cbn [run fold_left]. fold (run ts (loop t s)).
    rewrite loop_no_handler by done. by apply run_no_handler. }
  rewrite Hrun. split; [done|]. split; [apply updateDisplayIfNeeded_uiState|].
  unfold updateDisplayIfNeeded. by destruct (g_needRedraw s).
Qed.

(** X9: in SelectingNetwork, with held networks and the selection index
    among them, an Up press followed by a Down press, or a Down press
    followed by an Up press, leaves every global as it was, apart from the
    dirty flag that is set. *)
Theorem X9_up_and_down_cancel (w : WiFiScan) (s : State) (u d : ascii) :
  g_uiState s = UI_SELECT_NETWORK → 0 < g_networkCount s →
  0 <= g_selectedIndex s < g_networkCount s →
  is_up_key u = true → is_down_key d = true →
  handleKeyboard (key_char d) w (handleKeyboard (key_char u) w s)
  = set_needRedraw true s ∧
  handleKeyboard (key_char u) w (handleKeyboard (key_char d) w s)
  = set_needRedraw true s.
Proof.
  intros Hs Hc Hi Hu Hd.
  pose proof (Z.mod_pos_bound (g_selectedIndex s - 1) (g_networkCount s) Hc).
  pose proof (Z.mod_pos_bound (g_selectedIndex s + 1) (g_networkCount s) Hc).
  split.
  - rewrite (press_up u) by done. rewrite (press_down d) by (simpl_state; done).
    simpl_state. rewrite Zplus_mod_idemp_l.
    replace (g_selectedIndex s - 1 + 1) with (g_selectedIndex s) by lia.
    rewrite Z.mod_small by done. by destruct s.
  - rewrite (press_down d) by done. rewrite (press_up u) by (simpl_state; done).
    simpl_state. rewrite Zminus_mod_idemp_l.
    replace (g_selectedIndex s + 1 - 1) with (g_selectedIndex s) by lia.
    rewrite Z.mod_small by done. by destruct s.
Qed.

Lemma handleKeyboard_select_enter (w : WiFiScan) (s : State) :
  g_uiState s = UI_SELECT_NETWORK → 0 < g_networkCount s →
  handleKeyboard key_enter w s
  = set_needRedraw true
      (set_uiState UI_ENTER_PASSWORD
         (set_password EmptyString
            (set_selectedIsOpen
               (encType (g_networks s !!! Z.to_nat (g_selectedIndex s))
                =? WIFI_AUTH_OPEN)
               (set_selectedSsid
                  (ssid (g_networks s !!! Z.to_nat (g_selectedIndex s))) s)))).
Proof.
  intros Hs Hc. unfold handleKeyboard, key_enter. simpl. rewrite Hs.
  unfold for_each_key. simpl.
  by destruct (Z.gtb_spec (g_networkCount s) 0); [|lia].
Qed.

(** X10: Confirm on the list and then Back from the password screen
    returns to SelectingNetwork with the array, the counter, the selection
    index and the driver trace as they were and the password buffer empty;
    the name and open flag of the network looked at stay behind.  With
    nothing held, Confirm on the list does nothing. *)
Theorem X10_confirm_then_back (w : WiFiScan) (s : State) (q : ascii) :
  g_uiState s = UI_SELECT_NETWORK → is_back_key q = true →
  (0 < g_networkCount s →
   let e := g_networks s !!! Z.to_nat (g_selectedIndex s) in
   handleKeyboard (key_char q) w (handleKeyboard key_enter w s)
   = set_needRedraw true
       (set_password EmptyString
          (set_selectedIsOpen (encType e =? WIFI_AUTH_OPEN)
             (set_selectedSsid (ssid e) s)))) ∧
  (g_networkCount s <= 0 → handleKeyboard key_enter w s = s).
Proof.
  intros Hs Hq. split.
  - intros Hc e. rewrite handleKeyboard_select_enter by done.
    assert (is_rescan_key q = false) as Hr.
    { unfold is_back_key in Hq. apply orb_true_iff in Hq.
      rewrite !is_char_eq in Hq. by destruct Hq as [-> | ->]. }
    rewrite handleKeyboard_back; simpl_state; try done.
    + rewrite <- Hs. by destruct s.
    + unfold rescan_pressed. simpl. by rewrite Hr.
    + simpl. by rewrite Hq.
  - intros Hc. unfold handleKeyboard, key_enter. simpl. rewrite Hs.
    unfold for_each_key. simpl.
    by destruct (Z.gtb_spec (g_networkCount s) 0); [lia|].
Qed.

Lemma append_snoc (p : string) (c : ascii) (q : string) :
  (p +:+ String c EmptyString) +:+ q = p +:+ String c q.
Proof.
  induction p as [|a p IH]; [done|].
  change (String a ((p +:+ String c EmptyString) +:+ q)
          = String a (p +:+ String c q)).
  by f_equal.
Qed.

Lemma append_empty_r (p : string) : p +:+ EmptyString = p.
Proof.
  induction p as [|a p IH]; [done|].
  change (String a (p +:+ EmptyString) = String a p). by f_equal.
Qed.

(** The typing loop appends the characters of the report that are not the
    back key, in order, and touches nothing but the buffer and the dirty
    flag. *)
Lemma type_keys_spec_frame (cs : list ascii) (s : State) :
  let s' := for_each_key type_key cs s in
  g_networks s' = g_networks s ∧ g_networkCount s' = g_networkCount s ∧
  g_selectedIndex s' = g_selectedIndex s ∧ g_uiState s' = g_uiState s ∧
  g_selectedIsOpen s' = g_selectedIsOpen s ∧
  g_selectedSsid s' = g_selectedSsid s ∧ wifi_calls s' = wifi_calls s.
Proof.
  revert s. induction cs as [|c cs IH]; intros s; [done|].
  cbn [for_each_key fold_left]. fold (for_each_key type_key cs (type_key c s)).
  destruct (IH (type_key c s)) as (-> & -> & -> & -> & -> & -> & ->).
  unfold type_key. by destruct (is_back_key c).
Qed.

(** The handler of EnteringPassword starts the connection whenever the
    report carries Enter and neither the rescan nor the back key. *)
Lemma handleKeyboard_confirm_connects (kb : Keyboard) (w : WiFiScan) (s : State) :
  g_uiState s = UI_ENTER_PASSWORD → pressed kb = true →
  enter (keysState kb) = true →
  existsb is_rescan_key (word (keysState kb)) = false →
  existsb is_back_key (word (keysState kb)) = false →
  ∃ s1, handleKeyboard kb w s = startConnection s1 ∧
        g_selectedSsid s1 = g_selectedSsid s ∧
        g_selectedIsOpen s1 = g_selectedIsOpen s ∧
        wifi_calls s1 = wifi_calls s.
Proof.
  intros Hs Hp He Hr Hb. unfold pressed in Hp. apply andb_true_iff in Hp as [Hc Hp].
  unfold handleKeyboard. rewrite Hc, Hp, Hr, Hs, Hb, He. simpl.
  destruct (g_selectedIsOpen s) eqn:Ho; [by exists s|].
  eexists. split; [done|].
  destruct (type_keys_spec_frame (word (keysState kb)) s)
    as (Hn & Hcnt & Hi & Hu & Ho' & Hss & Hw).
  by destruct (del (keysState kb) && _); simpl_state; rewrite ?Hss, ?Ho', ?Hw, ?Ho.
Qed.

Lemma startConnection_calls (s : State) :
  g_uiState (startConnection s) = UI_CONNECTING ∧
  wifi_calls (startConnection s)
  = wifi_calls s
    ++ [WiFi_mode_STA; WiFi_disconnect false false;
        WiFi_begin (g_selectedSsid s)
          (if g_selectedIsOpen s then None else Some (g_password s))].
Proof.
  unfold startConnection. simpl_state.
  destruct (g_selectedIsOpen s); simpl_state; by rewrite <- !(assoc_L (++)).
Qed.

(** X13: the status is polled in the very pass that starts a connection
    attempt: when a report on the password screen carries Enter (and
    neither the rescan nor the back key), the pass requests the join of
    the selected network and ends in Connected on a success report, in
    ConnectFailed on a failure report, and in Connecting otherwise. *)
Theorem X13_first_poll_in_same_pass (t : Tick) (s : State) :
  g_uiState s = UI_ENTER_PASSWORD → pressed (tick_keyboard t) = true →
  enter (keysState (tick_keyboard t)) = true →
  existsb is_rescan_key (word (keysState (tick_keyboard t))) = false →
  existsb is_back_key (word (keysState (tick_keyboard t))) = false →
  g_uiState (loop t s)
  = match tick_status t with
    | WL_CONNECTED => UI_CONNECTED
    | WL_CONNECT_FAILED | WL_NO_SSID_AVAIL => UI_CONNECT_FAILED
    | _ => UI_CONNECTING
    end ∧
  ∃ p, wifi_calls (loop t s)
       = wifi_calls s ++ [WiFi_mode_STA; WiFi_disconnect false false;
                          WiFi_begin (g_selectedSsid s) p].
Proof.
  intros Hs Hp He Hr Hb.
  destruct (handleKeyboard_confirm_connects (tick_keyboard t) (tick_scan t) s
              Hs Hp He Hr Hb) as (s1 & Hk & Hss & Ho & Hw).
  destruct (startConnection_calls s1) as [Hu Hc].
  rewrite loop_polls by by rewrite Hk. rewrite Hk. split.
  - rewrite updateDisplayIfNeeded_uiState. unfold poll_status.
    destruct (tick_status t); simpl_state; done.
  - eexists.
    assert (∀ x, wifi_calls (updateDisplayIfNeeded x) = wifi_calls x) as ->.
    { intros x. unfold updateDisplayIfNeeded. by destruct (g_needRedraw x). }
    assert (wifi_calls (poll_status (tick_status t) (startConnection s1))
            = wifi_calls (startConnection s1)) as ->.
    { unfold poll_status. by destruct (tick_status t). }
    rewrite Hc, Hw, Hss. done.
Qed.

Lemma presses_type (cs : list ascii) (w : WiFiScan) (s : State) :
  g_uiState s = UI_ENTER_PASSWORD → g_selectedIsOpen s = false →
  Forall (λ c, is_rescan_key c = false ∧ is_back_key c = false) cs →
  let s' := presses cs w s in
  g_password s' = g_password s +:+ string_of_list_ascii cs ∧
  g_uiState s' = UI_ENTER_PASSWORD ∧ g_selectedIsOpen s' = false ∧
  g_selectedSsid s' = g_selectedSsid s ∧ wifi_calls s' = wifi_calls s.
Proof.
  revert s. induction cs as [|c cs IH]; intros s Hs Ho Hall.
  - simpl. by rewrite append_empty_r.
  - apply Forall_cons in Hall as [[Hr Hb] Hall].
    cbn [presses fold_left]. fold (presses cs w (handleKeyboard (key_char c) w s)).
    rewrite handleKeyboard_type by done.
    destruct (IH (set_needRedraw true
                    (set_password (g_password s +:+ String c EmptyString) s)))
      as (-> & -> & -> & -> & ->); [done..|].
    simpl_state. cbn [string_of_list_ascii]. by rewrite append_snoc.
Qed.

Lemma presses_open_ignored (cs : list ascii) (w : WiFiScan) (s : State) :
  g_uiState s = UI_ENTER_PASSWORD → g_selectedIsOpen s = true →
  Forall (λ c, is_rescan_key c = false ∧ is_back_key c = false) cs →
  presses cs w s = s.
Proof.
  intros Hs Ho Hall. induction Hall as [|c cs [Hr Hb] Hall IH]; [done|].
  cbn [presses fold_left].
  rewrite handleKeyboard_open_ignored; try done; simpl.
  - by rewrite Hr.
  - by rewrite Hb.
Qed.

Lemma handleKeyboard_password_enter (w : WiFiScan) (s : State) :
  g_uiState s = UI_ENTER_PASSWORD →
  handleKeyboard key_enter w s = startConnection s.
Proof.
  intros Hs. unfold handleKeyboard, key_enter. simpl. rewrite Hs.
  by destruct (g_selectedIsOpen s).
Qed.

(** X8: the whole join, from a reachable SelectingNetwork state: Confirm
    on the list, the password typed character by character (none of r, R,
    q, Q), Confirm again.  The selected entry is a held one; the machine
    ends in Connecting, and the driver has been asked, after the calls made
    before, to enter station mode, to disconnect without erasing, and to
    join the selected entry's name: without a passphrase when its security
    type is open (what was typed is ignored), else with exactly the
    characters typed. *)
Theorem X8_select_type_confirm (w : WiFiScan) (s : State) (cs : list ascii) :
  reachable s → g_uiState s = UI_SELECT_NETWORK →
  Forall (λ c, is_rescan_key c = false ∧ is_back_key c = false) cs →
  let e := g_networks s !!! Z.to_nat (g_selectedIndex s) in
  let s3 := handleKeyboard key_enter w
              (presses cs w (handleKeyboard key_enter w s)) in
  e ∈ held s ∧
  g_uiState s3 = UI_CONNECTING ∧
  wifi_calls s3
  = wifi_calls s
    ++ [WiFi_mode_STA; WiFi_disconnect false false;
        WiFi_begin (ssid e)
          (if encType e =? WIFI_AUTH_OPEN then None
           else Some (string_of_list_ascii cs))].
Proof.
  intros Hr Hs Hall e s3.
  destruct (reachable_selecting s Hr Hs) as [Hc Hi].
  destruct (reachable_inv s Hr) as ([Hl Hcnt] & _).
  split.
  - apply list_elem_of_lookup. exists (Z.to_nat (g_selectedIndex s)).
    unfold held. rewrite lookup_take_lt by lia.
    apply list_lookup_lookup_total_lt. unfold MAX_NETWORKS in *. lia.
  - unfold s3. rewrite (handleKeyboard_select_enter w s) by done. fold e.
    set (s1 := set_needRedraw true _).
    destruct (encType e =? WIFI_AUTH_OPEN) eqn:Ho.
    + rewrite presses_open_ignored by (done || (unfold s1; simpl_state; done)).
      rewrite handleKeyboard_password_enter by done.
      destruct (startConnection_calls s1) as [-> ->].
      split; [done|]. unfold s1. by simpl_state.
    + destruct (presses_type cs w s1) as (Hp & Hu & Ho' & Hss & Hw);
        [done|by unfold s1; simpl_state|done|].
      rewrite handleKeyboard_password_enter by done.
      destruct (startConnection_calls (presses cs w s1)) as [-> ->].
      split; [done|]. rewrite Hw, Hss, Ho', Hp. unfold s1. simpl_state. done.
Qed.

(** ** The dirty flag and the display *)

Lemma select_keys_dirty (cs : list ascii) (s : State) :
  (for_each_key select_key cs s = s ∨
   g_needRedraw (for_each_key select_key cs s) = true) ∧
  (g_needRedraw s = true → g_needRedraw (for_each_key select_key cs s) = true).
Proof.
  revert s. induction cs as [|c cs IH]; intros s; [by split; [left|]|].
  cbn [for_each_key fold_left]. fold (for_each_key select_key cs (select_key c s)).
  assert ((select_key c s = s ∨ g_needRedraw (select_key c s) = true) ∧
          (g_needRedraw s = true → g_needRedraw (select_key c s) = true))
    as [H1 H2].
  { unfold select_key.
    destruct (_ || _); [|destruct (_ || _)];
      try destruct (g_networkCount s >? 0); auto. }
  destruct (IH (select_key c s)) as [H3 H4]. split.
  - destruct H1 as [He|H1]; [by rewrite He in H3 |- *|]. right. auto.
  - auto.
Qed.

Lemma type_keys_dirty (cs : list ascii) (s : State) :
  (for_each_key type_key cs s = s ∨
   g_needRedraw (for_each_key type_key cs s) = true) ∧
  (g_needRedraw s = true → g_needRedraw (for_each_key type_key cs s) = true).
Proof.
  revert s. induction cs as [|c cs IH]; intros s; [by split; [left|]|].
  cbn [for_each_key fold_left]. fold (for_each_key type_key cs (type_key c s)).
  assert ((type_key c s = s ∨ g_needRedraw (type_key c s) = true) ∧
          (g_needRedraw s = true → g_needRedraw (type_key c s) = true))
    as [H1 H2].
  { unfold type_key. destruct (is_back_key c); auto. }
  destruct (IH (type_key c s)) as [H3 H4]. split.
  - destruct H1 as [He|H1]; [by rewrite He in H3 |- *|]. right. auto.
  - auto.
Qed.

Lemma scanNetworks_dirty (w : WiFiScan) (s : State) :
  g_needRedraw (scanNetworks w s) = true.
Proof. rewrite scanNetworks_offers. done. Qed.

Lemma startConnection_dirty (s : State) :
  g_needRedraw (startConnection s) = true.
Proof. unfold startConnection. by destruct (g_selectedIsOpen _). Qed.

(** Whatever [handleKeyboard] changes, it marks the display dirty. *)
Lemma handleKeyboard_dirty (kb : Keyboard) (w : WiFiScan) (s : State) :
  handleKeyboard kb w s = s ∨ g_needRedraw (handleKeyboard kb w s) = true.
Proof.
  unfold handleKeyboard.
  destruct (isChange kb); [|by left]. destruct (isPressed kb); [|by left]. simpl.
  destruct (existsb is_rescan_key _); [right; apply scanNetworks_dirty|].
  destruct (g_uiState s); try by left.
  - destruct (select_keys_dirty (word (keysState kb)) s) as [[->|H] _].
    + destruct (_ && _); [by right|by left].
    + right. by destruct (_ && _).
  - destruct (existsb is_back_key _); [by right|].
    destruct (g_selectedIsOpen s).
    { destruct (enter (keysState kb)); [right; apply startConnection_dirty|by left]. }
    destruct (type_keys_dirty (word (keysState kb)) s) as [[->|H] _].
    + destruct (enter (keysState kb)); [right; apply startConnection_dirty|].
      destruct (_ && _); [by right|by left].
    + right. destruct (enter (keysState kb)); [apply startConnection_dirty|].
      by destruct (_ && _).
Qed.

Lemma loop_before_display_dirty (t : Tick) (s : State) :
  loop_before_display t s = s ∨ g_needRedraw (loop_before_display t s) = true.
Proof.
  unfold loop_before_display.
  destruct (handleKeyboard_dirty (tick_keyboard t) (tick_scan t) s) as [->|H].
  - destruct (g_uiState s); try by left.
    unfold poll_status. destruct (tick_status t); (by left) || by right.
  - right. destruct (g_uiState (handleKeyboard _ _ s)); try done.
    unfold poll_status. by destruct (tick_status t).
Qed.

Lemma loop_before_display_rescan (t : Tick) (s : State) :
  rescan_pressed (tick_keyboard t) = true →
  g_needRedraw (loop_before_display t s) = true.
Proof.
  intros Hk. unfold loop_before_display.
  rewrite handleKeyboard_rescan by done.
  pose proof (scanNetworks_dirty (tick_scan t)
                (call (WiFi_disconnect true false) s)) as Hd.
  destruct (g_uiState (scanNetworks _ _)); try done.
  unfold poll_status. by destruct (tick_status t).
Qed.

Lemma handleKeyboard_draws_rescan (kb : Keyboard) :
  handleKeyboard_draws kb
  = if rescan_pressed kb then scanNetworks_draws else [].
Proof.
  unfold handleKeyboard_draws, rescan_pressed, pressed.
  by destruct (isChange kb), (isPressed kb).
Qed.

Lemma list_rows_flag (fuel : nat) (m : AuthModes) (env : DisplayEnv)
    (b : bool) (s : State) (i y : Z) :
  list_rows fuel m env (set_needRedraw b s) i y = list_rows fuel m env s i y.
Proof.
  revert i y. induction fuel as [|fuel IH]; intros i y; [done|].
  cbn [list_rows]. simpl_state. by rewrite IH.
Qed.

Lemma draw_state_flag (m : AuthModes) (env : DisplayEnv) (s : State) :
  draw_state m env (updateDisplayIfNeeded s) = draw_state m env s.
Proof.
  unfold updateDisplayIfNeeded. destruct (g_needRedraw s); [|done]. simpl.
  unfold draw_state, drawNetworkListScreen. simpl_state.
  by rewrite list_rows_flag.
Qed.

Lemma draw_state_clears (m : AuthModes) (env : DisplayEnv) (s : State) :
  ∃ rest, draw_state m env s = Display_clear BLACK :: rest.
Proof. unfold draw_state. destruct (g_uiState s); eexists; reflexivity. Qed.

(** A set dirty flag stays set until [updateDisplayIfNeeded]. *)
Lemma loop_before_display_keeps_dirty (t : Tick) (s : State) :
  g_needRedraw s = true → g_needRedraw (loop_before_display t s) = true.
Proof.
  intros Hf.
  assert (g_needRedraw (handleKeyboard (tick_keyboard t) (tick_scan t) s) = true)
    as Hk.
  { unfold handleKeyboard.
    destruct (isChange _); [|done]. destruct (isPressed _); [|done]. simpl.
    destruct (existsb is_rescan_key _); [apply scanNetworks_dirty|].
    destruct (g_uiState s); try done.
    - destruct (select_keys_dirty (word (keysState (tick_keyboard t))) s)
        as [_ H]. specialize (H Hf). by destruct (_ && _).
    - destruct (existsb is_back_key _); [done|].
      destruct (g_selectedIsOpen s).
      { by destruct (enter _); [apply startConnection_dirty|]. }
      destruct (type_keys_dirty (word (keysState (tick_keyboard t))) s)
        as [_ H]. specialize (H Hf).
      destruct (enter _); [apply startConnection_dirty|].
      by destruct (_ && _). }
  unfold loop_before_display.
  destruct (g_uiState (handleKeyboard _ _ s)); try done.
  unfold poll_status. by destruct (tick_status t).
Qed.

(** X6: every pass of [loop] ends with the dirty flag clear.  A pass
    entered with the flag clear redraws exactly when it has changed a
    global: if the keyboard handling and the status poll left everything
    as it was, nothing is drawn; otherwise the last thing drawn is the
    screen of the state the pass ends in, on a cleared display.  A pass
    entered with the flag set (as the first one after [setup]) draws that
    screen in any case. *)
Theorem X6_redraw_iff_changed (m : AuthModes) (env : DisplayEnv) (t : Tick)
    (s : State) :
  g_needRedraw (loop t s) = false ∧
  (g_needRedraw s = false →
   (loop_before_display t s = s ∧ loop_draws m env t s = []) ∨
   (loop_before_display t s ≠ s ∧
    loop_draws m env t s
    = handleKeyboard_draws (tick_keyboard t) ++ draw_state m env (loop t s) ∧
    ∃ rest, draw_state m env (loop t s) = Display_clear BLACK :: rest)) ∧
  (g_needRedraw s = true →
   loop_draws m env t s
   = handleKeyboard_draws (tick_keyboard t) ++ draw_state m env (loop t s) ∧
   ∃ rest, draw_state m env (loop t s) = Display_clear BLACK :: rest).
Proof.
  assert (loop t s = updateDisplayIfNeeded (loop_before_display t s)) as Hl by done.
  split; [|split].
  - rewrite Hl. unfold updateDisplayIfNeeded.
    by destruct (g_needRedraw (loop_before_display t s)) eqn:E.
  - intros Hf. rewrite Hl, draw_state_flag.
    unfold loop_draws, updateDisplayIfNeeded_draws.
    destruct (loop_before_display_dirty t s) as [He|Hd].
    + left. split; [done|]. rewrite He, Hf. simpl.
      rewrite handleKeyboard_draws_rescan.
      destruct (rescan_pressed (tick_keyboard t)) eqn:Hk; [|done].
      pose proof (loop_before_display_rescan t s Hk) as Hd.
      rewrite He in Hd. congruence.
    + right. split; [intros He; rewrite He in Hd; congruence|].
      rewrite Hd. simpl. split; [done|]. apply draw_state_clears.
  - intros Hf. rewrite Hl, draw_state_flag.
    unfold loop_draws, updateDisplayIfNeeded_draws.
    rewrite (loop_before_display_keeps_dirty t s Hf). simpl.
    split; [done|]. apply draw_state_clears.
Qed.

(** ** The network list on the display *)

Lemma list_rows_spec (fuel : nat) (m : AuthModes) (env : DisplayEnv)
    (s : State) (i : Z) :
  0 <= i → (Z.to_nat (g_networkCount s - i) ≤ fuel)%nat →
  i = 0 ∨ i < (Display_height env - 46) / 12 + 1 →
  let k := Z.min (g_networkCount s) (rows_that_fit (Display_height env)) in
  list_rows fuel m env s i (22 + 12 * i)
  = (seqZ i (k - i) ≫= (λ j, list_row m s j (22 + 12 * j)),
     22 + 12 * Z.max i k).
Proof.
  intros Hi Hf Hreach k. unfold rows_that_fit in k.
  pose proof (Z.div_mod (Display_height env - 46) 12 ltac:(lia)) as Hdm.
  pose proof (Z.mod_pos_bound (Display_height env - 46) 12 ltac:(lia)) as Hmb.
  set (q := (Display_height env - 46) / 12) in *.
  revert i Hi Hf Hreach. induction fuel as [|fuel IH]; intros i Hi Hf Hreach.
  - cbn [list_rows]. rewrite seqZ_nil by lia. f_equal. lia.
  - cbn [list_rows]. destruct (Z.ltb_spec i (g_networkCount s)) as [Hlt|Hge].
    + destruct (Z.gtb_spec (22 + 12 * i + 12) (Display_height env - 24)) as [Hb|Hb].
      * assert (k = i + 1) as -> by lia.
        replace (i + 1 - i) with 1 by lia.
        rewrite (seqZ_cons i 1), seqZ_nil by lia.
        rewrite bind_cons. cbn [mbind list_bind]. rewrite (right_id_L [] (++)).
        f_equal. lia.
      * replace (22 + 12 * i + 12) with (22 + 12 * (i + 1)) by lia.
        rewrite IH by lia. cbn [fst snd].
        rewrite (seqZ_cons i (k - i)) by lia. rewrite bind_cons.
        replace (Z.succ i) with (i + 1) by lia.
        replace (Z.pred (k - i)) with (k - (i + 1)) by lia.
        f_equal. lia.
    + rewrite seqZ_nil by lia. f_equal. lia.
Qed.

(** X11: the network list shows the first [k] held networks only, where
    [k] is the smaller of the number held and the number of rows that fit
    the display height (at least one); row [j] is drawn at height
    [22 + 12 j] and the two help lines follow at [26 + 12 k] and
    [38 + 12 k].  The selection mark is drawn exactly when the selection
    index is below [k]: a selected network beyond the rows that fit is not
    shown at all. *)
Theorem X11_list_screen_rows (m : AuthModes) (env : DisplayEnv) (s : State) :
  0 <= g_networkCount s →
  let k := Z.min (g_networkCount s) (rows_that_fit (Display_height env)) in
  drawNetworkListScreen m env s
  = clearScreen ++
    [Display_println "Selecione rede Wi-Fi:";
     Display_drawLine 0 16 (Display_width env) 16 GREEN] ++
    (seqZ 0 k ≫= (λ j, list_row m s j (22 + 12 * j))) ++
    [Display_setCursor 4 (26 + 12 * k);
     Display_println "W/S: mover   ENTER: conectar";
     Display_setCursor 4 (38 + 12 * k); Display_println "R: novo scan"] ∧
  (Display_print "> " ∈ drawNetworkListScreen m env s
   ↔ 0 <= g_selectedIndex s < k).
Proof.
  intros Hc k.
  assert (0 <= k) as Hk by (unfold k, rows_that_fit; lia).
  assert (drawNetworkListScreen m env s
          = clearScreen ++
            [Display_println "Selecione rede Wi-Fi:";
             Display_drawLine 0 16 (Display_width env) 16 GREEN] ++
            (seqZ 0 k ≫= (λ j, list_row m s j (22 + 12 * j))) ++
            [Display_setCursor 4 (26 + 12 * k);
             Display_println "W/S: mover   ENTER: conectar";
             Display_setCursor 4 (38 + 12 * k); Display_println "R: novo scan"])
    as Hscreen.
  { unfold drawNetworkListScreen.
    pose proof (list_rows_spec (Z.to_nat (g_networkCount s)) m env s 0) as Hrows.
    change (22 + 12 * 0) with 22 in Hrows.
    rewrite Hrows by (lia || (by left)). fold k. cbn [fst snd].
    replace (k - 0) with k by lia.
    replace (22 + 12 * Z.max 0 k + 4) with (26 + 12 * k) by lia.
    replace (26 + 12 * k + 12) with (38 + 12 * k) by lia. done. }
  split; [done|]. rewrite Hscreen.
  rewrite !elem_of_app, list_elem_of_bind. unfold clearScreen.
  setoid_rewrite elem_of_seqZ. rewrite !elem_of_cons, !elem_of_nil. split.
  - intros [H|[H|[(j & Hin & Hj)|H]]];
      [decompose [or] H; (discriminate || contradiction)..| |
       decompose [or] H; (discriminate || contradiction)].
    unfold list_row in Hin. rewrite !elem_of_cons, elem_of_nil in Hin.
    destruct Hin as [?|[Hin|[?|[]]]]; try done.
    destruct (Z.eqb_spec j (g_selectedIndex s)); [lia|by simplify_eq].
  - intros Hi. right. right. left. exists (g_selectedIndex s). split; [|lia].
    unfold list_row. rewrite Z.eqb_refl. right. left.
Qed.

(** ** Security labels *)

(** X12: the list labels an entry as open (Aberta) exactly when its
    security type is [WIFI_AUTH_OPEN], whatever the values of the other
    constants; so the label is Aberta exactly for the entries whose
    selection sets the open flag and skips the password. *)
Theorem X12_open_label_matches_open_flag (m : AuthModes) (w : WiFiScan)
    (s : State) (auth : Z) :
  (authTypeToString m auth = "Aberta"%string ↔ auth = WIFI_AUTH_OPEN) ∧
  (g_uiState s = UI_SELECT_NETWORK → 0 < g_networkCount s →
   let e := g_networks s !!! Z.to_nat (g_selectedIndex s) in
   g_selectedIsOpen (handleKeyboard key_enter w s) = true
   ↔ authTypeToString m (encType e) = "Aberta"%string).
Proof.
  assert (∀ a, authTypeToString m a = "Aberta"%string ↔ a = WIFI_AUTH_OPEN) as Hl.
  { intros a. unfold authTypeToString.
    destruct (Z.eqb_spec a WIFI_AUTH_OPEN); [done|].
    repeat (destruct (_ =? _); [done|]). done. }
  split; [apply Hl|]. intros Hs Hc e.
  rewrite handleKeyboard_select_enter by done. simpl_state. fold e.
  rewrite Hl. apply Z.eqb_eq.
Qed.

(** ** The selection while a network is being joined *)

Lemma select_keys_frame (cs : list ascii) (s : State) :
  g_uiState (for_each_key select_key cs s) = g_uiState s.
Proof.
  revert s. induction cs as [|c cs IH]; intros s; [done|].
  cbn [for_each_key fold_left]. fold (for_each_key select_key cs (select_key c s)).
  rewrite IH. unfold select_key.
  destruct (_ || _); [|destruct (_ || _)];
    try destruct (g_networkCount s >? 0); try done.
  - by destruct (_ <? _).
  - by destruct (_ >=? _).
Qed.

Lemma last_snoc3 (l : list WiFiCall) (a b c : WiFiCall) :
  last (l ++ [a; b; c]) = Some c.
Proof.
  change (l ++ [a; b; c]) with (l ++ [a; b] ++ [c]).
  rewrite (assoc_L (++)). apply last_snoc.
Qed.

Lemma startConnection_kept (s : State) :
  g_uiState s = UI_ENTER_PASSWORD →
  selection_kept s → selection_kept (startConnection s) ∧
  attempt_matches (startConnection s).
Proof.
  intros Hs Hk. destruct (startConnection_calls s) as [Hu Hc].
  assert (g_selectedSsid (startConnection s) = g_selectedSsid s ∧
          g_selectedIsOpen (startConnection s) = g_selectedIsOpen s ∧
          g_password (startConnection s) = g_password s ∧
          selected_entry (startConnection s) = selected_entry s)
    as (Hss & Ho & Hp & He).
  { unfold startConnection, selected_entry. simpl_state.
    by destruct (g_selectedIsOpen s) eqn:E; simpl_state; rewrite ?E. }
  split.
  - intros _ _. rewrite Hss, Ho, Hp, He. apply Hk; by rewrite Hs.
  - intros _. rewrite Hc, Hss, Ho, Hp. apply last_snoc3.
Qed.

Lemma handleKeyboard_kept (kb : Keyboard) (w : WiFiScan) (s : State) :
  selection_kept s → attempt_matches s →
  selection_kept (handleKeyboard kb w s) ∧
  attempt_matches (handleKeyboard kb w s).
Proof.
  intros Hk Ha. unfold handleKeyboard.
  destruct (isChange kb); [|done]. destruct (isPressed kb); [|done]. simpl.
  destruct (existsb is_rescan_key (word (keysState kb))).
  { set (s0 := call _ s). destruct (scanNetworks_uiState w s0) as [Hnil Hcons].
    assert (g_uiState (scanNetworks w s0) = UI_NO_NETWORKS ∨
            g_uiState (scanNetworks w s0) = UI_SELECT_NETWORK) as Hu.
    { destruct (usable w) as [|o l]; [left; by apply Hnil|right; by apply Hcons]. }
    split; [intros ? ?; by destruct Hu|].
    intros H. destruct Hu as [Hu|Hu]; rewrite Hu in H; by destruct H as [|[|]]. }
  destruct (g_uiState s) eqn:Hs; try done.
  - (* UI_SELECT_NETWORK *)
    pose proof (select_keys_frame (word (keysState kb)) s) as Hu. rewrite Hs in Hu.
    set (s1 := for_each_key select_key (word (keysState kb)) s) in *.
    destruct (enter (keysState kb) && (g_networkCount s1 >? 0)).
    + split.
      * intros _ _. unfold selected_entry. simpl_state. done.
      * intros H. simpl_state. by destruct H as [|[|]].
    + split; [intros ? ?; congruence|].
      intros H. rewrite Hu in H. by destruct H as [|[|]].
  - (* UI_ENTER_PASSWORD *)
    destruct (existsb is_back_key (word (keysState kb))).
    { split; [intros ? H; by simpl_state|].
      intros H. simpl_state. by destruct H as [|[|]]. }
    destruct (g_selectedIsOpen s) eqn:Ho.
    { destruct (enter (keysState kb)); [by apply startConnection_kept|].
      split; [done|]. intros H. rewrite Hs in H. by destruct H as [|[|]]. }
    destruct (type_keys_spec_frame (word (keysState kb)) s)
      as (Hn & Hc & Hi & Hu & Ho' & Hss & Hw).
    set (s1 := for_each_key type_key (word (keysState kb)) s) in *.
    set (s2 := if del (keysState kb) && (0 <? String.length (g_password s1))%nat
               then _ else s1).
    assert (g_uiState s2 = UI_ENTER_PASSWORD ∧ selection_kept s2) as [Hu2 Hk2].
    { assert (g_uiState s2 = UI_ENTER_PASSWORD ∧
              g_selectedSsid s2 = g_selectedSsid s ∧
              g_selectedIsOpen s2 = false ∧
              selected_entry s2 = selected_entry s) as (H1 & H2 & H3 & H4).
      { unfold s2, selected_entry. destruct (_ && _); simpl_state;
          rewrite ?Hn, ?Hi, ?Hu, ?Hss, ?Ho', ?Hs, ?Ho; done. }
      split; [done|]. intros _ _. rewrite H2, H3, H4.
      destruct Hk as (Hk1 & Hk2 & _); [by rewrite Hs..|].
      rewrite Ho in Hk2. done. }
    destruct (enter (keysState kb)); [by apply startConnection_kept|].
    split; [done|]. intros H. rewrite Hu2 in H. by destruct H as [|[|]].
Qed.

Lemma poll_status_kept (st : wl_status_t) (s : State) :
  g_uiState s = UI_CONNECTING → selection_kept s → attempt_matches s →
  selection_kept (poll_status st s) ∧ attempt_matches (poll_status st s).
Proof.
  intros Hs Hk Ha.
  assert (selection_kept s ∧ attempt_matches s →
          ∀ u b, selection_kept (set_needRedraw b (set_uiState u s)) ∧
                 attempt_matches (set_needRedraw b (set_uiState u s))) as Hmove.
  { intros _ u b. split.
    - intros _ _. unfold selected_entry. simpl_state. apply Hk; by rewrite Hs.
    - intros _. simpl_state. apply Ha. by left. }
  unfold poll_status. destruct st; try done; by apply Hmove.
Qed.

Lemma loop_kept (t : Tick) (s : State) :
  selection_kept s → attempt_matches s →
  selection_kept (loop t s) ∧ attempt_matches (loop t s).
Proof.
  intros Hk Ha. unfold loop.
  destruct (handleKeyboard_kept (tick_keyboard t) (tick_scan t) s Hk Ha)
    as [Hk1 Ha1].
  set (s1 := handleKeyboard _ _ s) in *.
  assert (selection_kept (match g_uiState s1 with
                          | UI_CONNECTING => poll_status (tick_status t) s1
                          | _ => s1
                          end) ∧
          attempt_matches (match g_uiState s1 with
                           | UI_CONNECTING => poll_status (tick_status t) s1
                           | _ => s1
                           end)) as H2.
  { destruct (g_uiState s1) eqn:Hs1; try done. by apply poll_status_kept. }
  revert H2. generalize (match g_uiState s1 with
                         | UI_CONNECTING => poll_status (tick_status t) s1
                         | _ => s1
                         end). intros s2 H2.
  unfold updateDisplayIfNeeded. by destruct (g_needRedraw s2).
Qed.

(** X14: in every reachable state past the list (EnteringPassword,
    Connecting, Connected, ConnectFailed) the selected name and open flag
    are those of the array entry under the selection index, and an open
    network has an empty password buffer; from Connecting on, the most
    recent of the recorded driver calls (mode, disconnect, scanNetworks,
    begin; status and address queries are not recorded) is the join
    request for that name, without passphrase for an open network and with
    the buffer as it still is otherwise. *)
Theorem X14_joined_network_is_the_selected_one (s : State) :
  reachable s → selection_kept s ∧ attempt_matches s.
Proof.
  induction 1 as [w|t s _ [Hk Ha]].
  - unfold setup. destruct (scanNetworks_uiState w initial_state) as [Hnil Hcons].
    assert (g_uiState (scanNetworks w initial_state) = UI_NO_NETWORKS ∨
            g_uiState (scanNetworks w initial_state) = UI_SELECT_NETWORK) as Hu.
    { destruct (usable w) as [|o l]; [left; by apply Hnil|right; by apply Hcons]. }
    split; [intros ? ?; by destruct Hu|].
    intros H. destruct Hu as [Hu|Hu]; rewrite Hu in H; by destruct H as [|[|]].
  - by apply loop_kept.
Qed.

(** ** The further theorems at concrete inputs *)

Example scenario_ties :
  ssid <$> held (scanNetworks scan_ties initial_state)
  = ["P"; "R"; "Q"; "S"]%string.
Proof. by vm_compute. Qed.

Example scenario_ninth_not_shown :
  g_selectedIndex state_full_ninth = 8 ∧
  rows_that_fit (Display_height cardputer_display) = 8 ∧
  g_uiState state_full_ninth = UI_SELECT_NETWORK.
Proof. by vm_compute. Qed.

Lemma X1_witness :
  length (g_networks initial_state) = Z.to_nat MAX_NETWORKS ∧
  let hs := held (scanNetworks scan_twelve initial_state) in
  ∃ rest,
    usable scan_twelve ≡ₚ hs ++ rest ∧
    (∀ a b, a ∈ hs → b ∈ rest → rssi b <= rssi a) ∧
    length hs = (length (usable scan_twelve) `min` Capacity)%nat ∧
    g_networkCount (scanNetworks scan_twelve initial_state)
    = Z.of_nat (length hs) ∧
    ((length (usable scan_twelve) ≤ Capacity)%nat → rest = []).
Proof.
  split; [reflexivity|].
  apply (X1_scan_keeps_strongest scan_twelve initial_state). reflexivity.
Defined.

Lemma X2_witness :
  length (g_networks state_ABC) = Z.to_nat MAX_NETWORKS ∧
  held (scanNetworks scan_ties state_ABC)
  = take Capacity (sort_desc (usable scan_ties)) ∧
  sorted_desc (sort_desc (usable scan_ties)) ∧
  sort_desc (usable scan_ties) ≡ₚ usable scan_ties.
Proof.
  assert (length (g_networks state_ABC) = Z.to_nat MAX_NETWORKS) as Hl.
  { vm_compute. reflexivity. }
  split; [exact Hl|]. apply (X2_scan_is_sort_then_cut scan_ties state_ABC Hl).
Defined.

Lemma X3_witness :
  length (g_networks initial_state) = Z.to_nat MAX_NETWORKS ∧
  filter (λ e, rssi e = -50) (held (scanNetworks scan_ties initial_state))
    `prefix_of` filter (λ e, rssi e = -50) (usable scan_ties).
Proof.
  split; [reflexivity|].
  apply (X3_scan_is_stable scan_ties initial_state (-50)). reflexivity.
Defined.

Lemma X4_witness :
  wf_set state_full ∧
  insertNetworkSorted_chk "Y" (-45) 3 state_full
  = Some (insertNetworkSorted "Y" (-45) 3 state_full) ∧
  offers_chk (usable scan_ties) state_full
  = Some (offers (usable scan_ties) state_full).
Proof.
  assert (wf_set state_full) as Hwf.
  { apply wf_setb_correct. vm_compute. reflexivity. }
  split; [exact Hwf|]. split.
  - exact (proj1 (X4_insert_stays_in_bounds state_full Hwf) _ _ _).
  - exact (proj2 (X4_insert_stays_in_bounds state_full Hwf) _).
Defined.

Lemma X5_witness :
  reachable state_typed_ab ∧
  length (g_networks state_typed_ab) = Z.to_nat MAX_NETWORKS ∧
  0 <= g_networkCount state_typed_ab <= MAX_NETWORKS ∧
  sorted_desc (held state_typed_ab) ∧
  (g_uiState state_typed_ab = UI_NO_NETWORKS ↔ g_networkCount state_typed_ab = 0) ∧
  (0 < g_networkCount state_typed_ab →
   0 <= g_selectedIndex state_typed_ab < g_networkCount state_typed_ab) ∧
  (g_networkCount state_typed_ab = 0 → g_selectedIndex state_typed_ab = 0).
Proof.
  assert (reachable state_typed_ab) as Hr.
  { apply run_reachable, reachable_state_ABC. }
  split; [exact Hr|]. apply (X5_reachable_invariants state_typed_ab Hr).
Defined.

Lemma X6_witness :
  g_needRedraw state_typed_ab = false ∧
  g_needRedraw state_ABC = true ∧
  g_needRedraw (loop (tick_key (key_char "c")) state_ABC) = false ∧
  ((loop_before_display (tick_key (key_char "c")) state_typed_ab
    = state_typed_ab ∧
    loop_draws esp32_auth_modes cardputer_display (tick_key (key_char "c"))
      state_typed_ab = []) ∨
   (loop_before_display (tick_key (key_char "c")) state_typed_ab
    ≠ state_typed_ab ∧
    loop_draws esp32_auth_modes cardputer_display (tick_key (key_char "c"))
      state_typed_ab
    = handleKeyboard_draws (tick_keyboard (tick_key (key_char "c")))
      ++ draw_state esp32_auth_modes cardputer_display
           (loop (tick_key (key_char "c")) state_typed_ab) ∧
    ∃ rest,
      draw_state esp32_auth_modes cardputer_display
        (loop (tick_key (key_char "c")) state_typed_ab)
      = Display_clear BLACK :: rest)) ∧
  (loop_draws esp32_auth_modes cardputer_display (tick_key (key_char "c"))
     state_ABC
   = handleKeyboard_draws (tick_keyboard (tick_key (key_char "c")))
     ++ draw_state esp32_auth_modes cardputer_display
          (loop (tick_key (key_char "c")) state_ABC) ∧
   ∃ rest,
     draw_state esp32_auth_modes cardputer_display
       (loop (tick_key (key_char "c")) state_ABC)
     = Display_clear BLACK :: rest).
Proof.
  assert (g_needRedraw state_typed_ab = false) as Hf.
  { vm_compute. reflexivity. }
  assert (g_needRedraw state_ABC = true) as Ht.
  { vm_compute. reflexivity. }
  split; [exact Hf|]. split; [exact Ht|]. split; [|split].
  - exact (proj1 (X6_redraw_iff_changed esp32_auth_modes cardputer_display
                    (tick_key (key_char "c")) state_ABC)).
  - exact (proj1 (proj2 (X6_redraw_iff_changed esp32_auth_modes
                           cardputer_display (tick_key (key_char "c"))
                           state_typed_ab)) Hf).
  - exact (proj2 (proj2 (X6_redraw_iff_changed esp32_auth_modes
                           cardputer_display (tick_key (key_char "c"))
                           state_ABC)) Ht).
Defined.

Lemma X7_witness :
  g_uiState state_connected = UI_CONNECTED ∧
  run [tick_status_only WL_DISCONNECTED; tick_key (key_char "x");
       tick_key key_enter] state_connected
  = updateDisplayIfNeeded state_connected ∧
  g_uiState (run [tick_status_only WL_DISCONNECTED; tick_key (key_char "x");
                  tick_key key_enter] state_connected)
  = g_uiState state_connected ∧
  wifi_calls (run [tick_status_only WL_DISCONNECTED; tick_key (key_char "x");
                   tick_key key_enter] state_connected)
  = wifi_calls state_connected.
Proof.
  assert (g_uiState state_connected = UI_CONNECTED) as Hs.
  { vm_compute. reflexivity. }
  split; [exact Hs|].
  apply (X7_resting_states_wait_for_rescan state_connected
           (tick_status_only WL_DISCONNECTED)
           [tick_key (key_char "x"); tick_key key_enter]).
  - right. left. exact Hs.
  - repeat constructor.
Defined.

Lemma X8_witness :
  reachable state_ABC ∧ g_uiState state_ABC = UI_SELECT_NETWORK ∧
  let e := g_networks state_ABC !!! Z.to_nat (g_selectedIndex state_ABC) in
  let s3 := handleKeyboard key_enter scan_ABC
              (presses ["a"; "b"]%char scan_ABC
                 (handleKeyboard key_enter scan_ABC state_ABC)) in
  e ∈ held state_ABC ∧
  g_uiState s3 = UI_CONNECTING ∧
  wifi_calls s3
  = wifi_calls state_ABC
    ++ [WiFi_mode_STA; WiFi_disconnect false false;
        WiFi_begin (ssid e)
          (if encType e =? WIFI_AUTH_OPEN then None
           else Some (string_of_list_ascii ["a"; "b"]%char))].
Proof.
  assert (g_uiState state_ABC = UI_SELECT_NETWORK) as Hs.
  { vm_compute. reflexivity. }
  split; [exact reachable_state_ABC|]. split; [exact Hs|].
  apply (X8_select_type_confirm scan_ABC state_ABC ["a"; "b"]%char
           reachable_state_ABC Hs).
  repeat constructor.
Defined.

Lemma X9_witness :
  g_uiState state_ABC = UI_SELECT_NETWORK ∧ 0 < g_networkCount state_ABC ∧
  0 <= g_selectedIndex state_ABC < g_networkCount state_ABC ∧
  handleKeyboard (key_char "s") scan_ABC
    (handleKeyboard (key_char "w") scan_ABC state_ABC)
  = set_needRedraw true state_ABC ∧
  handleKeyboard (key_char "w") scan_ABC
    (handleKeyboard (key_char "s") scan_ABC state_ABC)
  = set_needRedraw true state_ABC.
Proof.
  assert (g_uiState state_ABC = UI_SELECT_NETWORK) as Hs.
  { vm_compute. reflexivity. }
  assert (0 < g_networkCount state_ABC) as Hc.
  { vm_compute. reflexivity. }
  assert (0 <= g_selectedIndex state_ABC < g_networkCount state_ABC) as Hi.
  { split; vm_compute; [discriminate|reflexivity]. }
  split; [exact Hs|]. split; [exact Hc|]. split; [exact Hi|].
  apply (X9_up_and_down_cancel scan_ABC state_ABC "w" "s" Hs Hc Hi);
    reflexivity.
Defined.

Lemma X10_witness :
  g_uiState state_ABC = UI_SELECT_NETWORK ∧ is_back_key "Q" = true ∧
  0 < g_networkCount state_ABC ∧
  let e := g_networks state_ABC !!! Z.to_nat (g_selectedIndex state_ABC) in
  handleKeyboard (key_char "Q") scan_ABC
    (handleKeyboard key_enter scan_ABC state_ABC)
  = set_needRedraw true
      (set_password EmptyString
         (set_selectedIsOpen (encType e =? WIFI_AUTH_OPEN)
            (set_selectedSsid (ssid e) state_ABC))).
Proof.
  assert (g_uiState state_ABC = UI_SELECT_NETWORK) as Hs.
  { vm_compute. reflexivity. }
  assert (0 < g_networkCount state_ABC) as Hc.
  { vm_compute. reflexivity. }
  split; [exact Hs|]. split; [reflexivity|]. split; [exact Hc|].
  apply (proj1 (X10_confirm_then_back scan_ABC state_ABC "Q" Hs eq_refl) Hc).
Defined.

Lemma X11_witness :
  0 <= g_networkCount state_full_ninth ∧
  (Display_print "> "
     ∈ drawNetworkListScreen esp32_auth_modes cardputer_display state_full_ninth
   ↔ 0 <= g_selectedIndex state_full_ninth
        < Z.min (g_networkCount state_full_ninth)
            (rows_that_fit (Display_height cardputer_display))).
Proof.
  assert (0 <= g_networkCount state_full_ninth) as Hc.
  { vm_compute. discriminate. }
  split; [exact Hc|].
  apply (X11_list_screen_rows esp32_auth_modes cardputer_display
           state_full_ninth Hc).
Defined.

Lemma X12_witness :
  g_uiState state_ABC = UI_SELECT_NETWORK ∧ 0 < g_networkCount state_ABC ∧
  (g_selectedIsOpen (handleKeyboard key_enter scan_ABC state_ABC) = true
   ↔ authTypeToString esp32_auth_modes
       (encType (g_networks state_ABC !!! Z.to_nat (g_selectedIndex state_ABC)))
     = "Aberta"%string).
Proof.
  assert (g_uiState state_ABC = UI_SELECT_NETWORK) as Hs.
  { vm_compute. reflexivity. }
  assert (0 < g_networkCount state_ABC) as Hc.
  { vm_compute. reflexivity. }
  split; [exact Hs|]. split; [exact Hc|].
  apply (proj2 (X12_open_label_matches_open_flag esp32_auth_modes scan_ABC
                  state_ABC 0) Hs Hc).
Defined.

Lemma X13_witness :
  g_uiState state_open_B = UI_ENTER_PASSWORD ∧
  g_uiState (loop (mkTick key_enter scan_ABC WL_CONNECTED) state_open_B)
  = UI_CONNECTED ∧
  ∃ p, wifi_calls (loop (mkTick key_enter scan_ABC WL_CONNECTED) state_open_B)
       = wifi_calls state_open_B
         ++ [WiFi_mode_STA; WiFi_disconnect false false;
             WiFi_begin (g_selectedSsid state_open_B) p].
Proof.
  assert (g_uiState state_open_B = UI_ENTER_PASSWORD) as Hs.
  { vm_compute. reflexivity. }
  split; [exact Hs|].
  apply (X13_first_poll_in_same_pass (mkTick key_enter scan_ABC WL_CONNECTED)
           state_open_B Hs); reflexivity.
Defined.

Lemma X14_witness :
  reachable state_connecting ∧
  selection_kept state_connecting ∧ attempt_matches state_connecting.
Proof.
  assert (reachable state_connecting) as Hr.
  { apply run_reachable, reachable_state_ABC. }
  split; [exact Hr|].
  apply (X14_joined_network_is_the_selected_one state_connecting Hr).
Defined.
